(** * Jamla: subscription registry, routing and digest scheduling

    A shallow embedding of the core of the Jamla bot
    ([src/bot/database.py], [src/bot/channel_watcher.py], [src/bot/digest.py]
    and the three message templates of [src/bot/config.py] they use),
    followed by the properties of the specification checked against it.

    Conventions of the embedding.
    - A Python [str] is the list of its code points ([pystr]); [len] is
      [length], [s[:n]] is [take n s], [+] is [++].
    - A table of the SQLite store is the list of its rows in rowid order;
      the constraints of the schema (PRIMARY KEY, UNIQUE) are the checks the
      insert functions make, an [IntegrityError] being the branch taken when
      a check fails.  Columns that no query ever reads ([users.created_at],
      [user_channels.added_at]) are left out.
    - Time is an integer number of microseconds.  [CURRENT_TIMESTAMP] (whole
      seconds) and [datetime.now()] are read off the same clock, which only
      [asyncio.sleep] advances.
    - The Telegram clients are an oracle ([transport]): the answer to the
      k-th call is a function of k and of the arguments.  Every call, every
      sleep and every log record is appended to a trace. *)

From Stdlib Require Import ZArith Lia Ascii String.
From stdpp Require Import base list strings gmap pretty sorting.

Open Scope Z_scope.

(** ** Python strings *)

Definition pystr := list N.

(** An ASCII literal. *)
Definition str (s : string) : pystr :=
  (λ a, N_of_ascii a) <$> list_ascii_of_string s.

Arguments str : simpl never.

(** ["\n"] *)
Definition nl : pystr := [10%N].

(** [f"{n}"] for a length. *)
Definition fmt_nat (n : nat) : pystr := str (pretty n).

(** [str.lower], on the ASCII letters (Telegram handles are ASCII). *)
Definition lower_char (c : N) : N :=
  if bool_decide (65 ≤ c ∧ c ≤ 90)%N then (c + 32)%N else c.

Definition lower (s : pystr) : pystr := lower_char <$> s.

(** [s.lstrip("@")]: every leading at-sign goes. *)
Fixpoint lstrip_at (s : pystr) : pystr :=
  match s with
  | c :: s' => if bool_decide (c = 64%N) then lstrip_at s' else s
  | [] => []
  end.

(** ** The store ([database.py]) *)

Record user_row := mk_user {
  u_user_id : Z;
  u_username : option pystr;
  u_mode : pystr;
  u_digest_time : pystr;
  u_language : pystr
}.

Record channel_row := mk_channel {
  ch_id : Z;
  ch_channel_username : pystr;
  ch_channel_id : Z;
  ch_title : pystr
}.

Record post_row := mk_post {
  p_id : Z;
  p_channel_id : Z;
  p_message_id : Z;
  p_text : pystr;
  p_created_at : Z;
  p_sent : Z
}.

(** A row of [get_unsent_posts_for_user]: [p.*] with the two columns of the
    joined channel. *)
Record digest_row := mk_digest_row {
  dr_post : post_row;
  dr_channel_title : pystr;
  dr_channel_username : pystr
}.

Record database := mk_db {
  users : list user_row;
  channels : list channel_row;
  channels_seq : Z;              (* AUTOINCREMENT counter of channels.id *)
  user_channels : list (Z * Z);  (* (user_id, channel_id) *)
  posts : list post_row;
  posts_seq : Z                  (* AUTOINCREMENT counter of posts.id *)
}.

#[global] Instance user_row_eq_dec : EqDecision user_row.
Proof. solve_decision. Defined.
#[global] Instance channel_row_eq_dec : EqDecision channel_row.
Proof. solve_decision. Defined.
#[global] Instance post_row_eq_dec : EqDecision post_row.
Proof. solve_decision. Defined.
#[global] Instance digest_row_eq_dec : EqDecision digest_row.
Proof. solve_decision. Defined.

Definition set_users (db : database) (us : list user_row) : database :=
  mk_db us (channels db) (channels_seq db) (user_channels db) (posts db) (posts_seq db).

Definition set_channels (db : database) (cs : list channel_row) (seq : Z) : database :=
  mk_db (users db) cs seq (user_channels db) (posts db) (posts_seq db).

Definition set_user_channels (db : database) (ucs : list (Z * Z)) : database :=
  mk_db (users db) (channels db) (channels_seq db) ucs (posts db) (posts_seq db).

Definition set_posts (db : database) (ps : list post_row) (seq : Z) : database :=
  mk_db (users db) (channels db) (channels_seq db) (user_channels db) ps seq.

Definition empty_db : database := mk_db [] [] 0 [] [] 0.

(** First row a [SELECT ... WHERE] finds ([cursor.fetchone()]). *)
Definition fetchone {A} (P : A → Prop) `{∀ x, Decision (P x)} (rows : list A) : option A :=
  snd <$> list_find P rows.

(** [CURRENT_TIMESTAMP]: the clock, cut to whole seconds. *)
Definition current_timestamp (now : Z) : Z := now `div` 1000000 * 1000000.

Definition hours (n : Z) : Z := n * 3600 * 1000000.
Definition days (n : Z) : Z := n * 24 * 3600 * 1000000.

Definition get_or_create_user (db : database) (user_id : Z) (username : option pystr)
  : database * user_row :=
  match fetchone (λ u, u_user_id u = user_id) (users db) with
  | Some row => (db, row)
  | None =>
      let row := mk_user user_id username (str "realtime") (str "09:00") (str "uz") in
      (set_users db (users db ++ [row]), row)
  end.

Definition get_users_for_digest (db : database) (current_time : pystr) : list user_row :=
  filter (λ u, u_mode u = str "digest" ∧ u_digest_time u = current_time) (users db).

Definition add_channel (db : database) (channel_username : pystr) (channel_id : Z)
    (title : pystr) : database * Z :=
  match fetchone (λ c, ch_channel_username c = lower channel_username) (channels db) with
  | Some row =>
      let upd c :=
        if bool_decide (ch_id c = ch_id row)
        then mk_channel (ch_id c) (ch_channel_username c) channel_id title
        else c in
      (set_channels db (upd <$> channels db) (channels_seq db), ch_id row)
  | None =>
      let rowid := channels_seq db + 1 in
      (set_channels db
         (channels db ++ [mk_channel rowid (lower channel_username) channel_id title])
         rowid,
       rowid)
  end.

Definition get_channel_by_username (db : database) (channel_username : pystr)
  : option channel_row :=
  fetchone (λ c, ch_channel_username c = lower channel_username) (channels db).

Definition get_channel_by_id (db : database) (channel_id : Z) : option channel_row :=
  fetchone (λ c, ch_channel_id c = channel_id) (channels db).

(** [INSERT INTO user_channels]: the primary key (user_id, channel_id)
    rejects a second row for the pair. *)
Definition add_user_channel (db : database) (user_id channel_id : Z) : database * bool :=
  if bool_decide ((user_id, channel_id) ∈ user_channels db)
  then (db, false)
  else (set_user_channels db (user_channels db ++ [(user_id, channel_id)]), true).

Definition remove_user_channel (db : database) (user_id channel_id : Z) : database * bool :=
  let hit := filter (λ uc, uc = (user_id, channel_id)) (user_channels db) in
  (set_user_channels db (filter (λ uc, uc ≠ (user_id, channel_id)) (user_channels db)),
   bool_decide (0 < length hit)%nat).

(** [users INNER JOIN user_channels]; SQL leaves the order of the rows
    open, the embedding takes the users in table order. *)
Definition get_channel_users (db : database) (channel_db_id : Z) : list user_row :=
  u ← users db;
  _ ← filter (λ uc, uc.1 = u_user_id u ∧ uc.2 = channel_db_id) (user_channels db);
  [u].

Definition user_has_channel (db : database) (user_id channel_id : Z) : bool :=
  bool_decide ((user_id, channel_id) ∈ user_channels db).

(** [INSERT INTO posts]: UNIQUE(channel_id, message_id) rejects a second row
    for the pair; [text[:500] if text else ""]. *)
Definition add_post (db : database) (now : Z) (channel_id message_id : Z) (text : pystr)
  : database * option Z :=
  if bool_decide (Exists (λ p, p_channel_id p = channel_id ∧ p_message_id p = message_id)
                    (posts db))
  then (db, None)
  else
    let rowid := posts_seq db + 1 in
    let text' := match text with [] => [] | _ => take 500 text end in
    (set_posts db
       (posts db ++ [mk_post rowid channel_id message_id text' (current_timestamp now) 0])
       rowid,
     Some rowid).

(** [ORDER BY p.created_at DESC]: insertion into a list sorted newest
    first.  SQL leaves the order of rows of equal age open; here they stay
    in scan order. *)
Fixpoint insert_desc (r : digest_row) (l : list digest_row) : list digest_row :=
  match l with
  | [] => [r]
  | r' :: l' =>
      if bool_decide (p_created_at (dr_post r') ≤ p_created_at (dr_post r))
      then r :: l
      else r' :: insert_desc r l'
  end.

Definition order_by_created_at_desc (l : list digest_row) : list digest_row :=
  foldr insert_desc [] l.

Definition get_unsent_posts_for_user (db : database) (now : Z) (user_id : Z)
  : list digest_row :=
  let yesterday := now - hours 24 in
  order_by_created_at_desc (
    p ← posts db;
    c ← filter (λ c, p_channel_id p = ch_id c) (channels db);
    _ ← filter (λ uc, ch_id c = uc.2 ∧ uc.1 = user_id) (user_channels db);
    if bool_decide (yesterday < p_created_at p ∧ p_sent p = 0)
    then [mk_digest_row p (ch_title c) (ch_channel_username c)]
    else []).

Definition mark_posts_sent (db : database) (post_ids : list Z) : database :=
  match post_ids with
  | [] => db
  | _ =>
      let upd p :=
        if bool_decide (p_id p ∈ post_ids)
        then mk_post (p_id p) (p_channel_id p) (p_message_id p) (p_text p)
               (p_created_at p) 1
        else p in
      set_posts db (upd <$> posts db) (posts_seq db)
  end.

(** [DELETE FROM posts WHERE created_at < cutoff]; the result is
    [cursor.rowcount]. *)
Definition cleanup_old_posts (db : database) (now : Z) (ndays : Z) : database * Z :=
  let cutoff := now - days ndays in
  let gone := filter (λ p, p_created_at p < cutoff) (posts db) in
  (set_posts db (filter (λ p, ¬ p_created_at p < cutoff) (posts db)) (posts_seq db),
   Z.of_nat (length gone)).

(** ** Message templates ([config.py]) *)

Inductive message_key :=
| digest_header
| no_posts
| new_post (channel : pystr).   (* "new_post" with its [channel=] argument *)

(** [get_message]: the Russian table for ["ru"], the Uzbek one for every
    other language tag. *)
Definition get_message (lang : pystr) (key : message_key) : pystr :=
  if bool_decide (lang = str "ru") then
    match key with
    | digest_header =>
        (* "📰 <b>Сводка за 24 часа</b>\n\n" *)
        [128240; 32]%N ++ str "<b>"
          ++ [1057; 1074; 1086; 1076; 1082; 1072; 32; 1079; 1072; 32; 50; 52; 32;
              1095; 1072; 1089; 1072]%N
          ++ str "</b>" ++ nl ++ nl
    | no_posts =>
        (* "📭 За последние 24 часа новых постов нет." *)
        [128237; 32; 1047; 1072; 32; 1087; 1086; 1089; 1083; 1077; 1076; 1085; 1080;
         1077; 32; 50; 52; 32; 1095; 1072; 1089; 1072; 32; 1085; 1086; 1074; 1099;
         1093; 32; 1087; 1086; 1089; 1090; 1086; 1074; 32; 1085; 1077; 1090; 46]%N
    | new_post channel =>
        (* "📢 Новый пост от <b>{channel}</b>:" *)
        [128226; 32; 1053; 1086; 1074; 1099; 1081; 32; 1087; 1086; 1089; 1090; 32;
         1086; 1090; 32]%N
          ++ str "<b>" ++ channel ++ str "</b>:"
    end
  else
    match key with
    | digest_header =>
        (* "📰 <b>Oxirgi 24 soat xulosasi</b>\n\n" *)
        [128240%N] ++ str " <b>Oxirgi 24 soat xulosasi</b>" ++ nl ++ nl
    | no_posts =>
        (* "📭 Oxirgi 24 soatda yangi postlar yo'q." *)
        [128237%N] ++ str " Oxirgi 24 soatda yangi postlar yo'q."
    | new_post channel =>
        (* "📢 <b>{channel}</b> dan yangi post:" *)
        [128226%N] ++ str " <b>" ++ channel ++ str "</b> dan yangi post:"
    end.

(** ** The clients, the world and the effects *)

Inductive exn :=
| FloodWaitError (seconds : Z)
| UsernameNotOccupiedError
| ChannelPrivateError
| OtherError.                    (* any other [Exception] *)

Inductive result (A : Type) :=
| Ret (a : A)
| Raise (e : exn).
Arguments Ret {A} a.
Arguments Raise {A} e.

(** What [client.get_entity] resolves a handle to. *)
Inductive entity :=
| EntChannel (id : Z) (title : pystr)
| EntOther.                      (* a user or a group: not a [Channel] *)

(** The answers of Telegram; the first argument is the number of calls made
    before this one. *)
Record transport := mk_transport {
  get_entity : nat → pystr → result entity;
  send_message : nat → Z → pystr → result unit;
  forward_messages : nat → Z → Z → result unit
}.

Inductive loglevel := Debug | Info | Warning | Error.

Inductive event :=
| EvGetEntity (username : pystr)
| EvSendMessage (user_id : Z) (text : pystr)
| EvForward (user_id : Z) (message_id : Z)
| EvSleep (microseconds : Z)
| EvLog (level : loglevel).

#[global] Instance loglevel_eq_dec : EqDecision loglevel.
Proof. solve_decision. Defined.
#[global] Instance event_eq_dec : EqDecision event.
Proof. solve_decision. Defined.

Record world := mk_world {
  db : database;
  watching_channels : gset Z;    (* [ChannelWatcher._watching_channels] *)
  clock : Z;
  calls : nat;
  trace : list event
}.

(** A computation that may raise: state passing with a result. *)
Definition M (A : Type) : Type := world → world * result A.

Definition ret {A} (a : A) : M A := λ w, (w, Ret a).

Definition bind {A B} (m : M A) (k : A → M B) : M B :=
  λ w, match m w with
       | (w', Ret a) => k a w'
       | (w', Raise e) => (w', Raise e)
       end.

Notation "'let*' x := m 'in' k" := (bind m (λ x, k))
  (at level 10, x pattern, m at level 100, k at level 200).
Notation "m ;; k" := (bind m (λ _, k))
  (at level 100, k at level 200, right associativity).

(** [try: body / except Exception as e: handler e]. *)
Definition try_except {A} (body : M A) (handler : exn → M A) : M A :=
  λ w, match body w with
       | (w', Ret a) => (w', Ret a)
       | (w', Raise e) => handler e w'
       end.

(** [for x in l: body x]: an exception leaves the loop. *)
Fixpoint for_each {A} (l : list A) (body : A → M unit) : M unit :=
  match l with
  | [] => ret tt
  | x :: l' => body x ;; for_each l' body
  end.

Definition emit (e : event) (w : world) : world :=
  mk_world (db w) (watching_channels w) (clock w) (calls w) (trace w ++ [e]).

Definition log (level : loglevel) : M unit := λ w, (emit (EvLog level) w, Ret tt).

(** [await asyncio.sleep(...)]. *)
Definition sleep (microseconds : Z) : M unit :=
  λ w, (emit (EvSleep microseconds)
          (mk_world (db w) (watching_channels w) (clock w + microseconds) (calls w) (trace w)),
        Ret tt).

Definition seconds_us (s : Z) : Z := s * 1000000.

(** [datetime.now()]. *)
Definition datetime_now : M Z := λ w, (w, Ret (clock w)).

Definition read_db {A} (f : database → A) : M A := λ w, (w, Ret (f (db w))).

Definition with_db {A} (f : database → database * A) : M A :=
  λ w, let '(d, a) := f (db w) in
       (mk_world d (watching_channels w) (clock w) (calls w) (trace w), Ret a).

Definition called (e : event) (w : world) : world :=
  mk_world (db w) (watching_channels w) (clock w) (S (calls w)) (trace w ++ [e]).

(** ** The watcher ([channel_watcher.py]) *)

(** The dict [resolve_channel] returns. *)
Record channel_info := mk_channel_info {
  ci_username : pystr;
  ci_channel_id : Z;
  ci_title : pystr
}.

(** [event.get_chat()] of a new message. *)
Inductive chat :=
| ChatChannel (id : Z)
| ChatOther.                     (* not a [Channel] *)

(** The fields of a [NewMessage] event that the handler reads; [None] is
    Python's [None]. *)
Record new_message := mk_new_message {
  ev_chat : chat;
  ev_message_id : Z;
  ev_text : option pystr;
  ev_caption : option pystr
}.

(** [a or b], on values that are a string or [None]. *)
Definition py_or (a : option pystr) (b : option pystr) : option pystr :=
  match a with
  | Some (_ :: _) => a
  | _ => b
  end.

Section Clients.

Variable T : transport.

Definition call_get_entity (username : pystr) : M entity :=
  λ w, (called (EvGetEntity username) w, get_entity T (calls w) username).

Definition call_send_message (user_id : Z) (text : pystr) : M unit :=
  λ w, (called (EvSendMessage user_id text) w, send_message T (calls w) user_id text).

Definition call_forward_messages (user_id message_id : Z) : M unit :=
  λ w, (called (EvForward user_id message_id) w,
        forward_messages T (calls w) user_id message_id).

(** The [try] block of [resolve_channel]; [username] is already stripped. *)
Definition resolve_channel_try (username : pystr) : M (option channel_info) :=
  let* entity := call_get_entity username in
  match entity with
  | EntChannel id title => ret (Some (mk_channel_info username id title))
  | EntOther => log Warning ;; ret None
  end.

(** [resolve_channel]: the flood-wait handler calls the function again, so
    the recursion is bounded by [fuel] here and [None] is "no answer within
    [fuel] attempts". *)
Fixpoint resolve_channel (fuel : nat) (username : pystr) (w : world)
  : option (world * result (option channel_info)) :=
  match fuel with
  | O => None
  | S fuel' =>
      let username := lstrip_at username in
      match resolve_channel_try username w with
      | (w1, Ret r) => Some (w1, Ret r)
      | (w1, Raise UsernameNotOccupiedError) => Some ((log Warning ;; ret None) w1)
      | (w1, Raise ChannelPrivateError) => Some ((log Warning ;; ret None) w1)
      | (w1, Raise (FloodWaitError seconds)) =>
          resolve_channel fuel' username
            (fst ((log Warning ;; sleep (seconds_us seconds)) w1))
      | (w1, Raise OtherError) => Some ((log Error ;; ret None) w1)
      end
  end.

Definition _add_channel_handler (channel_id : Z) : M unit :=
  λ w,
    if bool_decide (channel_id ∈ watching_channels w) then (w, Ret tt)
    else
      log Debug
        (mk_world (db w) ({[channel_id]} ∪ watching_channels w) (clock w) (calls w)
           (trace w)).

Definition _remove_channel_handler (channel_id : Z) : M unit :=
  λ w,
    log Debug
      (mk_world (db w) (watching_channels w ∖ {[channel_id]}) (clock w) (calls w)
         (trace w)).

(** [add_channel_for_user]; the result is [(success, message_key)]. *)
Definition add_channel_for_user (fuel : nat) (user_id : Z) (channel_username : pystr)
    (w : world) : option (world * result (bool * pystr)) :=
  let '(w, _) := with_db (λ d, get_or_create_user d user_id None) w in
  let existing := get_channel_by_username (db w) channel_username in
  if match existing with
     | Some existing => user_has_channel (db w) user_id (ch_id existing)
     | None => false
     end
  then Some (w, Ret (false, str "channel_already_added"))
  else
    match resolve_channel fuel channel_username w with
    | None => None
    | Some (w, Raise e) => Some (w, Raise e)
    | Some (w, Ret None) => Some (w, Ret (false, str "channel_not_found"))
    | Some (w, Ret (Some channel_info)) =>
        Some ((let* channel_db_id :=
                 with_db (λ d, add_channel d (ci_username channel_info)
                                 (ci_channel_id channel_info) (ci_title channel_info)) in
               let* added := with_db (λ d, add_user_channel d user_id channel_db_id) in
               if added : bool then
                 _add_channel_handler (ci_channel_id channel_info) ;;
                 log Info ;;
                 ret (true, ci_title channel_info)
               else ret (false, str "channel_already_added")) w)
    end.

Definition remove_channel_for_user (user_id : Z) (channel_username : pystr)
  : M (bool * pystr) :=
  let* channel := read_db (λ d, get_channel_by_username d (lstrip_at channel_username)) in
  match channel with
  | None => ret (false, str "channel_not_in_list")
  | Some channel =>
      let* removed := with_db (λ d, remove_user_channel d user_id (ch_id channel)) in
      if removed : bool then
        let* remaining_users := read_db (λ d, get_channel_users d (ch_id channel)) in
        match remaining_users with
        | [] => _remove_channel_handler (ch_channel_id channel)
        | _ => ret tt
        end ;;
        log Info ;;
        ret (true, ch_title channel)
      else ret (false, str "channel_not_in_list")
  end.

Definition _send_realtime (user_id : Z) (event : new_message) (channel : channel_row)
    (lang : pystr) : M unit :=
  try_except
    (call_send_message user_id (get_message lang (new_post (ch_title channel))) ;;
     call_forward_messages user_id (ev_message_id event) ;;
     sleep 100000)
    (λ e, match e with
          | FloodWaitError seconds => log Warning ;; sleep (seconds_us seconds)
          | _ => log Error
          end).

(** The body of the loop over the subscribers in [handle_new_message]. *)
Definition handle_for_user (event : new_message) (channel : channel_row)
    (message_text : pystr) (user : user_row) : M unit :=
  let user_id := u_user_id user in
  let mode := u_mode user in
  let lang := u_language user in
  if bool_decide (mode = str "off") then ret tt
  else if bool_decide (mode = str "realtime") then
    _send_realtime user_id event channel lang
  else if bool_decide (mode = str "digest") then
    let* t := datetime_now in
    with_db (λ d, add_post d t (ch_id channel) (ev_message_id event) message_text) ;;
    ret tt
  else ret tt.

Definition handle_new_message (event : new_message) : M unit :=
  try_except
    (match ev_chat event with
     | ChatOther => ret tt
     | ChatChannel channel_id =>
         λ w,
           if bool_decide (channel_id ∉ watching_channels w) then (w, Ret tt)
           else
             (let* channel := read_db (λ d, get_channel_by_id d channel_id) in
              match channel with
              | None => ret tt
              | Some channel =>
                  let message_text :=
                    default [] (py_or (ev_text event) (py_or (ev_caption event) (Some []))) in
                  let* users := read_db (λ d, get_channel_users d (ch_id channel)) in
                  for_each users (handle_for_user event channel message_text)
              end) w
     end)
    (λ _, log Error).

End Clients.

(** ** The digest ([digest.py]) *)

(** The dict [channels] of [send_digest_to_user]: keys in insertion order. *)
Definition groups := list (pystr * list digest_row).

(** [if k not in channels: channels[k] = []] then [channels[k].append(post)]. *)
Fixpoint dict_append (d : groups) (k : pystr) (post : digest_row) : groups :=
  match d with
  | [] => [(k, [post])]
  | (k', v) :: d' =>
      if bool_decide (k' = k) then (k', v ++ [post]) :: d'
      else (k', v) :: dict_append d' k post
  end.

Definition group_posts (posts : list digest_row) : groups :=
  foldl (λ d post, dict_append d (dr_channel_title post) post) [] posts.

(** The text shown for a post: [text[:100] + "..."] when longer than 100. *)
Definition shown_text (post : digest_row) : pystr :=
  let text := p_text (dr_post post) in
  if bool_decide (100 < length text)%nat then take 100 text ++ str "..." else text.

(** One turn of [for post in channel_posts[:5]]. *)
Definition add_post_line (message : pystr) (post : digest_row) : pystr :=
  match shown_text post with
  | [] => message
  | text => message ++ [32; 32; 8226; 32]%N ++ text ++ nl      (* "  • {text}\n" *)
  end.

(** One turn of [for channel_title, channel_posts in channels.items()]. *)
Definition add_channel_block (message : pystr) (g : pystr * list digest_row) : pystr :=
  let '(channel_title, channel_posts) := g in
  let message :=
    message ++ [128226; 32]%N ++ str "<b>" ++ channel_title ++ str "</b> ("
      ++ fmt_nat (length channel_posts) ++ str " ta post)" ++ nl in
  let message := foldl add_post_line message (take 5 channel_posts) in
  let message :=
    if bool_decide (5 < length channel_posts)%nat
    then message ++ str "  <i>...va yana " ++ fmt_nat (length channel_posts - 5)
           ++ str " ta</i>" ++ nl
    else message in
  message ++ nl.

Definition build_digest (lang : pystr) (posts : list digest_row) : pystr :=
  foldl add_channel_block (get_message lang digest_header) (group_posts posts).

(** [strftime("%H:%M")] of the clock. *)
Definition two_digits (n : Z) : pystr :=
  if bool_decide (n < 10) then str "0" ++ fmt_nat (Z.to_nat n) else fmt_nat (Z.to_nat n).

Definition strftime_HM (t : Z) : pystr :=
  let minute := (t `div` 60000000) `mod` 1440 in
  two_digits (minute `div` 60) ++ str ":" ++ two_digits (minute `mod` 60).

Section Digest.

Variable T : transport.

Definition send_digest_to_user (user_id : Z) (lang : pystr) : M unit :=
  try_except
    (let* t := datetime_now in
     let* posts := read_db (λ d, get_unsent_posts_for_user d t user_id) in
     match posts with
     | [] => ret tt
     | _ =>
         let message := build_digest lang posts in
         call_send_message T user_id message ;;
         let post_ids := (λ p, p_id (dr_post p)) <$> posts in
         with_db (λ d, (mark_posts_sent d post_ids, tt)) ;;
         log Info
     end)
    (λ e, match e with
          | FloodWaitError seconds => log Warning ;; sleep (seconds_us seconds)
          | _ => log Error
          end).

Definition send_manual_digest (user_id : Z) (lang : pystr) : M bool :=
  let* t := datetime_now in
  let* posts := read_db (λ d, get_unsent_posts_for_user d t user_id) in
  match posts with
  | [] =>
      call_send_message T user_id (get_message lang no_posts) ;;
      ret false
  | _ =>
      send_digest_to_user user_id lang ;;
      ret true
  end.

(** [if current_time == "00:00": ...], the daily purge. *)
Definition midnight_cleanup (current_time : pystr) : M unit :=
  if bool_decide (current_time = str "00:00") then
    let* t := datetime_now in
    let* deleted := with_db (λ d, cleanup_old_posts d t 7) in
    if bool_decide (deleted ≠ 0) then log Info else ret tt
  else ret tt.

(** One turn of the [while self._running] loop of [_scheduler]. *)
Definition scheduler_turn : M unit :=
  try_except
    (let* t := datetime_now in
     let current_time := strftime_HM t in
     let* users := read_db (λ d, get_users_for_digest d current_time) in
     for_each users (λ user, send_digest_to_user (u_user_id user) (u_language user)) ;;
     midnight_cleanup current_time ;;
     sleep (seconds_us 60))
    (λ _, log Error ;; sleep (seconds_us 60)).

(** [_scheduler], stopped from outside after [turns] turns. *)
Fixpoint _scheduler (turns : nat) : M unit :=
  match turns with
  | O => ret tt
  | S n => scheduler_turn ;; _scheduler n
  end.

End Digest.


(** ** The store, continued: settings and listings ([database.py]) *)

(** [UPDATE users SET mode = ? WHERE user_id = ?]. *)
Definition update_user_mode (db : database) (user_id : Z) (mode : pystr) : database :=
  set_users db
    ((λ u, if bool_decide (u_user_id u = user_id)
           then mk_user (u_user_id u) (u_username u) mode (u_digest_time u) (u_language u)
           else u) <$> users db).

Definition update_user_digest_time (db : database) (user_id : Z) (digest_time : pystr)
  : database :=
  set_users db
    ((λ u, if bool_decide (u_user_id u = user_id)
           then mk_user (u_user_id u) (u_username u) (u_mode u) digest_time (u_language u)
           else u) <$> users db).

Definition update_user_language (db : database) (user_id : Z) (language : pystr)
  : database :=
  set_users db
    ((λ u, if bool_decide (u_user_id u = user_id)
           then mk_user (u_user_id u) (u_username u) (u_mode u) (u_digest_time u) language
           else u) <$> users db).

Definition get_user (db : database) (user_id : Z) : option user_row :=
  fetchone (λ u, u_user_id u = user_id) (users db).

Definition get_users_by_mode (db : database) (mode : pystr) : list user_row :=
  filter (λ u, u_mode u = mode) (users db).

(** [SELECT DISTINCT c.* FROM channels c INNER JOIN user_channels uc]: the
    channels that have a subscription, each row once. *)
Definition get_all_channels (db : database) : list channel_row :=
  remove_dups (
    c ← channels db;
    _ ← filter (λ uc, ch_id c = uc.2) (user_channels db);
    [c]).

(** The order of TEXT values (BINARY collation): lexicographic, by code
    point. *)
Fixpoint text_le (a b : pystr) : bool :=
  match a, b with
  | [], _ => true
  | _ :: _, [] => false
  | x :: a', y :: b' =>
      if bool_decide (x < y)%N then true
      else if bool_decide (y < x)%N then false
      else text_le a' b'
  end.

(** [ORDER BY c.title]; rows of equal title stay in scan order. *)
Fixpoint insert_by_title (c : channel_row) (l : list channel_row) : list channel_row :=
  match l with
  | [] => [c]
  | c' :: l' =>
      if text_le (ch_title c) (ch_title c') then c :: l
      else c' :: insert_by_title c l'
  end.

Definition order_by_title (l : list channel_row) : list channel_row :=
  foldr insert_by_title [] l.

Definition get_user_channels (db : database) (user_id : Z) : list channel_row :=
  order_by_title (
    c ← channels db;
    _ ← filter (λ uc, ch_id c = uc.2 ∧ uc.1 = user_id) (user_channels db);
    [c]).

(** ** The watcher, continued *)

(** [ChannelWatcher.start]: the watch set is rebuilt from the store. *)
Definition start : M unit :=
  let* channels := read_db get_all_channels in
  for_each channels (λ channel, _add_channel_handler (ch_channel_id channel)) ;;
  log Info.
(** * Vocabulary of the properties *)

Definition post_key (p : post_row) : Z * Z := (p_channel_id p, p_message_id p).

(** The UNIQUE(channel_id, message_id) constraint of the [posts] table. *)
Definition posts_unique (d : database) : Prop := NoDup (post_key <$> posts d).

(** The stored posts of a channel with a given external message id. *)
Definition stored_posts (d : database) (channel_id message_id : Z) : list post_row :=
  filter (λ p, p_channel_id p = channel_id ∧ p_message_id p = message_id) (posts d).


(** The subscription rows of a (user, channel) pair; the primary key of
    [user_channels] is [NoDup] of the table. *)
Definition subscription_rows (d : database) (user_id channel_id : Z) : list (Z * Z) :=
  filter (λ uc, uc = (user_id, channel_id)) (user_channels d).

(** A transport that accepts everything and resolves every handle to the
    channel 100 titled "News". *)
Definition ok_transport : transport :=
  mk_transport (λ _ _, Ret (EntChannel 100 (str "News"))) (λ _ _ _, Ret tt) (λ _ _ _, Ret tt).

(** A transport whose first [flood] calls are answered by a flood wait of
    [seconds] and which accepts everything afterwards. *)
Definition flooding_transport (flood : nat) (seconds : Z) : transport :=
  mk_transport
    (λ k _, if bool_decide (k < flood)%nat then Raise (FloodWaitError seconds)
            else Ret (EntChannel 100 (str "News")))
    (λ k _ _, if bool_decide (k < flood)%nat then Raise (FloodWaitError seconds) else Ret tt)
    (λ k _ _, if bool_decide (k < flood)%nat then Raise (FloodWaitError seconds) else Ret tt).

(** A transport that fails every delivery to [user_id] and accepts the
    others. *)
Definition failing_for (user_id : Z) : transport :=
  mk_transport (λ _ _, Ret (EntChannel 100 (str "News")))
    (λ _ u _, if bool_decide (u = user_id) then Raise OtherError else Ret tt)
    (λ _ u _, if bool_decide (u = user_id) then Raise OtherError else Ret tt).

Definition start_world (d : database) (watching : list Z) : world :=
  mk_world d (list_to_set watching) 0 0 [].

(** User 7 (realtime) subscribes to the channel @news, external id 100. *)
Definition one_subscriber_db : database :=
  mk_db [mk_user 7 None (str "realtime") (str "09:00") (str "uz")]
        [mk_channel 1 (str "news") 100 (str "News")] 1
        [(7, 1)] [] 0.

(** The events a computation appended to the trace. *)
Definition events_since (w w' : world) : list event :=
  drop (length (trace w)) (trace w').

(** The calls to [bot.send_message] in a trace. *)
Definition sends (evs : list event) : list (Z * pystr) :=
  omap (λ e, match e with EvSendMessage u x => Some (u, x) | _ => None end) evs.

(** The calls to [client.get_entity] in a trace. *)
Definition resolutions (evs : list event) : list pystr :=
  omap (λ e, match e with EvGetEntity x => Some x | _ => None end) evs.


(** The keys of a list in the order of their first occurrence. *)
Fixpoint first_seen (l : list pystr) : list pystr :=
  match l with
  | [] => []
  | k :: l' => k :: filter (λ k', k' ≠ k) (first_seen l')
  end.

(** Grouping as the specification words it: one group per title, in the
    order in which the titles are first met, each with its posts in the
    order fetched. *)
Definition groups_by_title (posts : list digest_row) : groups :=
  (λ k, (k, filter (λ p, dr_channel_title p = k) posts))
    <$> first_seen (dr_channel_title <$> posts).

(** The lines of a digest. *)
Inductive digest_line :=
| LHeader (title : pystr) (count : nat)   (* channel title and post count *)
| LPost (text : pystr)                    (* a listed post *)
| LMore (count : nat)                     (* the "+N more" marker *)
| LBlank.

#[global] Instance digest_line_eq_dec : EqDecision digest_line.
Proof. solve_decision. Defined.

Definition render_line (l : digest_line) : pystr :=
  match l with
  | LHeader title n =>
      [128226; 32]%N ++ str "<b>" ++ title ++ str "</b> (" ++ fmt_nat n ++ str " ta post)" ++ nl
  | LPost text => [32; 32; 8226; 32]%N ++ text ++ nl
  | LMore n => str "  <i>...va yana " ++ fmt_nat n ++ str " ta</i>" ++ nl
  | LBlank => nl
  end.

(** The posts of a group that get a line: those among the first five whose
    text is not empty. *)
Definition listed_posts (channel_posts : list digest_row) : list digest_row :=
  filter (λ p, shown_text p ≠ []) (take 5 channel_posts).

Definition group_lines (g : pystr * list digest_row) : list digest_line :=
  LHeader g.1 (length g.2)
  :: (LPost ∘ shown_text <$> listed_posts g.2)
  ++ (if bool_decide (5 < length g.2)%nat then [LMore (length g.2 - 5)] else [])
  ++ [LBlank].

Definition digest_lines (posts : list digest_row) : list digest_line :=
  groups_by_title posts ≫= group_lines.

Definition is_post_line (l : digest_line) : Prop :=
  match l with LPost _ => True | _ => False end.

#[global] Instance is_post_line_dec (l : digest_line) : Decision (is_post_line l).
Proof. destruct l; simpl; apply _. Defined.

(** The ids of the rows a digest fetched. *)
Definition post_ids (posts : list digest_row) : list Z :=
  (λ p, p_id (dr_post p)) <$> posts.

(** The world after a digest was delivered: one call to the bot, the fetched
    posts marked, one info record. *)
Definition delivered (w : world) (user_id : Z) (message : pystr) (ids : list Z) : world :=
  mk_world (mark_posts_sent (db w) ids) (watching_channels w) (clock w) (S (calls w))
    (trace w ++ [EvSendMessage user_id message; EvLog Info]).

(** Two channels titled "News", one post each, both subscribed by user 7. *)
Definition same_title_db : database :=
  mk_db [mk_user 7 None (str "digest") (str "09:00") (str "uz")]
        [mk_channel 1 (str "news_a") 100 (str "News");
         mk_channel 2 (str "news_b") 200 (str "News")] 2
        [(7, 1); (7, 2)]
        [mk_post 1 1 501 (str "from A") 2000000 0;
         mk_post 2 2 901 (str "from B") 1000000 0] 2.

(** The row of a post once it is marked as sent. *)
Definition sent_row (p : post_row) : post_row :=
  mk_post (p_id p) (p_channel_id p) (p_message_id p) (p_text p) (p_created_at p) 1.

(** User 7 (digest mode) follows "News"; the newer of its two unsent posts
    has no text. *)
Definition empty_text_db : database :=
  mk_db [mk_user 7 None (str "digest") (str "09:00") (str "uz")]
        [mk_channel 1 (str "news") 100 (str "News")] 1
        [(7, 1)]
        [mk_post 1 1 501 (str "first") 1000000 0;
         mk_post 2 1 502 [] 2000000 0] 2.



Definition is_log (e : event) : Prop :=
  match e with EvLog _ => True | _ => False end.



(** A handle that resolves: every call to [get_entity] for it answers with
    a channel. *)
Definition always_resolves (T : transport) (handle : pystr) : Prop :=
  ∀ k, ∃ id title, get_entity T k (lstrip_at handle) = Ret (EntChannel id title).

(** The early check of [add_channel_for_user]. *)
Definition already_added (d : database) (user_id : Z) (handle : pystr) : bool :=
  match get_channel_by_username d handle with
  | Some existing => user_has_channel d user_id (ch_id existing)
  | None => false
  end.

(** A transport that knows no handle. *)
Definition unknown_handle_transport : transport :=
  mk_transport (λ _ _, Raise UsernameNotOccupiedError) (λ _ _ _, Ret tt) (λ _ _ _, Ret tt).

(** The constraints of the schema: the primary keys, the UNIQUE columns and
    the AUTOINCREMENT counters (a counter is never below a row id in use). *)
Definition store_ok (d : database) : Prop :=
  NoDup (u_user_id <$> users d)
  ∧ NoDup (ch_id <$> channels d)
  ∧ NoDup (ch_channel_username <$> channels d)
  ∧ Forall (λ c, ch_id c ≤ channels_seq d) (channels d)
  ∧ NoDup (user_channels d)
  ∧ NoDup (post_key <$> posts d)
  ∧ NoDup (p_id <$> posts d)
  ∧ Forall (λ p, p_id p ≤ posts_seq d) (posts d).

(** A user row with one setting replaced. *)
Definition with_mode (mode : pystr) (u : user_row) : user_row :=
  mk_user (u_user_id u) (u_username u) mode (u_digest_time u) (u_language u).

Definition with_digest_time (digest_time : pystr) (u : user_row) : user_row :=
  mk_user (u_user_id u) (u_username u) (u_mode u) digest_time (u_language u).

Definition with_language (language : pystr) (u : user_row) : user_row :=
  mk_user (u_user_id u) (u_username u) (u_mode u) (u_digest_time u) language.

(** Two stores that differ at most in their [users] table. *)
Definition same_but_users (d d' : database) : Prop :=
  channels d' = channels d ∧ channels_seq d' = channels_seq d
  ∧ user_channels d' = user_channels d
  ∧ posts d' = posts d ∧ posts_seq d' = posts_seq d.

(** Newest first. *)
Definition newer_or_same (a b : digest_row) : Prop :=
  p_created_at (dr_post b) ≤ p_created_at (dr_post a).

(** Users 7 and 8, both in digest mode: "News" is followed by both,
    "Sport" by user 8 only; each channel has one unsent post. *)
Definition shared_channel_db : database :=
  mk_db [mk_user 7 None (str "digest") (str "09:00") (str "uz");
         mk_user 8 None (str "digest") (str "10:00") (str "uz")]
        [mk_channel 1 (str "news") 100 (str "News");
         mk_channel 2 (str "sport") 200 (str "Sport")] 2
        [(7, 1); (8, 1); (8, 2)]
        [mk_post 1 1 501 (str "hello") 1000000 0;
         mk_post 2 2 901 (str "goal") 1500000 0] 2.






(** [ORDER BY c.title]: a row does not come after a row of a smaller
    title. *)
Definition title_le (a b : channel_row) : Prop :=
  text_le (ch_title a) (ch_title b) = true.
(** * Properties *)

(** ** Tactics and basic facts *)

Lemma fetchone_Some {A} (P : A → Prop) `{∀ x, Decision (P x)} (rows : list A) (x : A) :
  fetchone P rows = Some x → x ∈ rows ∧ P x.
Proof.
  unfold fetchone. destruct (list_find P rows) as [[i y]|] eqn:E; simpl; [|done].
  intros [= <-]. apply list_find_Some in E as (Hl & HP & _).
  split; [by eapply list_elem_of_lookup_2|done].
Qed.

Lemma fetchone_None {A} (P : A → Prop) `{∀ x, Decision (P x)} (rows : list A) :
  fetchone P rows = None ↔ Forall (λ x, ¬ P x) rows.
Proof.
  unfold fetchone. rewrite fmap_None. apply list_find_None.
Qed.

Lemma filter_none {A} (P : A → Prop) `{∀ x, Decision (P x)} (l : list A) :
  Forall (λ x, ¬ P x) l → filter P l = [].
Proof.
  induction 1 as [|x l Hx _ IH]; [done|].
  rewrite filter_cons. by case_decide.
Qed.

(** ** The store: posts *)

Lemma stored_posts_unique_le (ps : list post_row) (c m : Z) :
  NoDup (post_key <$> ps) →
  (length (filter (λ p, p_channel_id p = c ∧ p_message_id p = m) ps) ≤ 1)%nat.
Proof.
  induction ps as [|p ps IH]; simpl; [lia|].
  rewrite NoDup_cons. intros [Hp Hnd].
  rewrite filter_cons. case_decide as Hk; simpl; [|by apply IH].
  assert (filter (λ p, p_channel_id p = c ∧ p_message_id p = m) ps = []) as ->; [|simpl; lia].
  apply filter_none. apply Forall_forall. intros q Hq [Hc Hm].
  apply Hp. apply list_elem_of_fmap. exists q. split; [|done].
  unfold post_key. destruct Hk as [-> ->]. by rewrite Hc, Hm.
Qed.

Lemma add_post_duplicate (d : database) (t c m : Z) (x : pystr) :
  Exists (λ p, p_channel_id p = c ∧ p_message_id p = m) (posts d) →
  add_post d t c m x = (d, None).
Proof. intros H. unfold add_post. by rewrite bool_decide_eq_true_2. Qed.

Lemma add_post_fresh (d : database) (t c m : Z) (x : pystr) :
  ¬ Exists (λ p, p_channel_id p = c ∧ p_message_id p = m) (posts d) →
  add_post d t c m x =
    (set_posts d
       (posts d ++ [mk_post (posts_seq d + 1) c m
                      (match x with [] => [] | _ => take 500 x end)
                      (current_timestamp t) 0])
       (posts_seq d + 1),
     Some (posts_seq d + 1)).
Proof. intros H. unfold add_post. by rewrite bool_decide_eq_false_2. Qed.

Lemma add_post_preserves_unique (d : database) (t c m : Z) (x : pystr) :
  posts_unique d → posts_unique (add_post d t c m x).1.
Proof.
  intros Hu.
  destruct (decide (Exists (λ p, p_channel_id p = c ∧ p_message_id p = m) (posts d)))
    as [He|He].
  - by rewrite add_post_duplicate.
  - rewrite add_post_fresh by done. unfold posts_unique in *. simpl.
    rewrite fmap_app. apply NoDup_app. split; [done|]. split; [|apply NoDup_singleton].
    intros k Hk Hk'. apply list_elem_of_singleton in Hk'. subst k.
    apply list_elem_of_fmap in Hk as (q & Hq & Hin). apply He.
    apply Exists_exists. exists q. split; [done|]. unfold post_key in Hq.
    simpl in Hq. by injection Hq as -> ->.
Qed.

(** C1. Recording the same (channel, external message id) twice leaves
    exactly one stored post for the pair: the second [add_post] returns
    [None] (the duplicate is reported, nothing is raised) and leaves the
    store as the first call left it. *)
Theorem add_post_twice_one_post (d : database) (t1 t2 c m : Z) (x1 x2 : pystr) :
  posts_unique d →
  let d1 := (add_post d t1 c m x1).1 in
  let r2 := add_post d1 t2 c m x2 in
  r2.2 = None ∧ r2.1 = d1 ∧ length (stored_posts r2.1 c m) = 1%nat ∧ posts_unique r2.1.
Proof.
  intros Hu d1 r2.
  assert (Exists (λ p, p_channel_id p = c ∧ p_message_id p = m) (posts d1)) as He1.
  { subst d1.
    destruct (decide (Exists (λ p, p_channel_id p = c ∧ p_message_id p = m) (posts d)))
      as [He|He].
    - by rewrite add_post_duplicate.
    - rewrite add_post_fresh by done. simpl. apply Exists_app. right.
      by apply Exists_cons_hd. }
  assert (posts_unique d1) as Hu1 by (by apply add_post_preserves_unique).
  subst r2. rewrite add_post_duplicate by done. simpl.
  repeat split; [|done].
  pose proof (stored_posts_unique_le (posts d1) c m Hu1) as Hle.
  apply Exists_exists in He1 as (q & Hq & HP).
  assert (q ∈ stored_posts d1 c m) as Hin by (by apply list_elem_of_filter).
  unfold stored_posts in *.
  destruct (filter _ (posts d1)) as [|? [|? ?]]; simpl in *; [|done|lia].
  by apply elem_of_nil in Hin.
Qed.

Lemma add_post_twice_one_post_witness :
  let r2 := add_post (add_post empty_db 5000000 1 42 (str "hello")).1 9000000 1 42 (str "again") in
  r2.2 = None ∧ r2.1 = (add_post empty_db 5000000 1 42 (str "hello")).1
  ∧ length (stored_posts r2.1 1 42) = 1%nat ∧ posts_unique r2.1.
Proof.
  apply (add_post_twice_one_post empty_db 5000000 9000000 1 42 (str "hello") (str "again")).
  unfold posts_unique. simpl. apply NoDup_nil_2.
Defined.

(** The first of two equal ingestions of a new message does store it. *)
Example add_post_first_records :
  add_post empty_db 5000000 1 42 (str "hello") =
    (mk_db [] [] 0 [] [mk_post 1 1 42 (str "hello") 5000000 0] 1, Some 1).
Proof. reflexivity. Qed.

(** C8. [cleanup_old_posts] with the 7-day window deletes a stored post
    exactly when its [created_at] is before the cutoff (now minus 7 days),
    whatever its [sent] flag; the posts that are not older stay, unchanged
    and in their order; no other table changes; the result is the number of
    rows deleted. *)
Theorem cleanup_old_posts_purges_exactly (d : database) (t : Z) :
  let d' := (cleanup_old_posts d t 7).1 in
  let removed := (cleanup_old_posts d t 7).2 in
  (∀ p, p ∈ posts d → (p ∉ posts d' ↔ p_created_at p < t - days 7))
  ∧ (∀ p, p ∈ posts d' → p ∈ posts d)
  ∧ posts d' `sublist_of` posts d
  ∧ removed = Z.of_nat (length (posts d)) - Z.of_nat (length (posts d'))
  ∧ removed = Z.of_nat (length (filter (λ p, p_created_at p < t - days 7) (posts d)))
  ∧ users d' = users d ∧ channels d' = channels d
  ∧ user_channels d' = user_channels d.
Proof.
  simpl. split_and!; try done.
  - intros p Hp. rewrite list_elem_of_filter. split.
    + intros Hn. destruct (decide (p_created_at p < t - days 7)); [done|].
      by destruct Hn.
    + intros Hold [Hn _]. by apply Hn.
  - intros p Hp. by apply list_elem_of_filter in Hp as [_ ?].
  - apply sublist_filter.
  - pose proof (filter_app_complement (λ p, p_created_at p < t - days 7) (posts d)) as HP.
    apply Permutation_length in HP. rewrite length_app in HP. lia.
Qed.

(** At 00:00 a scheduler turn with no due user purges the posts older than
    7 days, logs the count and sleeps a minute. *)
Example scheduler_turn_at_midnight :
  let t := days 30 in
  let d := mk_db [] [] 0 [] [mk_post 1 1 11 (str "a") (t - days 8) 0;
                             mk_post 2 1 12 (str "b") (t - days 1) 1] 2 in
  scheduler_turn ok_transport (mk_world d ∅ t 0 [])
  = (mk_world (mk_db [] [] 0 [] [mk_post 2 1 12 (str "b") (t - days 1) 1] 2) ∅
       (t + 60000000) 0 [EvLog Info; EvSleep 60000000],
     Ret tt).
Proof. vm_compute. reflexivity. Qed.

(** A post that is 8 days old goes, a post that is 1 day old stays, sent or
    not. *)
Example cleanup_old_posts_retention :
  let t := days 30 in
  let old i s := mk_post i 1 (10 + i) (str "a") (t - days 8) s in
  let young i s := mk_post i 1 (10 + i) (str "b") (t - days 1) s in
  cleanup_old_posts (mk_db [] [] 0 [] [old 1 0; young 2 0; old 3 1; young 4 1] 4) t 7
  = (mk_db [] [] 0 [] [young 2 0; young 4 1] 4, 2).
Proof. reflexivity. Qed.

(** ** The watch set *)

Lemma get_channel_users_no_subscription (d : database) (id : Z) :
  (∀ u, (u, id) ∉ user_channels d) → get_channel_users d id = [].
Proof.
  intros Hno. unfold get_channel_users.
  induction (users d) as [|u us IH]; [done|].
  rewrite bind_cons, IH, app_nil_r.
  rewrite filter_none; [done|].
  apply Forall_forall. intros [u' c'] Hin [Hu Hc]. simpl in *. subst.
  by apply (Hno (u_user_id u)).
Qed.

(** An event of a channel outside the watch set is dropped: nothing is
    stored, nothing is sent, nothing is logged. *)
Lemma handle_new_message_not_watched (T : transport) (event : new_message) (w : world)
    (channel_id : Z) :
  ev_chat event = ChatChannel channel_id →
  channel_id ∉ watching_channels w →
  handle_new_message T event w = (w, Ret tt).
Proof.
  intros Hc Hw. unfold handle_new_message, try_except. rewrite Hc.
  by rewrite bool_decide_eq_true_2.
Qed.

(** Whatever the watch set says, an event whose channel row has no
    subscription row reaches no subscriber. *)
Lemma handle_new_message_no_subscription (T : transport) (event : new_message) (w : world)
    (channel_id : Z) (c : channel_row) :
  ev_chat event = ChatChannel channel_id →
  get_channel_by_id (db w) channel_id = Some c →
  (∀ u, (u, ch_id c) ∉ user_channels (db w)) →
  handle_new_message T event w = (w, Ret tt).
Proof.
  intros Hc Hrow Hno. unfold handle_new_message, try_except. rewrite Hc.
  case_bool_decide; [done|].
  unfold bind, read_db. rewrite Hrow.
  by rewrite get_channel_users_no_subscription.
Qed.

(** C2. When the only subscriber of a channel unsubscribes, the channel's
    external id leaves the watch set, and every later event of that channel
    is dropped: the store (so the posts) and the trace (so the deliveries)
    are what they were.  More generally the handler does nothing for an
    event whose channel row has no subscription. *)
Theorem unsubscribed_channel_generates_nothing (T : transport) (w : world)
    (user_id : Z) (handle : pystr) (c : channel_row) (title : pystr) :
  get_channel_by_username (db w) (lstrip_at handle) = Some c →
  (∀ u, (u, ch_id c) ∈ user_channels (db w) → u = user_id) →
  (remove_channel_for_user user_id handle w).2 = Ret (true, title) →
  let w' := (remove_channel_for_user user_id handle w).1 in
  (ch_channel_id c ∉ watching_channels w')
  ∧ (∀ u, (u, ch_id c) ∉ user_channels (db w'))
  ∧ (∀ event, ev_chat event = ChatChannel (ch_channel_id c) →
       handle_new_message T event w' = (w', Ret tt))
  ∧ (∀ event id c' (w0 : world),
       ev_chat event = ChatChannel id →
       get_channel_by_id (db w0) id = Some c' →
       (∀ u, (u, ch_id c') ∉ user_channels (db w0)) →
       handle_new_message T event w0 = (w0, Ret tt)).
Proof.
  intros Hc Honly Hres w'.
  assert (∀ u, (u, ch_id c)
               ∉ filter (λ uc, uc ≠ (user_id, ch_id c)) (user_channels (db w))) as Hgone.
  { intros u Hin. apply list_elem_of_filter in Hin as [Hne Hin].
    apply Hne. by rewrite (Honly u Hin). }
  assert ((ch_channel_id c ∉ watching_channels w')
          ∧ user_channels (db w')
            = filter (λ uc, uc ≠ (user_id, ch_id c)) (user_channels (db w))) as [Hw Hucs].
  { subst w'. revert Hres.
    unfold remove_channel_for_user, bind, read_db, with_db. rewrite Hc. simpl.
    case_bool_decide; simpl; [|done]. intros _.
    rewrite get_channel_users_no_subscription by (simpl; apply Hgone).
    simpl. split; [|done].
    apply not_elem_of_difference. right. by apply elem_of_singleton. }
  split_and!; [done| |intros; by eapply handle_new_message_not_watched|].
  - intros u. rewrite Hucs. apply Hgone.
  - intros. by eapply handle_new_message_no_subscription.
Qed.

Lemma unsubscribed_channel_generates_nothing_witness :
  let w := start_world one_subscriber_db [100] in
  let w' := (remove_channel_for_user 7 (str "@News") w).1 in
  (100 ∉ watching_channels w')
  ∧ (∀ u, (u, 1) ∉ user_channels (db w'))
  ∧ (∀ event, ev_chat event = ChatChannel 100 →
       handle_new_message ok_transport event w' = (w', Ret tt))
  ∧ (∀ event id c' (w0 : world),
       ev_chat event = ChatChannel id →
       get_channel_by_id (db w0) id = Some c' →
       (∀ u, (u, ch_id c') ∉ user_channels (db w0)) →
       handle_new_message ok_transport event w0 = (w0, Ret tt)).
Proof.
  apply (unsubscribed_channel_generates_nothing ok_transport
           (start_world one_subscriber_db [100]) 7 (str "@News")
           (mk_channel 1 (str "news") 100 (str "News")) (str "News")).
  - reflexivity.
  - intros u Hu. apply list_elem_of_singleton in Hu. congruence.
  - reflexivity.
Defined.

(** ** Loops and failures *)

(** A loop whose body never raises runs its body on every element. *)
Lemma for_each_total {A} (body : A → M unit) (l : list A) (w : world) :
  (∀ x w0, (body x w0).2 = Ret tt) →
  for_each l body w = (foldl (λ w0 x, (body x w0).1) w l, Ret tt).
Proof.
  intros Hbody. revert w. induction l as [|x l IH]; intros w; [done|].
  simpl. unfold bind at 1. specialize (Hbody x w).
  destruct (body x w) as [w1 r]. simpl in *. subst r. apply IH.
Qed.

(** A loop leaves at the first element whose body raises. *)
Lemma for_each_raise {A} (body : A → M unit) (l1 l2 : list A) (x : A) (w : world) (e : exn) :
  (∀ y w0, y ∈ l1 → (body y w0).2 = Ret tt) →
  (body x (foldl (λ w0 y, (body y w0).1) w l1)).2 = Raise e →
  for_each (l1 ++ x :: l2) body w
  = ((body x (foldl (λ w0 y, (body y w0).1) w l1)).1, Raise e).
Proof.
  revert w. induction l1 as [|y l1 IH]; intros w Hok Hx; simpl in *.
  - unfold bind. destruct (body x w) as [w1 r]. simpl in *. by subst r.
  - unfold bind at 1. pose proof (Hok y w (list_elem_of_here _ _)) as Hy.
    destruct (body y w) as [w1 r]. simpl in *. subst r.
    apply IH; [|done]. intros z w0 Hz. apply Hok. by apply list_elem_of_further.
Qed.

Lemma foldl_prefix {A B} (f : A → B → A) (g : A → list event) (l : list B) (a : A) :
  (∀ a0 x, g a0 `prefix_of` g (f a0 x)) →
  g a `prefix_of` g (foldl f a l).
Proof.
  intros Hf. revert a. induction l as [|x l IH]; intros a; simpl; [done|].
  etrans; [apply Hf|apply IH].
Qed.

Ltac run_M :=
  unfold try_except, bind, ret, log, sleep, datetime_now, read_db, with_db,
    call_send_message, call_forward_messages, call_get_entity; simpl.




Lemma add_post_keeps_posts (d : database) (t c m : Z) (x : pystr) :
  posts d `prefix_of` posts (add_post d t c m x).1.
Proof.
  unfold add_post. case_bool_decide; simpl; [done|]. by apply prefix_app_r.
Qed.



(** ** The digest: grouping *)

Lemma first_seen_elem (l : list pystr) (k : pystr) : k ∈ first_seen l ↔ k ∈ l.
Proof.
  induction l as [|a l IH]; simpl; [done|].
  rewrite !elem_of_cons, list_elem_of_filter, IH.
  destruct (decide (k = a)); tauto.
Qed.

Lemma first_seen_NoDup (l : list pystr) : NoDup (first_seen l).
Proof.
  induction l as [|a l IH]; simpl; [apply NoDup_nil_2|].
  apply NoDup_cons. split; [|by apply NoDup_filter].
  rewrite list_elem_of_filter. intros [Hne _]. by apply Hne.
Qed.

Lemma first_seen_snoc (l : list pystr) (k : pystr) :
  first_seen (l ++ [k]) = if decide (k ∈ l) then first_seen l else first_seen l ++ [k].
Proof.
  induction l as [|a l IH]; simpl.
  - done.
  - rewrite IH. destruct (decide (k ∈ l)) as [Hin|Hin].
    + rewrite decide_True by (by apply list_elem_of_further). done.
    + rewrite filter_app. destruct (decide (k = a)) as [->|Hne].
      * rewrite decide_True by apply list_elem_of_here.
        rewrite (filter_none _ [a]); [by rewrite app_nil_r|].
        apply Forall_singleton. intros Hne. by apply Hne.
      * rewrite decide_False by (rewrite elem_of_cons; tauto).
        rewrite filter_cons, decide_True by done. done.
Qed.

(** Appending a post to the dict of the posts grouped so far. *)
Lemma dict_append_groups (l : list digest_row) (ks : list pystr) (x : digest_row) :
  NoDup ks →
  (dr_channel_title x ∉ ks → Forall (λ p, dr_channel_title p ≠ dr_channel_title x) l) →
  dict_append ((λ k, (k, filter (λ p, dr_channel_title p = k) l)) <$> ks)
    (dr_channel_title x) x
  = (λ k, (k, filter (λ p, dr_channel_title p = k) (l ++ [x])))
      <$> (if decide (dr_channel_title x ∈ ks) then ks else ks ++ [dr_channel_title x]).
Proof.
  intros Hnd Hnew.
  assert (∀ k, k ≠ dr_channel_title x →
            filter (λ p, dr_channel_title p = k) (l ++ [x])
            = filter (λ p, dr_channel_title p = k) l) as Hother.
  { intros k Hk. rewrite filter_app, (filter_none _ [x]); [by rewrite app_nil_r|].
    apply Forall_singleton. congruence. }
  induction ks as [|k ks IH]; csimpl.
  - rewrite filter_app, (filter_none _ l), filter_cons, decide_True; [done..|].
    apply Hnew, not_elem_of_nil.
  - apply NoDup_cons in Hnd as [Hk Hnd]. case_bool_decide as Heq.
    + subst k. rewrite decide_True by apply list_elem_of_here. csimpl.
      rewrite filter_app, (filter_cons _ x), decide_True by done. csimpl.
      f_equal. apply list_fmap_ext. intros i k Hi. csimpl. f_equal.
      symmetry. apply Hother. intros ->. apply Hk. by eapply list_elem_of_lookup_2.
    + rewrite IH; [|done|].
      * destruct (decide (dr_channel_title x ∈ ks)) as [Hin|Hin].
        -- rewrite decide_True by (by apply list_elem_of_further).
           csimpl. by rewrite Hother.
        -- rewrite decide_False by (rewrite elem_of_cons; intros [?|?]; congruence).
           csimpl. by rewrite Hother.
      * intros Hn. apply Hnew. rewrite elem_of_cons. intros [?|?]; congruence.
Qed.

Lemma group_posts_snoc (l : list digest_row) (x : digest_row) :
  group_posts (l ++ [x]) = dict_append (group_posts l) (dr_channel_title x) x.
Proof. unfold group_posts. by rewrite foldl_snoc. Qed.

(** The dict built by the loop is the grouping of the specification: the
    titles in first-met order, each with its posts in fetched order. *)
Lemma group_posts_by_title (posts : list digest_row) :
  group_posts posts = groups_by_title posts.
Proof.
  induction posts as [|x l IH] using rev_ind; [done|].
  rewrite group_posts_snoc, IH. unfold groups_by_title.
  rewrite dict_append_groups.
  - rewrite fmap_app. simpl. rewrite first_seen_snoc.
    destruct (decide (_ ∈ first_seen _)) as [Hin|Hin];
      rewrite first_seen_elem in Hin;
      [by rewrite decide_True|by rewrite decide_False].
  - apply first_seen_NoDup.
  - intros Hn. apply Forall_forall. intros p Hp Heq. apply Hn.
    apply first_seen_elem, list_elem_of_fmap. eauto.
Qed.

(** ** The digest: rendering *)

Lemma add_post_lines (message : pystr) (ps : list digest_row) :
  foldl add_post_line message ps
  = message ++ concat (render_line ∘ LPost ∘ shown_text <$> filter (λ p, shown_text p ≠ []) ps).
Proof.
  revert message. induction ps as [|p ps IH]; intros message; simpl.
  - by rewrite app_nil_r.
  - rewrite IH, filter_cons. unfold add_post_line.
    destruct (shown_text p) as [|c text] eqn:E.
    + rewrite decide_False by (intros Hne; by apply Hne). done.
    + rewrite decide_True by done. csimpl. rewrite E.
      by rewrite <- (assoc_L (++) message).
Qed.

Lemma add_channel_block_lines (message : pystr) (g : pystr * list digest_row) :
  add_channel_block message g = message ++ concat (render_line <$> group_lines g).
Proof.
  destruct g as [title ps]. unfold add_channel_block, group_lines, listed_posts.
  rewrite add_post_lines. cbn [fst snd].
  rewrite fmap_cons, concat_cons, !fmap_app, !concat_app, <- list_fmap_compose.
  cbn [render_line].
  case_bool_decide;
    rewrite !fmap_cons, ?fmap_nil, !concat_cons, ?concat_nil, !app_nil_r;
    cbn [render_line]; by rewrite <- !(assoc_L (++)).
Qed.

Lemma add_channel_blocks_lines (message : pystr) (gs : groups) :
  foldl add_channel_block message gs
  = message ++ concat (render_line <$> (gs ≫= group_lines)).
Proof.
  revert message. induction gs as [|g gs IH]; intros message.
  - cbn [foldl]. change ([] ≫= group_lines) with (@nil digest_line).
    by rewrite fmap_nil, concat_nil, app_nil_r.
  - cbn [foldl]. rewrite IH, add_channel_block_lines, bind_cons, fmap_app, concat_app.
    by rewrite <- (assoc_L (++)).
Qed.

(** The message is the header followed by the lines of the groups. *)
Lemma build_digest_lines (lang : pystr) (posts : list digest_row) :
  build_digest lang posts
  = get_message lang digest_header ++ concat (render_line <$> digest_lines posts).
Proof.
  unfold build_digest, digest_lines.
  by rewrite add_channel_blocks_lines, group_posts_by_title.
Qed.

Lemma shown_text_cases (p : digest_row) :
  let text := p_text (dr_post p) in
  ((length text ≤ 100)%nat ∧ shown_text p = text)
  ∨ ((100 < length text)%nat ∧ shown_text p = take 100 text ++ str "...").
Proof.
  simpl. unfold shown_text. case_bool_decide; [right|left]; split; [done..|lia|done].
Qed.

Lemma shown_text_empty (p : digest_row) : shown_text p = [] ↔ p_text (dr_post p) = [].
Proof.
  unfold shown_text. case_bool_decide as Hlen; [|done].
  split.
  - intros Happ. apply app_eq_nil in Happ as [_ Hdots]. done.
  - intros Hnil. rewrite Hnil in Hlen. simpl in Hlen. lia.
Qed.

Lemma listed_posts_at_most_5 (ps : list digest_row) : (length (listed_posts ps) ≤ 5)%nat.
Proof.
  unfold listed_posts. etrans; [apply length_filter|]. rewrite length_take. lia.
Qed.

(** ** The digest: fetching and marking *)

Lemma insert_desc_Permutation (r : digest_row) (l : list digest_row) :
  insert_desc r l ≡ₚ r :: l.
Proof.
  induction l as [|r' l IH]; simpl; [done|].
  case_bool_decide; [done|]. rewrite IH. apply Permutation_swap.
Qed.

Lemma order_by_created_at_desc_Permutation (l : list digest_row) :
  order_by_created_at_desc l ≡ₚ l.
Proof.
  induction l as [|r l IH]; simpl; [done|].
  by rewrite insert_desc_Permutation, IH.
Qed.

(** The rows [get_unsent_posts_for_user] returns. *)
Lemma elem_of_unsent_posts (d : database) (t user_id : Z) (r : digest_row) :
  r ∈ get_unsent_posts_for_user d t user_id ↔
  ∃ p c, p ∈ posts d ∧ c ∈ channels d ∧ p_channel_id p = ch_id c
         ∧ (user_id, ch_id c) ∈ user_channels d
         ∧ t - hours 24 < p_created_at p ∧ p_sent p = 0
         ∧ r = mk_digest_row p (ch_title c) (ch_channel_username c).
Proof.
  unfold get_unsent_posts_for_user.
  rewrite order_by_created_at_desc_Permutation, list_elem_of_bind.
  split.
  - intros (p & Hr & Hp). apply list_elem_of_bind in Hr as (c & Hr & Hc).
    apply list_elem_of_filter in Hc as [Hpc Hc].
    apply list_elem_of_bind in Hr as ([u' c'] & Hr & Huc).
    apply list_elem_of_filter in Huc as [[Hcc Hu] Huc]. simpl in *. subst.
    case_bool_decide as Hcond; [|by apply elem_of_nil in Hr].
    apply list_elem_of_singleton in Hr. destruct Hcond.
    by exists p, c.
  - intros (p & c & Hp & Hc & Hpc & Huc & Hlook & Hsent & ->).
    exists p. split; [|done]. apply list_elem_of_bind. exists c.
    split; [|by apply list_elem_of_filter].
    apply list_elem_of_bind. exists (user_id, ch_id c).
    split; [|by apply list_elem_of_filter].
    rewrite bool_decide_eq_true_2 by done. apply list_elem_of_here.
Qed.

Lemma mark_posts_sent_posts (d : database) (ids : list Z) :
  posts (mark_posts_sent d ids)
  = (λ p, if bool_decide (p_id p ∈ ids)
          then mk_post (p_id p) (p_channel_id p) (p_message_id p) (p_text p)
                 (p_created_at p) 1
          else p) <$> posts d.
Proof.
  destruct ids as [|i ids]; simpl; [|done].
  symmetry. etrans; [|apply list_fmap_id]. apply list_fmap_ext.
  by intros k p _.
Qed.

Lemma mark_posts_sent_others (d : database) (ids : list Z) :
  users (mark_posts_sent d ids) = users d
  ∧ channels (mark_posts_sent d ids) = channels d
  ∧ user_channels (mark_posts_sent d ids) = user_channels d.
Proof. by destruct ids. Qed.

(** Every fetched row is a stored post, and marking the fetched ids sets its
    [sent] flag. *)
Lemma fetched_post_marked (d : database) (t user_id : Z) (r : digest_row) :
  let fetched := get_unsent_posts_for_user d t user_id in
  r ∈ fetched →
  dr_post r ∈ posts d
  ∧ p_sent (dr_post r) = 0
  ∧ mk_post (p_id (dr_post r)) (p_channel_id (dr_post r)) (p_message_id (dr_post r))
      (p_text (dr_post r)) (p_created_at (dr_post r)) 1
    ∈ posts (mark_posts_sent d (post_ids fetched)).
Proof.
  intros fetched Hr.
  pose proof Hr as Hr'. apply elem_of_unsent_posts in Hr' as (p & c & Hp & _ & _ & _ & _ & Hs & ->).
  simpl. split_and!; [done..|].
  rewrite mark_posts_sent_posts. apply list_elem_of_fmap. exists p.
  rewrite bool_decide_eq_true_2; [done|].
  apply list_elem_of_fmap. by eexists (mk_digest_row p _ _).
Qed.

(** Once the fetched posts are marked, nothing is left to fetch. *)
Lemma nothing_unsent_after_marking (d : database) (t user_id : Z) :
  let fetched := get_unsent_posts_for_user d t user_id in
  get_unsent_posts_for_user (mark_posts_sent d (post_ids fetched)) t user_id = [].
Proof.
  intros fetched. apply elem_of_nil_inv. intros r Hr.
  apply elem_of_unsent_posts in Hr as (p' & c & Hp' & Hc & Hpc & Huc & Hlook & Hsent & ->).
  destruct (mark_posts_sent_others d (post_ids fetched)) as (_ & Hcs & Hucs).
  rewrite Hcs in Hc. rewrite Hucs in Huc.
  rewrite mark_posts_sent_posts in Hp'.
  apply list_elem_of_fmap in Hp' as (p & -> & Hp).
  case_bool_decide as Hid; [done|]. apply Hid.
  apply list_elem_of_fmap. exists (mk_digest_row p (ch_title c) (ch_channel_username c)).
  split; [done|]. apply elem_of_unsent_posts. by exists p, c.
Qed.

(** ** The digest: delivery *)

Lemma send_digest_to_user_empty (T : transport) (user_id : Z) (lang : pystr) (w : world) :
  get_unsent_posts_for_user (db w) (clock w) user_id = [] →
  send_digest_to_user T user_id lang w = (w, Ret tt).
Proof. intros H. unfold send_digest_to_user. run_M. by rewrite H. Qed.

Lemma send_digest_to_user_delivered (T : transport) (user_id : Z) (lang : pystr) (w : world) :
  let posts := get_unsent_posts_for_user (db w) (clock w) user_id in
  posts ≠ [] →
  send_message T (calls w) user_id (build_digest lang posts) = Ret tt →
  send_digest_to_user T user_id lang w
  = (delivered w user_id (build_digest lang posts) (post_ids posts), Ret tt).
Proof.
  intros posts Hne Hok. unfold send_digest_to_user. run_M. fold posts.
  destruct posts as [|r rs] eqn:E; [done|]. rewrite <- E in *.
  rewrite Hok. unfold delivered, post_ids, emit. simpl.
  by rewrite <- (assoc_L (++)).
Qed.

(** A digest that the transport refuses: the failure is logged, a flood wait
    is slept through, nothing is marked and nothing is sent again. *)
Lemma send_digest_to_user_refused (T : transport) (user_id : Z) (lang : pystr) (w : world)
    (e : exn) :
  let posts := get_unsent_posts_for_user (db w) (clock w) user_id in
  posts ≠ [] →
  send_message T (calls w) user_id (build_digest lang posts) = Raise e →
  send_digest_to_user T user_id lang w
  = (match e with
     | FloodWaitError seconds =>
         mk_world (db w) (watching_channels w) (clock w + seconds_us seconds) (S (calls w))
           (trace w ++ [EvSendMessage user_id (build_digest lang posts); EvLog Warning;
                        EvSleep (seconds_us seconds)])
     | _ =>
         mk_world (db w) (watching_channels w) (clock w) (S (calls w))
           (trace w ++ [EvSendMessage user_id (build_digest lang posts); EvLog Error])
     end, Ret tt).
Proof.
  intros posts Hne Hok. unfold send_digest_to_user. run_M. fold posts.
  destruct posts as [|r rs] eqn:E; [done|]. rewrite <- E in *.
  rewrite Hok. unfold emit.
  destruct e; simpl; by rewrite <- ?(assoc_L (++)).
Qed.

Lemma send_digest_to_user_never_raises (T : transport) (user_id : Z) (lang : pystr)
    (w : world) :
  (send_digest_to_user T user_id lang w).2 = Ret tt.
Proof.
  destruct (get_unsent_posts_for_user (db w) (clock w) user_id) as [|r rs] eqn:E.
  - by rewrite send_digest_to_user_empty.
  - destruct (send_message T (calls w) user_id
                (build_digest lang (get_unsent_posts_for_user (db w) (clock w) user_id)))
      as [[]|e] eqn:Es.
    + rewrite send_digest_to_user_delivered; [done| |done]. by rewrite E.
    + erewrite send_digest_to_user_refused; [done| |done]. by rewrite E.
Qed.

(** ** Fan-out and scheduler tick *)

Lemma events_since_app (w w' : world) (evs : list event) :
  trace w' = trace w ++ evs → events_since w w' = evs.
Proof. intros H. unfold events_since. rewrite H. apply drop_app_length. Qed.





Lemma midnight_cleanup_never_raises (current_time : pystr) (w : world) :
  (midnight_cleanup current_time w).2 = Ret tt.
Proof.
  unfold midnight_cleanup. case_bool_decide; [|done]. run_M.
  by case_bool_decide.
Qed.

Lemma scheduler_turn_runs_all (T : transport) (w : world) :
  let current_time := strftime_HM (clock w) in
  let due := get_users_for_digest (db w) current_time in
  scheduler_turn T w
  = (midnight_cleanup current_time ;; sleep (seconds_us 60))
      (foldl (λ w0 user, (send_digest_to_user T (u_user_id user) (u_language user) w0).1)
         w due).
Proof.
  simpl. unfold scheduler_turn, try_except.
  unfold bind at 1. unfold datetime_now at 1.
  unfold bind at 1. unfold read_db at 1.
  unfold bind at 1.
  rewrite for_each_total by (intros; apply send_digest_to_user_never_raises).
  set (w1 := foldl _ w _).
  pose proof (midnight_cleanup_never_raises (strftime_HM (clock w)) w1) as Hc.
  unfold bind, sleep.
  destruct (midnight_cleanup (strftime_HM (clock w)) w1) as [w2 r].
  simpl in Hc. by subst r.
Qed.


(** One failing recipient between two others: user 8's delivery is refused,
    users 7 and 9 are still served. *)
Example fan_out_with_a_failing_recipient :
  let d := mk_db [mk_user 7 None (str "realtime") (str "09:00") (str "uz");
                  mk_user 8 None (str "realtime") (str "09:00") (str "uz");
                  mk_user 9 None (str "realtime") (str "09:00") (str "uz")]
                 [mk_channel 1 (str "news") 100 (str "News")] 1
                 [(7, 1); (8, 1); (9, 1)] [] 0 in
  let event := mk_new_message (ChatChannel 100) 42 (Some (str "hello")) None in
  let w' := (handle_new_message (failing_for 8) event (start_world d [100])).1 in
  let header := get_message (str "uz") (new_post (str "News")) in
  trace w'
  = [EvSendMessage 7 header; EvForward 7 42; EvSleep 100000;
     EvSendMessage 8 header; EvLog Error;
     EvSendMessage 9 header; EvForward 9 42; EvSleep 100000].
Proof. vm_compute. reflexivity. Qed.

(** ** Scheduled and manual digest *)

Lemma send_manual_digest_nonempty (T : transport) (user_id : Z) (lang : pystr) (w : world) :
  get_unsent_posts_for_user (db w) (clock w) user_id ≠ [] →
  send_manual_digest T user_id lang w = ((send_digest_to_user T user_id lang w).1, Ret true).
Proof.
  intros Hne. unfold send_manual_digest.
  unfold bind at 1. unfold datetime_now at 1.
  unfold bind at 1. unfold read_db at 1.
  destruct (get_unsent_posts_for_user (db w) (clock w) user_id) as [|r rs]; [done|].
  unfold bind, ret.
  pose proof (send_digest_to_user_never_raises T user_id lang w) as Hr.
  destruct (send_digest_to_user T user_id lang w) as [w1 r1]. simpl in *. by subst r1.
Qed.

(** A digest with posts to report makes exactly one call to the bot, with
    the composed message, whether or not the call succeeds. *)
Lemma send_digest_to_user_one_message (T : transport) (user_id : Z) (lang : pystr)
    (w : world) :
  let posts := get_unsent_posts_for_user (db w) (clock w) user_id in
  posts ≠ [] →
  sends (events_since w (send_digest_to_user T user_id lang w).1)
  = [(user_id, build_digest lang posts)].
Proof.
  intros posts Hne.
  destruct (send_message T (calls w) user_id (build_digest lang posts)) as [[]|e] eqn:Es.
  - rewrite (send_digest_to_user_delivered T user_id lang w Hne Es).
    by erewrite events_since_app by (simpl; reflexivity).
  - rewrite (send_digest_to_user_refused T user_id lang w e Hne Es).
    destruct e; by erewrite events_since_app by (simpl; reflexivity).
Qed.

(** C4. With nothing unsent in the lookback window the scheduled path
    ([send_digest_to_user]) changes nothing and sends nothing, while
    [send_manual_digest] makes one call to the bot, with the "no posts"
    notice, and returns [False] once the bot has taken the notice.  With
    something unsent, [send_manual_digest] runs the digest (one call to the
    bot, with the composed digest; on success the fetched posts are marked)
    and returns [True]. *)
Theorem empty_digest_asymmetry (T : transport) (user_id : Z) (lang : pystr) (w : world) :
  let posts := get_unsent_posts_for_user (db w) (clock w) user_id in
  let notice := get_message lang no_posts in
  (posts = [] →
   send_digest_to_user T user_id lang w = (w, Ret tt)
   ∧ (send_manual_digest T user_id lang w).1 = called (EvSendMessage user_id notice) w
   ∧ (send_manual_digest T user_id lang w).2
     = match send_message T (calls w) user_id notice with
       | Ret _ => Ret false
       | Raise e => Raise e
       end)
  ∧ (posts ≠ [] →
     (send_manual_digest T user_id lang w).2 = Ret true
     ∧ (send_manual_digest T user_id lang w).1 = (send_digest_to_user T user_id lang w).1
     ∧ sends (events_since w (send_manual_digest T user_id lang w).1)
       = [(user_id, build_digest lang posts)]
     ∧ (send_message T (calls w) user_id (build_digest lang posts) = Ret tt →
        (send_manual_digest T user_id lang w).1
        = delivered w user_id (build_digest lang posts) (post_ids posts))).
Proof.
  intros posts notice. split.
  - intros Hempty. split; [by apply send_digest_to_user_empty|].
    unfold send_manual_digest. run_M. fold posts. rewrite Hempty.
    fold notice. by destruct (send_message T (calls w) user_id notice).
  - intros Hne. rewrite (send_manual_digest_nonempty T user_id lang w Hne). simpl.
    split_and!; [done..| |].
    + by apply send_digest_to_user_one_message.
    + intros Hok. by rewrite (send_digest_to_user_delivered T user_id lang w Hne Hok).
Qed.

(** The two paths on a store with nothing to report. *)
Example empty_digest_scheduled_and_manual :
  let w := start_world one_subscriber_db [100] in
  send_digest_to_user ok_transport 7 (str "uz") w = (w, Ret tt)
  ∧ send_manual_digest ok_transport 7 (str "uz") w
    = (mk_world one_subscriber_db (list_to_set [100]) 0 1
         [EvSendMessage 7 (get_message (str "uz") no_posts)],
       Ret false).
Proof. split; reflexivity. Qed.

(** ** The lines of a group *)

Lemma group_of_fetched_post (posts : list digest_row) (r : digest_row) :
  r ∈ posts →
  let group := filter (λ p, dr_channel_title p = dr_channel_title r) posts in
  r ∈ group ∧ (dr_channel_title r, group) ∈ groups_by_title posts.
Proof.
  intros Hr group. split; [by apply list_elem_of_filter|].
  unfold groups_by_title. apply list_elem_of_fmap. exists (dr_channel_title r).
  split; [done|]. apply first_seen_elem, list_elem_of_fmap. eauto.
Qed.

Lemma header_line_of_group (posts : list digest_row) (g : pystr * list digest_row) :
  g ∈ groups_by_title posts → LHeader g.1 (length g.2) ∈ digest_lines posts.
Proof.
  intros Hg. unfold digest_lines. apply list_elem_of_bind. exists g.
  split; [|done]. apply list_elem_of_here.
Qed.

Lemma post_line_of_group (g : pystr * list digest_row) (text : pystr) :
  LPost text ∈ group_lines g ↔ ∃ p, p ∈ listed_posts g.2 ∧ text = shown_text p.
Proof.
  unfold group_lines. rewrite elem_of_cons, !elem_of_app, list_elem_of_fmap.
  split.
  - intros [?|[(p & Heq & Hp)|[Hm|Hb]]]; [done| |..].
    + simpl in Heq. injection Heq as ->. eauto.
    + case_bool_decide; [|by apply elem_of_nil in Hm].
      by apply list_elem_of_singleton in Hm.
    + by apply list_elem_of_singleton in Hb.
  - intros (p & Hp & ->). right. left. by exists p.
Qed.

Lemma more_line_of_group (g : pystr * list digest_row) (n : nat) :
  LMore n ∈ group_lines g ↔ (5 < length g.2)%nat ∧ n = (length g.2 - 5)%nat.
Proof.
  unfold group_lines. rewrite elem_of_cons, !elem_of_app, list_elem_of_fmap.
  split.
  - intros [?|[(p & Heq & Hp)|[Hm|Hb]]]; [done..| |].
    + case_bool_decide; [|by apply elem_of_nil in Hm].
      apply list_elem_of_singleton in Hm. by injection Hm as ->.
    + by apply list_elem_of_singleton in Hb.
  - intros [Hlen ->]. right. right. left.
    rewrite bool_decide_eq_true_2 by done. apply list_elem_of_here.
Qed.

Lemma post_lines_of_group (g : pystr * list digest_row) :
  filter is_post_line (group_lines g) = LPost ∘ shown_text <$> listed_posts g.2.
Proof.
  unfold group_lines. rewrite filter_cons, decide_False by (simpl; tauto).
  rewrite !filter_app.
  assert (∀ l : list digest_row,
            filter is_post_line (LPost ∘ shown_text <$> l) = LPost ∘ shown_text <$> l) as ->.
  { induction l as [|p l IH]; [done|]. csimpl.
    rewrite filter_cons, decide_True by done. by rewrite IH. }
  rewrite (filter_none _ [LBlank]) by (apply Forall_singleton; simpl; tauto).
  case_bool_decide.
  - rewrite (filter_none _ [LMore _]) by (apply Forall_singleton; simpl; tauto).
    by rewrite !app_nil_r.
  - rewrite filter_nil. by rewrite !app_nil_r.
Qed.

Lemma no_empty_post_line (posts : list digest_row) : LPost [] ∉ digest_lines posts.
Proof.
  unfold digest_lines. rewrite list_elem_of_bind. intros (g & Hl & _).
  apply post_line_of_group in Hl as (p & Hp & Heq).
  unfold listed_posts in Hp. apply list_elem_of_filter in Hp as [Hne _]. by apply Hne.
Qed.

(** C10. A fetched post whose stored text is empty is counted in the header
    of its group and, once the digest is delivered, marked as sent, but it
    gets no line: no line of the digest is an empty post line, and a group
    with such a post among its first five lists fewer than min(N, 5) posts
    under a header that says N. *)
Theorem empty_text_post_counted_not_listed (T : transport) (user_id : Z) (lang : pystr)
    (w : world) (r : digest_row) :
  let fetched := get_unsent_posts_for_user (db w) (clock w) user_id in
  let group := filter (λ p, dr_channel_title p = dr_channel_title r) fetched in
  let w' := (send_digest_to_user T user_id lang w).1 in
  r ∈ fetched →
  p_text (dr_post r) = [] →
  sends (events_since w w')
  = [(user_id, get_message lang digest_header ++ concat (render_line <$> digest_lines fetched))]
  ∧ (dr_channel_title r, group) ∈ groups_by_title fetched
  ∧ r ∈ group
  ∧ LHeader (dr_channel_title r) (length group) ∈ digest_lines fetched
  ∧ filter is_post_line (group_lines (dr_channel_title r, group))
    = LPost ∘ shown_text <$> listed_posts group
  ∧ (r ∉ listed_posts group)
  ∧ (LPost [] ∉ digest_lines fetched)
  ∧ (r ∈ take 5 group → (length (listed_posts group) < length group `min` 5)%nat)
  ∧ (send_message T (calls w) user_id (build_digest lang fetched) = Ret tt →
     sent_row (dr_post r) ∈ posts (db w')).
Proof.
  intros fetched group w' Hr Htext.
  assert (fetched ≠ []) as Hne by (by eapply elem_of_not_nil).
  destruct (group_of_fetched_post fetched r Hr) as [Hrg Hg]. fold group in Hrg, Hg.
  split_and!; try done.
  - subst w'. rewrite send_digest_to_user_one_message by done.
    by rewrite build_digest_lines.
  - by apply (header_line_of_group fetched (dr_channel_title r, group)).
  - apply post_lines_of_group.
  - unfold listed_posts. rewrite list_elem_of_filter. intros [Hshown _].
    by apply Hshown, shown_text_empty.
  - apply no_empty_post_line.
  - intros Hin. unfold listed_posts.
    eapply Nat.lt_le_trans.
    + apply (length_filter_lt _ _ r); [done|]. intros Hshown.
      by apply Hshown, shown_text_empty.
    + rewrite length_take. lia.
  - intros Hok. subst w'.
    rewrite (send_digest_to_user_delivered T user_id lang w Hne Hok). simpl.
    by apply fetched_post_marked.
Qed.

Lemma empty_text_post_counted_not_listed_witness :
  let w := mk_world empty_text_db ∅ 3000000 0 [] in
  let r := mk_digest_row (mk_post 2 1 502 [] 2000000 0) (str "News") (str "news") in
  let fetched := get_unsent_posts_for_user (db w) (clock w) 7 in
  let group := filter (λ p, dr_channel_title p = dr_channel_title r) fetched in
  let w' := (send_digest_to_user ok_transport 7 (str "uz") w).1 in
  sends (events_since w w')
  = [(7, get_message (str "uz") digest_header
         ++ concat (render_line <$> digest_lines fetched))]
  ∧ (dr_channel_title r, group) ∈ groups_by_title fetched
  ∧ r ∈ group
  ∧ LHeader (dr_channel_title r) (length group) ∈ digest_lines fetched
  ∧ filter is_post_line (group_lines (dr_channel_title r, group))
    = LPost ∘ shown_text <$> listed_posts group
  ∧ (r ∉ listed_posts group)
  ∧ (LPost [] ∉ digest_lines fetched)
  ∧ (r ∈ take 5 group → (length (listed_posts group) < length group `min` 5)%nat)
  ∧ (send_message ok_transport (calls w) 7 (build_digest (str "uz") fetched) = Ret tt →
     sent_row (dr_post r) ∈ posts (db w')).
Proof.
  apply (empty_text_post_counted_not_listed ok_transport 7 (str "uz")
           (mk_world empty_text_db ∅ 3000000 0 [])
           (mk_digest_row (mk_post 2 1 502 [] 2000000 0) (str "News") (str "news"))).
  - vm_compute. apply list_elem_of_here.
  - reflexivity.
Defined.

(** The digest of that store: a header that counts 2 posts over one line. *)
Example empty_text_digest_lines :
  let fetched := get_unsent_posts_for_user empty_text_db 3000000 7 in
  digest_lines fetched = [LHeader (str "News") 2; LPost (str "first"); LBlank]
  ∧ posts (db (send_digest_to_user ok_transport 7 (str "uz")
                 (mk_world empty_text_db ∅ 3000000 0 [])).1)
    = [mk_post 1 1 501 (str "first") 1000000 1; mk_post 2 1 502 [] 2000000 1].
Proof. split; vm_compute; reflexivity. Qed.

(** ** Rate limits *)

Lemma lstrip_at_idemp (s : pystr) : lstrip_at (lstrip_at s) = lstrip_at s.
Proof.
  induction s as [|c s IH]; [done|]. simpl.
  case_bool_decide as Hc; [done|]. simpl. by rewrite bool_decide_eq_false_2.
Qed.







(** A resolution never gives up on a rate limit: one more "wait" than there
    is fuel and it has not answered. *)
Example resolve_channel_out_of_fuel :
  resolve_channel (flooding_transport 5 1) 5 (str "@news")
    (start_world one_subscriber_db [100]) = None.
Proof. reflexivity. Qed.

(** ** Subscribing *)

Lemma fetchone_cons {A} (P : A → Prop) `{∀ x, Decision (P x)} (x : A) (l : list A) :
  fetchone P (x :: l) = if decide (P x) then Some x else fetchone P l.
Proof.
  unfold fetchone. simpl. case_decide; [done|].
  by destruct (list_find P l) as [[i y]|].
Qed.

Lemma fetchone_fmap {A} (P : A → Prop) `{∀ x, Decision (P x)} (f : A → A) (l : list A) :
  (∀ x, P (f x) ↔ P x) → fetchone P (f <$> l) = f <$> fetchone P l.
Proof.
  intros Hf. induction l as [|x l IH]; [done|].
  rewrite fmap_cons, !fetchone_cons, IH.
  destruct (decide (P x)) as [Hx|Hx].
  - rewrite decide_True; [done|by apply Hf].
  - rewrite decide_False; [done|by rewrite Hf].
Qed.

Lemma fetchone_snoc {A} (P : A → Prop) `{∀ x, Decision (P x)} (x : A) (l : list A) :
  fetchone P l = None → P x → fetchone P (l ++ [x]) = Some x.
Proof.
  intros Hl Hx. induction l as [|y l IH]; simpl.
  - rewrite fetchone_cons. by rewrite decide_True.
  - rewrite fetchone_cons in Hl |- *. case_decide; [done|]. by apply IH.
Qed.

Lemma get_or_create_user_frame (d : database) (user_id : Z) (username : option pystr) :
  let d' := (get_or_create_user d user_id username).1 in
  is_Some (fetchone (λ u, u_user_id u = user_id) (users d'))
  ∧ channels d' = channels d ∧ channels_seq d' = channels_seq d
  ∧ user_channels d' = user_channels d ∧ posts d' = posts d.
Proof.
  unfold get_or_create_user.
  destruct (fetchone _ (users d)) as [row|] eqn:E; simpl.
  - by rewrite E.
  - split_and!; [|done..]. by rewrite fetchone_snoc.
Qed.

Lemma get_or_create_user_known (d : database) (user_id : Z) (username : option pystr) :
  is_Some (fetchone (λ u, u_user_id u = user_id) (users d)) →
  (get_or_create_user d user_id username).1 = d.
Proof. intros [row E]. unfold get_or_create_user. by rewrite E. Qed.

Lemma add_channel_frame (d : database) (name : pystr) (id : Z) (title : pystr) :
  let d' := (add_channel d name id title).1 in
  users d' = users d ∧ user_channels d' = user_channels d ∧ posts d' = posts d.
Proof. unfold add_channel. by destruct (fetchone _ (channels d)). Qed.

(** After [add_channel] the handle is stored, under the id returned. *)
Lemma add_channel_finds (d : database) (name : pystr) (id : Z) (title : pystr) :
  ∃ c, fetchone (λ c, ch_channel_username c = lower name)
         (channels (add_channel d name id title).1) = Some c
       ∧ ch_id c = (add_channel d name id title).2.
Proof.
  unfold add_channel.
  destruct (fetchone _ (channels d)) as [row|] eqn:E; simpl.
  - rewrite fetchone_fmap, E by (intros c; by case_bool_decide).
    eexists. split; [done|]. simpl. by case_bool_decide.
  - eexists. split; [by apply fetchone_snoc|done].
Qed.

Lemma add_channel_id_ext (d d' : database) (name : pystr) (id : Z) (title : pystr) :
  channels d = channels d' → channels_seq d = channels_seq d' →
  (add_channel d name id title).2 = (add_channel d' name id title).2.
Proof.
  intros Hc Hs. unfold add_channel. rewrite Hc, Hs.
  by destruct (fetchone _ (channels d')).
Qed.

(** Upserting the same handle again returns the same channel row id. *)
Lemma add_channel_same_id (d : database) (name : pystr) (id id' : Z) (title title' : pystr) :
  (add_channel (add_channel d name id title).1 name id' title').2
  = (add_channel d name id title).2.
Proof.
  destruct (add_channel_finds d name id title) as (c & Hc & Hid).
  unfold add_channel at 1. by rewrite Hc.
Qed.

Lemma NoDup_one_row {A} `{EqDecision A} (l : list A) (x : A) :
  NoDup l → x ∈ l → length (filter (λ y, y = x) l) = 1%nat.
Proof.
  induction 1 as [|y l Hy Hnd IH]; intros Hin; [by apply elem_of_nil in Hin|].
  rewrite filter_cons. destruct (decide (y = x)) as [->|Hne].
  - rewrite (filter_none _ l); [done|].
    apply Forall_forall. intros z Hz ->. done.
  - apply elem_of_cons in Hin as [->|Hin]; [done|]. by apply IH.
Qed.

Lemma resolve_channel_resolved (T : transport) (fuel : nat) (handle : pystr) (w : world)
    (id : Z) (title : pystr) :
  get_entity T (calls w) (lstrip_at handle) = Ret (EntChannel id title) →
  resolve_channel T (S fuel) handle w
  = Some (called (EvGetEntity (lstrip_at handle)) w,
          Ret (Some (mk_channel_info (lstrip_at handle) id title))).
Proof.
  intros Hres. cbn [resolve_channel]. unfold resolve_channel_try. run_M. by rewrite Hres.
Qed.

(** What one [add_channel_for_user] does when the handle resolves. *)
Lemma add_channel_for_user_outcome (T : transport) (fuel : nat) (user_id : Z)
    (handle : pystr) (w : world) (id : Z) (title : pystr) :
  get_entity T (calls w) (lstrip_at handle) = Ret (EntChannel id title) →
  let d0 := (get_or_create_user (db w) user_id None).1 in
  let a := add_channel d0 (lstrip_at handle) id title in
  ∃ w1,
    add_channel_for_user T (S fuel) user_id handle w
    = Some (w1,
            Ret (if already_added d0 user_id handle
                 then (false, str "channel_already_added")
                 else if bool_decide ((user_id, a.2) ∈ user_channels d0)
                      then (false, str "channel_already_added")
                      else (true, title)))
    ∧ db w1 = (if already_added d0 user_id handle then d0
               else if bool_decide ((user_id, a.2) ∈ user_channels d0) then a.1
                    else set_user_channels a.1 (user_channels d0 ++ [(user_id, a.2)]))
    ∧ resolutions (events_since w w1)
      = (if already_added d0 user_id handle then [] else [lstrip_at handle]).
Proof.
  intros Hres d0 a. unfold add_channel_for_user, with_db.
  destruct (get_or_create_user (db w) user_id None) as [d0' row] eqn:Eu.
  subst d0. cbn [fst snd db]. fold (already_added d0' user_id handle).
  destruct (already_added d0' user_id handle) eqn:Eearly.
  { eexists. split_and!; [done..|]. unfold events_since. simpl. by rewrite drop_all. }
  set (w0 := mk_world d0' _ _ _ _).
  rewrite (resolve_channel_resolved T fuel handle w0 id title) by done.
  destruct (add_channel_frame d0' (lstrip_at handle) id title) as (_ & Hucs & _).
  subst a. unfold bind, with_db, add_user_channel. simpl.
  destruct (add_channel d0' (lstrip_at handle) id title) as [d1 cid] eqn:Ea. simpl in *.
  rewrite Hucs. case_bool_decide as Hin; simpl.
  - eexists. split_and!; [done..|].
    by erewrite events_since_app by (simpl; reflexivity).
  - unfold _add_channel_handler. simpl.
    case_bool_decide; simpl; (eexists; split_and!; [done..|]);
      (erewrite events_since_app;
       [|simpl; rewrite <- ?(assoc_L (++)); simpl; reflexivity]); done.
Qed.

Lemma already_added_row (d : database) (user_id : Z) (handle : pystr) :
  already_added d user_id handle = true →
  ∃ c, c ∈ channels d ∧ ch_channel_username c = lower handle
       ∧ (user_id, ch_id c) ∈ user_channels d.
Proof.
  unfold already_added, get_channel_by_username, user_has_channel.
  destruct (fetchone _ (channels d)) as [c|] eqn:E; [|done].
  intros Hhas. apply bool_decide_eq_true in Hhas.
  apply fetchone_Some in E as [Hin Hname]. eauto.
Qed.

(** C5. Subscribing twice with a handle that resolves: the second call
    returns "channel_already_added" (it raises nothing and adds no row), and
    the user has exactly one subscription row for the channel of the
    handle. *)
Theorem subscribe_twice_is_idempotent (T : transport) (fuel : nat) (user_id : Z)
    (handle : pystr) (w : world) :
  always_resolves T handle →
  (0 < fuel)%nat →
  NoDup (user_channels (db w)) →
  ∃ w1 r1 w2 c,
    add_channel_for_user T fuel user_id handle w = Some (w1, Ret r1)
    ∧ add_channel_for_user T fuel user_id handle w1
      = Some (w2, Ret (false, str "channel_already_added"))
    ∧ user_channels (db w2) = user_channels (db w1)
    ∧ NoDup (user_channels (db w2))
    ∧ c ∈ channels (db w2)
    ∧ (ch_channel_username c = lower handle
       ∨ ch_channel_username c = lower (lstrip_at handle))
    ∧ length (subscription_rows (db w2) user_id (ch_id c)) = 1%nat.
Proof.
  intros Hres Hfuel Hnd. destruct fuel as [|fuel]; [lia|].
  destruct (Hres (calls w)) as (id & title & Hres1).
  destruct (add_channel_for_user_outcome T fuel user_id handle w id title Hres1)
    as (w1 & Hcall1 & Hdb1 & _).
  destruct (get_or_create_user_frame (db w) user_id None) as (Huser & Hch0 & Hseq0 & Hucs0 & _).
  set (d0 := (get_or_create_user (db w) user_id None).1) in *.
  set (a := add_channel d0 (lstrip_at handle) id title) in *.
  destruct (add_channel_frame d0 (lstrip_at handle) id title) as (Husers_a & Hucs_a & _).
  fold a in Husers_a, Hucs_a.
  destruct (Hres (calls w1)) as (id' & title' & Hres2).
  destruct (add_channel_for_user_outcome T fuel user_id handle w1 id' title' Hres2)
    as (w2 & Hcall2 & Hdb2 & _).
  assert (users (db w1) = users d0) as Husers1.
  { rewrite Hdb1. destruct (already_added d0 user_id handle); [done|].
    by destruct (bool_decide ((user_id, a.2) ∈ user_channels d0)). }
  rewrite (get_or_create_user_known (db w1)) in Hcall2, Hdb2 by (by rewrite Husers1).
  cut (∃ c, add_channel_for_user T (S fuel) user_id handle w1
              = Some (w2, Ret (false, str "channel_already_added"))
            ∧ user_channels (db w2) = user_channels (db w1)
            ∧ NoDup (user_channels (db w2))
            ∧ c ∈ channels (db w2)
            ∧ (ch_channel_username c = lower handle
               ∨ ch_channel_username c = lower (lstrip_at handle))
            ∧ length (subscription_rows (db w2) user_id (ch_id c)) = 1%nat).
  { intros (c & Hrest). exists w1. eexists. exists w2, c. split; [exact Hcall1|exact Hrest]. }
  rewrite Hcall2. clear Hcall1 Hcall2.
  destruct (already_added d0 user_id handle) eqn:Eearly.
  - (* the first call stopped at the early check; so does the second *)
    rewrite Hdb1, Eearly in Hdb2 |- *. rewrite Hdb2.
    destruct (already_added_row d0 user_id handle Eearly) as (c & Hc & Hname & Hrow).
    exists c. split_and!; try done; [by rewrite Hucs0|by left|].
    apply NoDup_one_row; [by rewrite Hucs0|done].
  - (* the first call resolved the handle and upserted the channel *)
    assert ((user_id, a.2) ∈ user_channels (db w1)
            ∧ NoDup (user_channels (db w1))
            ∧ channels (db w1) = channels a.1
            ∧ channels_seq (db w1) = channels_seq a.1) as (Hrow1 & Hnd1 & Hch1 & Hseq1).
    { rewrite Hdb1.
      destruct (decide ((user_id, a.2) ∈ user_channels d0)) as [Hhad|Hhad];
        [rewrite bool_decide_eq_true_2 by done|rewrite bool_decide_eq_false_2 by done];
        simpl.
      - rewrite Hucs_a. split_and!; [done| |done..]. by rewrite Hucs0.
      - split_and!; [|  |done..].
        + apply elem_of_app. right. apply list_elem_of_here.
        + apply NoDup_app. split_and!; [by rewrite Hucs0| |apply NoDup_singleton].
          intros x Hx Hx'. apply list_elem_of_singleton in Hx'. by subst x. }
    destruct (already_added (db w1) user_id handle) eqn:Eearly2.
    + (* the second call stops at the early check *)
      destruct (add_channel_finds d0 (lstrip_at handle) id title) as (c & Hc & Hid).
      fold a in Hc, Hid. apply fetchone_Some in Hc as [Hc Hname].
      exists c. rewrite Hdb2.
      split_and!; try done; [by rewrite Hch1|by right|].
      apply NoDup_one_row; [done|by rewrite Hid].
    + (* the second call resolves again: same channel row, duplicate key *)
      set (a' := add_channel (db w1) (lstrip_at handle) id' title') in *.
      assert (a'.2 = a.2) as Hsame.
      { subst a'. rewrite (add_channel_id_ext (db w1) a.1) by done.
        apply add_channel_same_id. }
      destruct (add_channel_frame (db w1) (lstrip_at handle) id' title') as (_ & Hucs' & _).
      fold a' in Hucs'.
      rewrite bool_decide_eq_true_2 in Hdb2 |- * by (by rewrite Hsame).
      destruct (add_channel_finds (db w1) (lstrip_at handle) id' title') as (c & Hc & Hid).
      fold a' in Hc, Hid. apply fetchone_Some in Hc as [Hc Hname].
      exists c. rewrite Hdb2, Hucs'.
      split_and!; try done; [by right|].
      unfold subscription_rows. rewrite Hucs'.
      apply NoDup_one_row; [done|by rewrite Hid, Hsame].
Qed.

Lemma subscribe_twice_is_idempotent_witness :
  ∃ w1 r1 w2 c,
    add_channel_for_user ok_transport 1 7 (str "@News") (start_world empty_db [])
    = Some (w1, Ret r1)
    ∧ add_channel_for_user ok_transport 1 7 (str "@News") w1
      = Some (w2, Ret (false, str "channel_already_added"))
    ∧ user_channels (db w2) = user_channels (db w1)
    ∧ NoDup (user_channels (db w2))
    ∧ c ∈ channels (db w2)
    ∧ (ch_channel_username c = lower (str "@News")
       ∨ ch_channel_username c = lower (lstrip_at (str "@News")))
    ∧ length (subscription_rows (db w2) 7 (ch_id c)) = 1%nat.
Proof.
  apply (subscribe_twice_is_idempotent ok_transport 1 7 (str "@News")
           (start_world empty_db [])).
  - intros k. by exists 100, (str "News").
  - lia.
  - apply NoDup_nil_2.
Defined.

(** The two calls on an empty store: the first adds, the second reports. *)
Example subscribe_twice_on_empty_store :
  let w := start_world empty_db [] in
  let first := add_channel_for_user ok_transport 1 7 (str "@News") w in
  (snd <$> first) = Some (Ret (true, str "News"))
  ∧ (db ∘ fst <$> first)
    = Some (mk_db [mk_user 7 None (str "realtime") (str "09:00") (str "uz")]
              [mk_channel 1 (str "news") 100 (str "News")] 1 [(7, 1)] [] 0)
  ∧ (snd <$> (first ≫= λ r, add_channel_for_user ok_transport 1 7 (str "@News") r.1))
    = Some (Ret (false, str "channel_already_added")).
Proof. split_and!; vm_compute; reflexivity. Qed.

(** The early check, when it fires: nothing is resolved, whatever the
    fuel. *)
Lemma add_channel_for_user_early (T : transport) (fuel : nat) (user_id : Z)
    (handle : pystr) (w : world) :
  let d0 := (get_or_create_user (db w) user_id None).1 in
  already_added d0 user_id handle = true →
  add_channel_for_user T fuel user_id handle w
  = Some (mk_world d0 (watching_channels w) (clock w) (calls w) (trace w),
          Ret (false, str "channel_already_added")).
Proof.
  intros d0 Hearly. unfold add_channel_for_user, with_db.
  subst d0. destruct (get_or_create_user (db w) user_id None) as [d0 row].
  cbn [fst snd db] in *. fold (already_added d0 user_id handle). by rewrite Hearly.
Qed.

Lemma lstrip_at_length (s : pystr) : (length (lstrip_at s) ≤ length s)%nat.
Proof.
  induction s as [|c s IH]; simpl; [done|]. case_bool_decide; simpl; lia.
Qed.

(** The early check compares the handle as given: with its at-sign it
    names no stored channel (stored handles have none). *)
Lemma already_added_needs_stripped_handle (d : database) (user_id : Z) (handle : pystr) :
  Forall (λ c, ch_channel_username c = lstrip_at (ch_channel_username c)) (channels d) →
  lstrip_at handle ≠ handle →
  already_added d user_id handle = false.
Proof.
  intros Hstored Hat. unfold already_added, get_channel_by_username.
  destruct (fetchone _ (channels d)) as [c|] eqn:E; [|done].
  apply fetchone_Some in E as [Hin Hname].
  rewrite Forall_forall in Hstored. specialize (Hstored c Hin).
  rewrite Hname in Hstored. destruct handle as [|ch rest]; [done|].
  simpl in Hat. case_bool_decide as Hch; [|done]. subst ch.
  apply (f_equal length) in Hstored.
  change (lower (64%N :: rest)) with (64%N :: lower rest) in Hstored.
  cbn [lstrip_at] in Hstored. rewrite bool_decide_eq_true_2 in Hstored by done.
  pose proof (lstrip_at_length (lower rest)). simpl in Hstored. lia.
Qed.

(** C6, at the failing input.  User 7 subscribes to the stored channel
    "news".  Asked to add "@news" ([/add @kanal], the documented form), the
    early check does not fire: the handle is resolved externally, and the
    answer depends on the transport ("channel_not_found" when the
    resolution fails).  Without the at-sign the early check fires and
    nothing is resolved; [remove_channel_for_user] strips the at-sign
    before its lookup. *)
Lemma subscribe_with_at_sign_misses_early_check :
  let w := start_world one_subscriber_db [100] in
  already_added one_subscriber_db 7 (str "news") = true
  ∧ already_added one_subscriber_db 7 (str "@news") = false
  ∧ (∃ w', add_channel_for_user ok_transport 1 7 (str "@news") w
           = Some (w', Ret (false, str "channel_already_added"))
           ∧ resolutions (trace w') = [str "news"])
  ∧ (∃ w', add_channel_for_user unknown_handle_transport 1 7 (str "@news") w
           = Some (w', Ret (false, str "channel_not_found"))
           ∧ resolutions (trace w') = [str "news"])
  ∧ add_channel_for_user unknown_handle_transport 1 7 (str "news") w
    = Some (w, Ret (false, str "channel_already_added"))
  ∧ (remove_channel_for_user 7 (str "@news") w).2 = Ret (true, str "News").
Proof.
  split_and!; try reflexivity; eexists; split; reflexivity.
Qed.

(** ** The digest as a whole *)

Lemma filter_ext_in {A} (P Q : A → Prop) `{∀ x, Decision (P x)} `{∀ x, Decision (Q x)}
    (l : list A) :
  (∀ x, x ∈ l → P x ↔ Q x) → filter P l = filter Q l.
Proof.
  induction l as [|x l IH]; intros Hext; [done|].
  rewrite !filter_cons, IH by (intros y Hy; apply Hext; by apply list_elem_of_further).
  pose proof (Hext x (list_elem_of_here _ _)).
  destruct (decide (P x)), (decide (Q x)); tauto || done.
Qed.

(** Where the titles of the fetched posts tell their channels apart, the
    groups are the channels. *)
Lemma groups_are_channels (fetched : list digest_row) (g : pystr * list digest_row) :
  (∀ p q, p ∈ fetched → q ∈ fetched →
          dr_channel_title p = dr_channel_title q ↔
          p_channel_id (dr_post p) = p_channel_id (dr_post q)) →
  g ∈ groups_by_title fetched →
  ∃ r, r ∈ fetched ∧ g.1 = dr_channel_title r
       ∧ g.2 = filter (λ p, p_channel_id (dr_post p) = p_channel_id (dr_post r)) fetched.
Proof.
  intros Htitles Hg. unfold groups_by_title in Hg.
  apply list_elem_of_fmap in Hg as (k & -> & Hk).
  apply first_seen_elem, list_elem_of_fmap in Hk as (r & -> & Hr).
  exists r. split_and!; [done..|]. simpl.
  apply filter_ext_in. intros p Hp. by apply Htitles.
Qed.

(** The digest of a user with something unsent: one message, made of the
    header and the lines of the groups; the groups are those of the titles
    in first-met order; a group lists at most five posts, each with its text
    cut to 100 code points and "..." when longer, and has a "more" line
    exactly when it holds more than five posts; once the bot has taken the
    message every fetched post is marked and nothing is left to fetch. *)
Lemma digest_composition (T : transport) (user_id : Z) (lang : pystr) (w : world) :
  let fetched := get_unsent_posts_for_user (db w) (clock w) user_id in
  let w' := (send_digest_to_user T user_id lang w).1 in
  fetched ≠ [] →
  sends (events_since w w')
  = [(user_id, get_message lang digest_header
               ++ concat (render_line <$> digest_lines fetched))]
  ∧ group_posts fetched = groups_by_title fetched
  ∧ (∀ g, g ∈ groups_by_title fetched →
       (length (listed_posts g.2) ≤ 5)%nat
       ∧ (∀ text, LPost text ∈ group_lines g ↔
                  ∃ p, p ∈ listed_posts g.2 ∧ text = shown_text p)
       ∧ (∀ n, LMore n ∈ group_lines g ↔ (5 < length g.2)%nat ∧ n = (length g.2 - 5)%nat))
  ∧ (∀ p, let text := p_text (dr_post p) in
          ((length text ≤ 100)%nat ∧ shown_text p = text)
          ∨ ((100 < length text)%nat ∧ shown_text p = take 100 text ++ str "..."))
  ∧ ((∀ p q, p ∈ fetched → q ∈ fetched →
             dr_channel_title p = dr_channel_title q ↔
             p_channel_id (dr_post p) = p_channel_id (dr_post q)) →
     ∀ g, g ∈ groups_by_title fetched →
       ∃ r, r ∈ fetched ∧ g.1 = dr_channel_title r
            ∧ g.2 = filter (λ p, p_channel_id (dr_post p) = p_channel_id (dr_post r))
                      fetched)
  ∧ (send_message T (calls w) user_id (build_digest lang fetched) = Ret tt →
     w' = delivered w user_id (build_digest lang fetched) (post_ids fetched)
     ∧ (∀ r, r ∈ fetched → sent_row (dr_post r) ∈ posts (db w'))
     ∧ get_unsent_posts_for_user (db w') (clock w') user_id = []).
Proof.
  intros fetched w' Hne. split_and!.
  - subst w'. rewrite send_digest_to_user_one_message by done.
    by rewrite build_digest_lines.
  - apply group_posts_by_title.
  - intros g _. split_and!.
    + apply listed_posts_at_most_5.
    + intros. apply post_line_of_group.
    + intros. apply more_line_of_group.
  - intros p. apply shown_text_cases.
  - intros Htitles g Hg. by apply groups_are_channels.
  - intros Hok. subst w'.
    rewrite (send_digest_to_user_delivered T user_id lang w Hne Hok).
    split_and!; [done| |].
    + intros r Hr. simpl. by apply fetched_post_marked.
    + simpl. apply nothing_unsent_after_marking.
Qed.

(** The digest of the specification's example: six posts of A, two of B. *)
Example digest_of_six_and_two :
  let post i c := mk_post i c (500 + i) (str "post") (1000000 * i) 0 in
  let d := mk_db [mk_user 7 None (str "digest") (str "09:00") (str "uz")]
                 [mk_channel 1 (str "a") 100 (str "A"); mk_channel 2 (str "b") 200 (str "B")] 2
                 [(7, 1); (7, 2)]
                 [post 1 2; post 2 1; post 3 1; post 4 1; post 5 2; post 6 1; post 7 1;
                  post 8 1] 8 in
  let w := mk_world d ∅ 9000000 0 [] in
  let w' := (send_digest_to_user ok_transport 7 (str "uz") w).1 in
  digest_lines (get_unsent_posts_for_user d 9000000 7)
  = [LHeader (str "A") 6; LPost (str "post"); LPost (str "post"); LPost (str "post");
     LPost (str "post"); LPost (str "post"); LMore 1; LBlank;
     LHeader (str "B") 2; LPost (str "post"); LPost (str "post"); LBlank]
  ∧ (p_sent <$> posts (db w')) = [1; 1; 1; 1; 1; 1; 1; 1]
  ∧ (send_manual_digest ok_transport 7 (str "uz") w').2 = Ret false.
Proof. split_and!; vm_compute; reflexivity. Qed.

(** C3, at the failing input.  User 7 has one unsent post in each of two
    channels that are both titled "News": the digest puts the two posts,
    of channels 1 and 2, under one header that counts 2. *)
Lemma same_title_channels_share_a_group :
  let fetched := get_unsent_posts_for_user same_title_db 3000000 7 in
  (p_channel_id ∘ dr_post <$> fetched) = [1; 2]
  ∧ (fst <$> group_posts fetched) = [str "News"]
  ∧ digest_lines fetched
    = [LHeader (str "News") 2; LPost (str "from A"); LPost (str "from B"); LBlank]
  ∧ sends (trace (send_digest_to_user ok_transport 7 (str "uz")
                    (mk_world same_title_db ∅ 3000000 0 [])).1)
    = [(7, get_message (str "uz") digest_header
           ++ concat (render_line <$> digest_lines fetched))].
Proof. split_and!; vm_compute; reflexivity. Qed.

(** Newest first; posts of the same second in table order. *)
Example unsent_posts_order :
  let d := mk_db [mk_user 7 None (str "digest") (str "09:00") (str "uz")]
                 [mk_channel 1 (str "news") 100 (str "News")] 1 [(7, 1)]
                 [mk_post 1 1 501 (str "a") 1000000 0; mk_post 2 1 502 (str "b") 2000000 0;
                  mk_post 3 1 503 (str "c") 2000000 0; mk_post 4 1 504 (str "d") 3000000 1] 4 in
  (p_id ∘ dr_post <$> get_unsent_posts_for_user d 4000000 7) = [2; 3; 1].
Proof. vm_compute. reflexivity. Qed.

(** * Further properties of the code *)

(** ** The constraints of the schema *)

Lemma store_ok_empty : store_ok empty_db.
Proof. unfold store_ok. simpl. split_and!; try apply NoDup_nil_2; apply Forall_nil_2. Qed.

Lemma fmap_update_same {A B} (f : A → B) (g : A → A) (l : list A) :
  (∀ x, f (g x) = f x) → f <$> (g <$> l) = f <$> l.
Proof.
  intros Hfg. rewrite <- list_fmap_compose. apply list_fmap_ext. intros i x _. apply Hfg.
Qed.

Lemma NoDup_fmap_filter {A B} (f : A → B) (P : A → Prop) `{∀ x, Decision (P x)}
    (l : list A) :
  NoDup (f <$> l) → NoDup (f <$> filter P l).
Proof.
  intros Hnd. eapply sublist_NoDup; [exact Hnd|]. apply fmap_sublist, sublist_filter.
Qed.

Lemma Forall_filter_weaken {A} (P Q : A → Prop) `{∀ x, Decision (Q x)} (l : list A) :
  Forall P l → Forall P (filter Q l).
Proof.
  rewrite !Forall_forall. intros HP x Hx. apply HP.
  by apply list_elem_of_filter in Hx as [_ ?].
Qed.

Lemma NoDup_snoc_fresh {A} (l : list A) (x : A) : NoDup l → x ∉ l → NoDup (l ++ [x]).
Proof.
  intros Hnd Hx. apply NoDup_app. split_and!; [done| |apply NoDup_singleton].
  intros y Hy Hy'. apply list_elem_of_singleton in Hy'. by subst y.
Qed.

Lemma get_or_create_user_keeps_store_ok (d : database) (user_id : Z)
    (username : option pystr) :
  store_ok d → store_ok (get_or_create_user d user_id username).1.
Proof.
  intros (Hu & Hci & Hcn & Hseq & Huc & Hpk & Hpi & Hps). unfold get_or_create_user.
  destruct (fetchone _ (users d)) as [row|] eqn:E; [done|].
  split_and!; [|done..]. simpl. rewrite fmap_app. apply NoDup_snoc_fresh; [done|].
  apply fetchone_None in E. rewrite Forall_forall in E.
  intros Hin. apply list_elem_of_fmap in Hin as (u & Hid & Hin). by apply (E u).
Qed.

Lemma update_user_mode_keeps_store_ok (d : database) (user_id : Z) (mode : pystr) :
  store_ok d → store_ok (update_user_mode d user_id mode).
Proof.
  intros (Hu & Hci & Hcn & Hseq & Huc & Hpk & Hpi & Hps). split_and!; [|done..]. simpl.
  rewrite fmap_update_same; [done|]. intros u. by case_bool_decide.
Qed.

Lemma update_user_digest_time_keeps_store_ok (d : database) (user_id : Z) (t : pystr) :
  store_ok d → store_ok (update_user_digest_time d user_id t).
Proof.
  intros (Hu & Hci & Hcn & Hseq & Huc & Hpk & Hpi & Hps). split_and!; [|done..]. simpl.
  rewrite fmap_update_same; [done|]. intros u. by case_bool_decide.
Qed.

Lemma update_user_language_keeps_store_ok (d : database) (user_id : Z) (lang : pystr) :
  store_ok d → store_ok (update_user_language d user_id lang).
Proof.
  intros (Hu & Hci & Hcn & Hseq & Huc & Hpk & Hpi & Hps). split_and!; [|done..]. simpl.
  rewrite fmap_update_same; [done|]. intros u. by case_bool_decide.
Qed.

Lemma add_channel_keeps_store_ok (d : database) (name : pystr) (id : Z) (title : pystr) :
  store_ok d → store_ok (add_channel d name id title).1.
Proof.
  intros (Hu & Hci & Hcn & Hseq & Huc & Hpk & Hpi & Hps). unfold add_channel.
  destruct (fetchone _ (channels d)) as [row|] eqn:E;
    unfold store_ok, set_channels;
    cbn [fst users channels channels_seq user_channels posts posts_seq].
  - split_and!; [done| | | |done..].
    + rewrite fmap_update_same; [done|]. intros c. by case_bool_decide.
    + rewrite fmap_update_same; [done|]. intros c. by case_bool_decide.
    + apply Forall_fmap. eapply Forall_impl; [exact Hseq|].
      intros c Hc. simpl. by case_bool_decide.
  - apply fetchone_None in E. rewrite Forall_forall in E, Hseq.
    split_and!; [done| | | |done..].
    + rewrite fmap_app. apply NoDup_snoc_fresh; [done|]. simpl.
      intros Hin. apply list_elem_of_fmap in Hin as (c & Hid & Hin).
      specialize (Hseq c Hin). lia.
    + rewrite fmap_app. apply NoDup_snoc_fresh; [done|]. simpl.
      intros Hin. apply list_elem_of_fmap in Hin as (c & Hname & Hin).
      by apply (E c).
    + apply Forall_app. split; [|apply Forall_singleton; simpl; lia].
      apply Forall_forall. intros c Hc. specialize (Hseq c Hc). lia.
Qed.

Lemma add_user_channel_keeps_store_ok (d : database) (user_id channel_id : Z) :
  store_ok d → store_ok (add_user_channel d user_id channel_id).1.
Proof.
  intros (Hu & Hci & Hcn & Hseq & Huc & Hpk & Hpi & Hps). unfold add_user_channel.
  case_bool_decide; [done|]. simpl. split_and!; [done| | | | |done..]; [done..|].
  by apply NoDup_snoc_fresh.
Qed.

Lemma remove_user_channel_keeps_store_ok (d : database) (user_id channel_id : Z) :
  store_ok d → store_ok (remove_user_channel d user_id channel_id).1.
Proof.
  intros (Hu & Hci & Hcn & Hseq & Huc & Hpk & Hpi & Hps). simpl. split_and!; [done| | | | |done..]; [done..|].
  by apply NoDup_filter.
Qed.

Lemma add_post_keeps_store_ok (d : database) (t c m : Z) (x : pystr) :
  store_ok d → store_ok (add_post d t c m x).1.
Proof.
  intros (Hu & Hci & Hcn & Hseq & Huc & Hpk & Hpi & Hps).
  pose proof (add_post_preserves_unique d t c m x Hpk) as Hkey.
  unfold posts_unique in Hkey. revert Hkey.
  destruct (decide (Exists (λ p, p_channel_id p = c ∧ p_message_id p = m) (posts d)))
    as [He|He].
  { rewrite add_post_duplicate by done. by intros _. }
  rewrite add_post_fresh by done. intros Hkey.
  unfold store_ok, set_posts in *.
  cbn [fst users channels channels_seq user_channels posts posts_seq] in *.
  rewrite Forall_forall in Hps.
  split_and!; [done..| |].
  - rewrite fmap_app. apply NoDup_snoc_fresh; [done|]. cbn [fmap list_fmap p_id].
    intros Hin. apply list_elem_of_fmap in Hin as (p & Hid & Hin).
    specialize (Hps p Hin). lia.
  - apply Forall_app. split; [|apply Forall_singleton; cbn [p_id]; lia].
    apply Forall_forall. intros p Hp. specialize (Hps p Hp). lia.
Qed.

Lemma mark_posts_sent_keeps_store_ok (d : database) (ids : list Z) :
  store_ok d → store_ok (mark_posts_sent d ids).
Proof.
  intros (Hu & Hci & Hcn & Hseq & Huc & Hpk & Hpi & Hps).
  destruct ids as [|i ids]; [done|].
  unfold store_ok, mark_posts_sent, set_posts.
  cbn [users channels channels_seq user_channels posts posts_seq].
  split_and!; [done..| | |].
  - rewrite fmap_update_same; [done|]. intros p. by case_bool_decide.
  - rewrite fmap_update_same; [done|]. intros p. by case_bool_decide.
  - apply Forall_fmap. eapply Forall_impl; [exact Hps|].
    intros p Hp. simpl. by case_bool_decide.
Qed.

Lemma cleanup_old_posts_keeps_store_ok (d : database) (t n : Z) :
  store_ok d → store_ok (cleanup_old_posts d t n).1.
Proof.
  intros (Hu & Hci & Hcn & Hseq & Huc & Hpk & Hpi & Hps). simpl.
  split_and!; [done..| | |].
  - by apply NoDup_fmap_filter.
  - by apply NoDup_fmap_filter.
  - by apply Forall_filter_weaken.
Qed.

(** ** Users and their settings *)

Lemma fetchone_app {A} (P : A → Prop) `{∀ x, Decision (P x)} (l k : list A) :
  fetchone P (l ++ k) = match fetchone P l with
                        | Some y => Some y
                        | None => fetchone P k
                        end.
Proof.
  induction l as [|x l IH]; [done|]. simpl.
  rewrite !fetchone_cons. by case_decide.
Qed.

Lemma set_users_same (d : database) : set_users d (users d) = d.
Proof. by destruct d. Qed.

Lemma fmap_update_absent {A} (P : A → Prop) `{∀ x, Decision (P x)} (g : A → A)
    (l : list A) :
  fetchone P l = None → (λ x, if bool_decide (P x) then g x else x) <$> l = l.
Proof.
  intros Hnone. apply fetchone_None in Hnone. rewrite Forall_forall in Hnone.
  etrans; [|apply list_fmap_id]. apply list_fmap_ext. intros i x Hx. simpl.
  rewrite bool_decide_eq_false_2; [done|]. apply Hnone. by eapply list_elem_of_lookup_2.
Qed.

(** An update of one column of [users], at the level of the rows. *)
Lemma update_user_rows (g : user_row → user_row) (l : list user_row) (user_id : Z) :
  (∀ u, u_user_id (g u) = u_user_id u) →
  let l' := (λ u, if bool_decide (u_user_id u = user_id) then g u else u) <$> l in
  fetchone (λ u, u_user_id u = user_id) l' = g <$> fetchone (λ u, u_user_id u = user_id) l
  ∧ (∀ v, v ≠ user_id →
          fetchone (λ u, u_user_id u = v) l' = fetchone (λ u, u_user_id u = v) l)
  ∧ length l' = length l.
Proof.
  intros Hg l'. split_and!.
  - subst l'. rewrite fetchone_fmap by (intros u; case_bool_decide; by rewrite ?Hg).
    destruct (fetchone _ l) as [row|] eqn:E; [|done]. simpl.
    apply fetchone_Some in E as [_ Hid]. by rewrite bool_decide_eq_true_2.
  - intros v Hv. subst l'.
    rewrite fetchone_fmap by (intros u; case_bool_decide; by rewrite ?Hg).
    destruct (fetchone _ l) as [row|] eqn:E; [|done]. simpl.
    apply fetchone_Some in E as [_ Hid]. rewrite bool_decide_eq_false_2; [done|].
    by rewrite Hid.
  - subst l'. by rewrite length_fmap.
Qed.


(** X2.  The three settings updates.  Each replaces its one column in the
    row of the user and leaves every other user, every other column and
    every other table as it was; for a user that is not stored it changes
    nothing (no row is created); the constraints of the schema are kept. *)
Theorem update_user_settings_effect (d : database) (user_id : Z) (value : pystr) :
  (get_user (update_user_mode d user_id value) user_id
   = with_mode value <$> get_user d user_id
   ∧ (∀ v, v ≠ user_id → get_user (update_user_mode d user_id value) v = get_user d v)
   ∧ same_but_users d (update_user_mode d user_id value)
   ∧ (get_user d user_id = None → update_user_mode d user_id value = d)
   ∧ (store_ok d → store_ok (update_user_mode d user_id value)))
  ∧ (get_user (update_user_digest_time d user_id value) user_id
     = with_digest_time value <$> get_user d user_id
     ∧ (∀ v, v ≠ user_id →
             get_user (update_user_digest_time d user_id value) v = get_user d v)
     ∧ same_but_users d (update_user_digest_time d user_id value)
     ∧ (get_user d user_id = None → update_user_digest_time d user_id value = d)
     ∧ (store_ok d → store_ok (update_user_digest_time d user_id value)))
  ∧ (get_user (update_user_language d user_id value) user_id
     = with_language value <$> get_user d user_id
     ∧ (∀ v, v ≠ user_id →
             get_user (update_user_language d user_id value) v = get_user d v)
     ∧ same_but_users d (update_user_language d user_id value)
     ∧ (get_user d user_id = None → update_user_language d user_id value = d)
     ∧ (store_ok d → store_ok (update_user_language d user_id value))).
Proof.
  split_and!.
  - apply (update_user_rows (with_mode value) (users d) user_id). done.
  - apply (update_user_rows (with_mode value) (users d) user_id). done.
  - done.
  - intros Hnone. unfold update_user_mode.
    pose proof (fmap_update_absent (λ u, u_user_id u = user_id)
                  (with_mode value) (users d) Hnone) as Heq.
    unfold with_mode in Heq. rewrite Heq. apply set_users_same.
  - apply update_user_mode_keeps_store_ok.
  - apply (update_user_rows (with_digest_time value) (users d) user_id). done.
  - apply (update_user_rows (with_digest_time value) (users d) user_id). done.
  - done.
  - intros Hnone. unfold update_user_digest_time.
    pose proof (fmap_update_absent (λ u, u_user_id u = user_id)
                  (with_digest_time value) (users d) Hnone) as Heq.
    unfold with_digest_time in Heq. rewrite Heq. apply set_users_same.
  - apply update_user_digest_time_keeps_store_ok.
  - apply (update_user_rows (with_language value) (users d) user_id). done.
  - apply (update_user_rows (with_language value) (users d) user_id). done.
  - done.
  - intros Hnone. unfold update_user_language.
    pose proof (fmap_update_absent (λ u, u_user_id u = user_id)
                  (with_language value) (users d) Hnone) as Heq.
    unfold with_language in Heq. rewrite Heq. apply set_users_same.
  - apply update_user_language_keeps_store_ok.
Qed.

(** ** Channels and subscriptions *)

Lemma NoDup_fmap_same {A B} (f : A → B) (l : list A) (x y : A) :
  NoDup (f <$> l) → x ∈ l → y ∈ l → f x = f y → x = y.
Proof.
  induction l as [|z l IH]; intros Hnd Hx Hy Hf; [by apply elem_of_nil in Hx|].
  rewrite fmap_cons in Hnd. apply NoDup_cons in Hnd as [Hz Hnd].
  apply elem_of_cons in Hx as [->|Hx]; apply elem_of_cons in Hy as [->|Hy]; [done| | |by apply IH].
  - destruct Hz. rewrite Hf. apply list_elem_of_fmap. eauto.
  - destruct Hz. rewrite <- Hf. apply list_elem_of_fmap. eauto.
Qed.

(** X3.  [add_channel] is an upsert by handle.  Afterwards the handle (in any
    letter case) is found with the external id and the title just given,
    under the row id returned.  A handle already stored keeps its row id
    and no row is added; a new one gets the next AUTOINCREMENT id.  On a
    store that meets the schema's constraints every other handle is found
    as before, and the constraints are kept. *)
Theorem add_channel_upsert (d : database) (name : pystr) (id : Z) (title : pystr) :
  let r := add_channel d name id title in
  get_channel_by_username r.1 name = Some (mk_channel r.2 (lower name) id title)
  ∧ (∀ row, get_channel_by_username d name = Some row →
            r.2 = ch_id row ∧ length (channels r.1) = length (channels d)
            ∧ channels_seq r.1 = channels_seq d)
  ∧ (get_channel_by_username d name = None →
     r.2 = channels_seq d + 1
     ∧ channels r.1 = channels d ++ [mk_channel r.2 (lower name) id title]
     ∧ channels_seq r.1 = r.2)
  ∧ (store_ok d → ∀ other, lower other ≠ lower name →
       get_channel_by_username r.1 other = get_channel_by_username d other)
  ∧ users r.1 = users d ∧ user_channels r.1 = user_channels d ∧ posts r.1 = posts d
  ∧ (store_ok d → store_ok r.1).
Proof.
  intros r. subst r.
  destruct (add_channel_frame d name id title) as (Hus & Hucs & Hps).
  split_and!; [| | | |done..|apply add_channel_keeps_store_ok].
  - unfold get_channel_by_username, add_channel.
    destruct (fetchone _ (channels d)) as [row|] eqn:E; simpl.
    + rewrite fetchone_fmap, E by (intros c; by case_bool_decide).
      simpl. rewrite bool_decide_eq_true_2 by done.
      apply fetchone_Some in E as [_ Hname]. by rewrite Hname.
    + by rewrite fetchone_snoc.
  - unfold get_channel_by_username, add_channel. intros row ->. simpl.
    by rewrite length_fmap.
  - unfold get_channel_by_username, add_channel. by intros ->.
  - intros (_ & Hids & _) other Hother.
    unfold get_channel_by_username, add_channel.
    destruct (fetchone (λ c, ch_channel_username c = lower name) (channels d))
      as [row|] eqn:E; simpl.
    + rewrite fetchone_fmap by (intros c; by case_bool_decide).
      destruct (fetchone (λ c, ch_channel_username c = lower other) (channels d))
        as [c|] eqn:Eo; [|done]. simpl.
      apply fetchone_Some in E as [Hrow Hname]. apply fetchone_Some in Eo as [Hc Hcname].
      rewrite bool_decide_eq_false_2; [done|]. intros Hsame.
      apply Hother. rewrite <- Hcname, <- Hname. f_equal.
      by apply (NoDup_fmap_same ch_id (channels d)).
    + rewrite fetchone_app, fetchone_cons.
      destruct (fetchone (λ c, ch_channel_username c = lower other) (channels d)); [done|].
      rewrite decide_False; [done|]. simpl. congruence.
Qed.

Lemma set_user_channels_same (d : database) : set_user_channels d (user_channels d) = d.
Proof. by destruct d. Qed.

Lemma filter_all {A} (P : A → Prop) `{∀ x, Decision (P x)} (l : list A) :
  Forall P l → filter P l = l.
Proof.
  induction 1 as [|x l Hx _ IH]; [done|]. by rewrite filter_cons, decide_True, IH.
Qed.

(** X4.  Subscription rows.  [add_user_channel] reports [True] exactly when
    the pair was not stored and afterwards the pair is stored;
    [remove_user_channel] reports [True] exactly when it was stored and
    afterwards it is not; removing what was just added gives the store back,
    removing what is not there changes nothing; no other pair is affected;
    the constraints of the schema are kept. *)
Theorem subscription_insert_delete (d : database) (user_id channel_id : Z) :
  let added := add_user_channel d user_id channel_id in
  let removed := remove_user_channel d user_id channel_id in
  added.2 = negb (user_has_channel d user_id channel_id)
  ∧ user_has_channel added.1 user_id channel_id = true
  ∧ removed.2 = user_has_channel d user_id channel_id
  ∧ user_has_channel removed.1 user_id channel_id = false
  ∧ (user_has_channel d user_id channel_id = false →
     remove_user_channel added.1 user_id channel_id = (d, true)
     ∧ removed = (d, false))
  ∧ (user_has_channel d user_id channel_id = true → added = (d, false))
  ∧ (∀ u c, (u, c) ≠ (user_id, channel_id) →
            user_has_channel added.1 u c = user_has_channel d u c
            ∧ user_has_channel removed.1 u c = user_has_channel d u c)
  ∧ (store_ok d → store_ok added.1 ∧ store_ok removed.1).
Proof.
  intros added removed. subst added removed.
  assert ((remove_user_channel d user_id channel_id).2
          = user_has_channel d user_id channel_id) as Hrem2.
  { unfold remove_user_channel, user_has_channel. cbn [snd]. apply bool_decide_ext. split.
    - intros Hlen.
      destruct (filter _ (user_channels d)) as [|x l] eqn:E; [simpl in Hlen; lia|].
      assert (x ∈ filter (λ uc, uc = (user_id, channel_id)) (user_channels d)) as Hx
          by (rewrite E; apply list_elem_of_here).
      by apply list_elem_of_filter in Hx as [-> ?].
    - intros Hin.
      assert ((user_id, channel_id)
              ∈ filter (λ uc, uc = (user_id, channel_id)) (user_channels d)) as Hx
          by (by apply list_elem_of_filter).
      destruct (filter _ (user_channels d)); [by apply elem_of_nil in Hx|simpl; lia]. }
  assert (user_has_channel (remove_user_channel d user_id channel_id).1 user_id channel_id
          = false) as Hrem1.
  { unfold remove_user_channel, user_has_channel. cbn [fst set_user_channels user_channels].
    apply bool_decide_eq_false_2. rewrite list_elem_of_filter. by intros [Hne _]. }
  assert (∀ u c, (u, c) ≠ (user_id, channel_id) →
            user_has_channel (remove_user_channel d user_id channel_id).1 u c
            = user_has_channel d u c) as Hrem_other.
  { intros u c Hne. unfold remove_user_channel, user_has_channel.
    cbn [fst set_user_channels user_channels].
    apply bool_decide_ext. rewrite list_elem_of_filter. tauto. }
  destruct (decide ((user_id, channel_id) ∈ user_channels d)) as [Hin|Hnin].
  - assert (add_user_channel d user_id channel_id = (d, false)) as ->
        by (unfold add_user_channel; by rewrite bool_decide_eq_true_2).
    assert (user_has_channel d user_id channel_id = true) as Hhas
        by (by apply bool_decide_eq_true_2).
    rewrite Hhas in *. cbn [fst snd negb].
    split_and!; try done.
    + intros u c Hne. split; [done|by apply Hrem_other].
    + intros Hok. split; [done|].
      apply (remove_user_channel_keeps_store_ok d user_id channel_id Hok).
  - assert (add_user_channel d user_id channel_id
            = (set_user_channels d (user_channels d ++ [(user_id, channel_id)]), true)) as ->
        by (unfold add_user_channel; by rewrite bool_decide_eq_false_2).
    assert (user_has_channel d user_id channel_id = false) as Hhas
        by (by apply bool_decide_eq_false_2).
    rewrite Hhas in *. cbn [fst snd negb].
    assert (filter (λ uc, uc ≠ (user_id, channel_id)) (user_channels d) = user_channels d)
      as Hkeep.
    { apply filter_all, Forall_forall. by intros uc Huc ->. }
    assert (filter (λ uc, uc = (user_id, channel_id)) (user_channels d) = []) as Hnone.
    { apply filter_none, Forall_forall. by intros uc Huc ->. }
    split_and!; try done.
    + unfold user_has_channel. cbn [set_user_channels user_channels].
      apply bool_decide_eq_true_2, elem_of_app. right. apply list_elem_of_here.
    + intros _. split.
      * unfold remove_user_channel. cbn [set_user_channels user_channels].
        rewrite !filter_app, Hkeep, Hnone.
        rewrite (filter_none _ [_]) by (apply Forall_singleton; by intros Hne).
        rewrite (filter_all (λ uc, uc = _) [_]) by (by apply Forall_singleton).
        rewrite app_nil_r. simpl. f_equal. by destruct d.
      * unfold remove_user_channel. rewrite Hkeep, Hnone, set_user_channels_same. done.
    + intros u c Hne. split; [|by apply Hrem_other].
      unfold user_has_channel. cbn [set_user_channels user_channels].
      apply bool_decide_ext. rewrite elem_of_app, list_elem_of_singleton.
      split; [intros [?|?]; [done|congruence]|by left].
    + intros Hok. split.
      * apply (add_user_channel_keeps_store_ok d user_id channel_id) in Hok.
        revert Hok. unfold add_user_channel. by rewrite bool_decide_eq_false_2.
      * apply (remove_user_channel_keeps_store_ok d user_id channel_id Hok).
Qed.

(** ** Posts *)

Lemma current_timestamp_bounds (t : Z) :
  t - 1000000 < current_timestamp t ≤ t ∧ current_timestamp t `mod` 1000000 = 0.
Proof.
  unfold current_timestamp.
  pose proof (Z.div_mod t 1000000 ltac:(lia)).
  pose proof (Z.mod_pos_bound t 1000000 ltac:(lia)).
  split; [lia|]. apply Z.mod_mul. lia.
Qed.

Lemma text_kept_is_take_500 (x : pystr) :
  match x with [] => [] | _ => take 500 x end = take 500 x.
Proof. by destruct x. Qed.

(** X5.  [add_post].  A (channel, message) pair not yet stored gets one new
    row, under the next AUTOINCREMENT id (an id no stored post has), with
    the first 500 code points of the text, the time of the call cut to whole
    seconds, and the [sent] flag clear; a pair already stored changes
    nothing and [None] is returned.  No stored row is altered and the
    constraints of the schema are kept. *)
Theorem add_post_records (d : database) (t c m : Z) (x : pystr) :
  let r := add_post d t c m x in
  let row := mk_post (posts_seq d + 1) c m (take 500 x) (current_timestamp t) 0 in
  (stored_posts d c m = [] → r.2 = Some (posts_seq d + 1) ∧ posts r.1 = posts d ++ [row])
  ∧ (stored_posts d c m ≠ [] → r = (d, None))
  ∧ (length (p_text row) ≤ 500)%nat
  ∧ p_text row `prefix_of` x
  ∧ t - 1000000 < p_created_at row ≤ t
  ∧ posts d `prefix_of` posts r.1
  ∧ users r.1 = users d ∧ channels r.1 = channels d ∧ user_channels r.1 = user_channels d
  ∧ (store_ok d → store_ok r.1 ∧ (posts_seq d + 1) ∉ (p_id <$> posts d)).
Proof.
  intros r row. subst r row. split_and!.
  - intros Hnone. rewrite add_post_fresh.
    + by rewrite text_kept_is_take_500.
    + rewrite Exists_exists. intros (p & Hp & Hkey).
      assert (p ∈ stored_posts d c m) as Hin by (by apply list_elem_of_filter).
      rewrite Hnone in Hin. by apply elem_of_nil in Hin.
  - intros Hsome. apply add_post_duplicate.
    destruct (stored_posts d c m) as [|p l] eqn:E; [done|].
    assert (p ∈ stored_posts d c m) as Hin by (rewrite E; apply list_elem_of_here).
    apply list_elem_of_filter in Hin as [Hkey Hp].
    apply Exists_exists. eauto.
  - simpl. rewrite length_take. lia.
  - simpl. apply prefix_take.
  - simpl. pose proof (current_timestamp_bounds t). lia.
  - simpl. pose proof (current_timestamp_bounds t). lia.
  - apply add_post_keeps_posts.
  - unfold add_post. by case_bool_decide.
  - unfold add_post. by case_bool_decide.
  - unfold add_post. by case_bool_decide.
  - intros Hok. split; [by apply add_post_keeps_store_ok|].
    destruct Hok as (_ & _ & _ & _ & _ & _ & _ & Hseq). rewrite Forall_forall in Hseq.
    intros Hin. apply list_elem_of_fmap in Hin as (p & Hid & Hp).
    specialize (Hseq p Hp). lia.
Qed.

Lemma set_posts_same (d : database) : set_posts d (posts d) (posts_seq d) = d.
Proof. by destruct d. Qed.

Lemma mark_posts_sent_eq (d : database) (ids : list Z) :
  mark_posts_sent d ids
  = set_posts d ((λ p, if bool_decide (p_id p ∈ ids) then sent_row p else p) <$> posts d)
      (posts_seq d).
Proof.
  destruct ids as [|i ids]; [|done]. simpl.
  rewrite (list_fmap_ext _ id (posts d)) by done.
  by rewrite list_fmap_id, set_posts_same.
Qed.

Lemma mark_posts_sent_app (d : database) (l1 l2 : list Z) :
  mark_posts_sent (mark_posts_sent d l1) l2 = mark_posts_sent d (l1 ++ l2).
Proof.
  rewrite !mark_posts_sent_eq. unfold set_posts. simpl. f_equal.
  rewrite <- list_fmap_compose. apply list_fmap_ext. intros i p _. simpl.
  destruct (decide (p_id p ∈ l1)) as [H1|H1].
  - rewrite (bool_decide_eq_true_2 (p_id p ∈ l1)) by done. simpl.
    rewrite (bool_decide_eq_true_2 (p_id p ∈ l1 ++ l2))
      by (apply elem_of_app; by left).
    by case_bool_decide.
  - rewrite (bool_decide_eq_false_2 (p_id p ∈ l1)) by done.
    apply (f_equal (λ b : bool, if b then sent_row p else p)).
    apply bool_decide_ext. rewrite elem_of_app. tauto.
Qed.

Lemma mark_posts_sent_ids (d : database) (ids : list Z) :
  (p_id <$> posts (mark_posts_sent d ids)) = (p_id <$> posts d)
  ∧ posts_seq (mark_posts_sent d ids) = posts_seq d
  ∧ channels_seq (mark_posts_sent d ids) = channels_seq d.
Proof.
  split; [|by destruct ids].
  rewrite mark_posts_sent_posts. apply fmap_update_same. intros p. by case_bool_decide.
Qed.

(** X6.  [mark_posts_sent] only ever sets flags.  A row is left as it is or
    becomes the same row with [sent = 1]; a row that was sent stays as it
    is; marking the same ids again changes nothing, and marking two lists
    one after the other is marking their concatenation; the empty list is a
    no-op; no row is added or removed and no other table changes. *)
Theorem mark_posts_sent_only_sets_flags (d : database) (ids ids' : list Z) :
  (∀ p', p' ∈ posts (mark_posts_sent d ids) →
         ∃ p, p ∈ posts d ∧ (p' = p ∨ (p_id p ∈ ids ∧ p' = sent_row p)))
  ∧ (∀ p, p ∈ posts d → p_sent p = 1 → p ∈ posts (mark_posts_sent d ids))
  ∧ (∀ p, p ∈ posts d → p_id p ∉ ids → p ∈ posts (mark_posts_sent d ids))
  ∧ mark_posts_sent (mark_posts_sent d ids) ids = mark_posts_sent d ids
  ∧ mark_posts_sent (mark_posts_sent d ids) ids' = mark_posts_sent d (ids ++ ids')
  ∧ mark_posts_sent d [] = d
  ∧ (p_id <$> posts (mark_posts_sent d ids)) = (p_id <$> posts d)
  ∧ users (mark_posts_sent d ids) = users d
  ∧ channels (mark_posts_sent d ids) = channels d
  ∧ user_channels (mark_posts_sent d ids) = user_channels d.
Proof.
  pose proof (mark_posts_sent_app d) as Hcomp.
  split_and!.
  - intros p' Hp'. rewrite mark_posts_sent_posts in Hp'.
    apply list_elem_of_fmap in Hp' as (p & -> & Hp). exists p. split; [done|].
    case_bool_decide; [right|left]; done.
  - intros p Hp Hsent. rewrite mark_posts_sent_posts. apply list_elem_of_fmap.
    exists p. split; [|done]. case_bool_decide; [|done].
    destruct p. simpl in *. by subst.
  - intros p Hp Hid. rewrite mark_posts_sent_posts. apply list_elem_of_fmap.
    exists p. split; [|done]. by rewrite bool_decide_eq_false_2.
  - rewrite Hcomp, !mark_posts_sent_eq. f_equal. apply list_fmap_ext. intros i p _.
    apply (f_equal (λ b : bool, if b then sent_row p else p)).
    apply bool_decide_ext. rewrite elem_of_app. tauto.
  - apply Hcomp.
  - done.
  - rewrite mark_posts_sent_posts. apply fmap_update_same. intros p. by case_bool_decide.
  - apply mark_posts_sent_others.
  - apply mark_posts_sent_others.
  - apply mark_posts_sent_others.
Qed.




(** ** What a digest fetches *)

Lemma insert_desc_sorted (r : digest_row) (l : list digest_row) :
  StronglySorted newer_or_same l → StronglySorted newer_or_same (insert_desc r l).
Proof.
  induction 1 as [|r' l Hs IH Hr']; simpl.
  - repeat constructor.
  - case_bool_decide as Hle.
    + constructor; [by constructor|]. constructor; [done|].
      eapply Forall_impl; [exact Hr'|]. unfold newer_or_same. intros x Hx. lia.
    + constructor; [done|].
      rewrite insert_desc_Permutation. constructor; [unfold newer_or_same; lia|done].
Qed.

Lemma order_by_created_at_desc_sorted (l : list digest_row) :
  StronglySorted newer_or_same (order_by_created_at_desc l).
Proof.
  induction l as [|r l IH]; simpl; [constructor|]. by apply insert_desc_sorted.
Qed.

(** X8.  [get_unsent_posts_for_user] returns the rows that are due and only
    those: the unsent posts, younger than 24 hours, of the channels the user
    subscribes to, each with the title and handle of its channel; newest
    first; and, on a store that meets the schema's constraints, each row
    once. *)
Theorem unsent_posts_are_due_and_newest_first (d : database) (t user_id : Z) :
  let fetched := get_unsent_posts_for_user d t user_id in
  (∀ r, r ∈ fetched ↔
        ∃ p c, p ∈ posts d ∧ c ∈ channels d ∧ p_channel_id p = ch_id c
               ∧ (user_id, ch_id c) ∈ user_channels d
               ∧ t - hours 24 < p_created_at p ∧ p_sent p = 0
               ∧ r = mk_digest_row p (ch_title c) (ch_channel_username c))
  ∧ StronglySorted newer_or_same fetched
  ∧ (store_ok d → NoDup fetched).
Proof.
  intros fetched. split_and!.
  - intros r. apply elem_of_unsent_posts.
  - apply order_by_created_at_desc_sorted.
  - intros (_ & Hcids & _ & _ & Hucs & _ & Hpids & _).
    subst fetched. unfold get_unsent_posts_for_user.
    rewrite order_by_created_at_desc_Permutation.
    apply NoDup_bind.
    + intros p1 p2 r _ _ H1 H2.
      apply list_elem_of_bind in H1 as (c1 & H1 & _).
      apply list_elem_of_bind in H1 as (uc1 & H1 & _).
      apply list_elem_of_bind in H2 as (c2 & H2 & _).
      apply list_elem_of_bind in H2 as (uc2 & H2 & _).
      repeat case_bool_decide;
        try (by apply elem_of_nil in H1); try (by apply elem_of_nil in H2).
      apply list_elem_of_singleton in H1, H2. subst r. by injection H2.
    + intros p Hp. apply NoDup_bind.
      * intros c1 c2 r Hc1 Hc2 H1 H2.
        apply list_elem_of_filter in Hc1 as [Hid1 Hc1].
        apply list_elem_of_filter in Hc2 as [Hid2 Hc2].
        apply (NoDup_fmap_same ch_id (channels d)); [done..|congruence].
      * intros c Hc. apply NoDup_bind.
        -- intros [u1 k1] [u2 k2] r Hu1 Hu2 _ _.
           apply list_elem_of_filter in Hu1 as [[? ?] _].
           apply list_elem_of_filter in Hu2 as [[? ?] _]. simpl in *. congruence.
        -- intros uc _. case_bool_decide; [apply NoDup_singleton|apply NoDup_nil_2].
        -- by apply NoDup_filter.
      * apply NoDup_filter. by eapply NoDup_fmap_1.
    + by eapply NoDup_fmap_1.
Qed.

(** X9.  The [sent] flag belongs to the post, not to the subscriber.  Once a
    digest has been delivered to one user, none of the posts it held is
    returned for any user at any later time (a second subscriber of the
    same channel does not get them in a digest); what is returned was
    pending before. *)
Theorem delivered_posts_are_withheld_from_everyone (T : transport) (user_id : Z)
    (lang : pystr) (w : world) (other t : Z) :
  let fetched := get_unsent_posts_for_user (db w) (clock w) user_id in
  let w' := (send_digest_to_user T user_id lang w).1 in
  fetched ≠ [] →
  send_message T (calls w) user_id (build_digest lang fetched) = Ret tt →
  Forall (λ r, (p_id (dr_post r) ∉ post_ids fetched)
               ∧ r ∈ get_unsent_posts_for_user (db w) t other)
    (get_unsent_posts_for_user (db w') t other).
Proof.
  intros fetched w' Hne Hok. apply Forall_forall. intros r Hr. subst w'.
  rewrite (send_digest_to_user_delivered T user_id lang w Hne Hok) in Hr.
  subst fetched. cbn [fst delivered db] in Hr.
  apply elem_of_unsent_posts in Hr as (p' & c & Hp' & Hc & Hpc & Huc & Hlook & Hsent & ->).
  destruct (mark_posts_sent_others (db w)
              (post_ids (get_unsent_posts_for_user (db w) (clock w) user_id)))
    as (_ & Hcs & Hucs).
  rewrite Hcs in Hc. rewrite Hucs in Huc.
  rewrite mark_posts_sent_posts in Hp'.
  apply list_elem_of_fmap in Hp' as (p & -> & Hp).
  case_bool_decide as Hid; [done|].
  split; [done|]. apply elem_of_unsent_posts. by exists p, c.
Qed.

Lemma delivered_posts_are_withheld_from_everyone_witness :
  let w := mk_world shared_channel_db ∅ 2000000 0 [] in
  let fetched := get_unsent_posts_for_user (db w) (clock w) 7 in
  let w' := (send_digest_to_user ok_transport 7 (str "uz") w).1 in
  Forall (λ r, (p_id (dr_post r) ∉ post_ids fetched)
               ∧ r ∈ get_unsent_posts_for_user (db w) 2000000 8)
    (get_unsent_posts_for_user (db w') 2000000 8).
Proof.
  apply (delivered_posts_are_withheld_from_everyone ok_transport 7 (str "uz")
           (mk_world shared_channel_db ∅ 2000000 0 []) 8 2000000).
  - vm_compute. discriminate.
  - reflexivity.
Defined.

(** User 8 follows the channel of user 7 and one more: after 7's digest,
    8's own digest holds the post of the other channel only. *)
Example second_subscriber_misses_delivered_post :
  let w := mk_world shared_channel_db ∅ 2000000 0 [] in
  let w' := (send_digest_to_user ok_transport 7 (str "uz") w).1 in
  (p_id ∘ dr_post <$> get_unsent_posts_for_user (db w) (clock w) 8) = [2; 1]
  ∧ (p_id ∘ dr_post <$> get_unsent_posts_for_user (db w') (clock w') 8) = [2].
Proof. split_and!; vm_compute; reflexivity. Qed.

(** X10.  The digest message, as the code composes it.  A user with
    something unsent is sent exactly one message: the header and the lines
    of the groups.  The groups are those of the channel titles, in the order
    the titles are first met; a group lists at most five posts, each with
    its text cut to 100 code points and "..." when longer, and has a "more"
    line exactly when it holds more than five posts.  When the titles tell
    the fetched posts' channels apart a group is a channel.  Once the bot
    has taken the message every fetched post is marked as sent and nothing
    is left to fetch for the user. *)
Theorem digest_groups_by_title (T : transport) (user_id : Z) (lang : pystr) (w : world) :
  let fetched := get_unsent_posts_for_user (db w) (clock w) user_id in
  let w' := (send_digest_to_user T user_id lang w).1 in
  fetched ≠ [] →
  sends (events_since w w')
  = [(user_id, get_message lang digest_header
               ++ concat (render_line <$> digest_lines fetched))]
  ∧ group_posts fetched = groups_by_title fetched
  ∧ (∀ g, g ∈ groups_by_title fetched →
       (length (listed_posts g.2) ≤ 5)%nat
       ∧ (∀ text, LPost text ∈ group_lines g ↔
                  ∃ p, p ∈ listed_posts g.2 ∧ text = shown_text p)
       ∧ (∀ n, LMore n ∈ group_lines g ↔ (5 < length g.2)%nat ∧ n = (length g.2 - 5)%nat))
  ∧ (∀ p, let text := p_text (dr_post p) in
          ((length text ≤ 100)%nat ∧ shown_text p = text)
          ∨ ((100 < length text)%nat ∧ shown_text p = take 100 text ++ str "..."))
  ∧ ((∀ p q, p ∈ fetched → q ∈ fetched →
             dr_channel_title p = dr_channel_title q ↔
             p_channel_id (dr_post p) = p_channel_id (dr_post q)) →
     ∀ g, g ∈ groups_by_title fetched →
       ∃ r, r ∈ fetched ∧ g.1 = dr_channel_title r
            ∧ g.2 = filter (λ p, p_channel_id (dr_post p) = p_channel_id (dr_post r))
                      fetched)
  ∧ (send_message T (calls w) user_id (build_digest lang fetched) = Ret tt →
     w' = delivered w user_id (build_digest lang fetched) (post_ids fetched)
     ∧ (∀ r, r ∈ fetched → sent_row (dr_post r) ∈ posts (db w'))
     ∧ get_unsent_posts_for_user (db w') (clock w') user_id = []).
Proof. exact (digest_composition T user_id lang w). Qed.

Lemma digest_groups_by_title_witness :
  let w := mk_world empty_text_db ∅ 3000000 0 [] in
  let fetched := get_unsent_posts_for_user (db w) (clock w) 7 in
  let w' := (send_digest_to_user ok_transport 7 (str "uz") w).1 in
  sends (events_since w w')
  = [(7, get_message (str "uz") digest_header
         ++ concat (render_line <$> digest_lines fetched))]
  ∧ group_posts fetched = groups_by_title fetched
  ∧ (∀ g, g ∈ groups_by_title fetched →
       (length (listed_posts g.2) ≤ 5)%nat
       ∧ (∀ text, LPost text ∈ group_lines g ↔
                  ∃ p, p ∈ listed_posts g.2 ∧ text = shown_text p)
       ∧ (∀ n, LMore n ∈ group_lines g ↔ (5 < length g.2)%nat ∧ n = (length g.2 - 5)%nat))
  ∧ (∀ p, let text := p_text (dr_post p) in
          ((length text ≤ 100)%nat ∧ shown_text p = text)
          ∨ ((100 < length text)%nat ∧ shown_text p = take 100 text ++ str "..."))
  ∧ ((∀ p q, p ∈ fetched → q ∈ fetched →
             dr_channel_title p = dr_channel_title q ↔
             p_channel_id (dr_post p) = p_channel_id (dr_post q)) →
     ∀ g, g ∈ groups_by_title fetched →
       ∃ r, r ∈ fetched ∧ g.1 = dr_channel_title r
            ∧ g.2 = filter (λ p, p_channel_id (dr_post p) = p_channel_id (dr_post r))
                      fetched)
  ∧ (send_message ok_transport (calls w) 7 (build_digest (str "uz") fetched) = Ret tt →
     w' = delivered w 7 (build_digest (str "uz") fetched) (post_ids fetched)
     ∧ (∀ r, r ∈ fetched → sent_row (dr_post r) ∈ posts (db w'))
     ∧ get_unsent_posts_for_user (db w') (clock w') 7 = []).
Proof.
  apply (digest_groups_by_title ok_transport 7 (str "uz")
           (mk_world empty_text_db ∅ 3000000 0 [])).
  vm_compute. discriminate.
Defined.

(** ** Resolving, subscribing, unsubscribing *)

(** Whatever the transport answers, a resolution that returns has not
    raised and has touched neither the store nor the watch set; a channel it
    returns is the one the last call answered with, under the handle without
    its at-signs. *)
Lemma resolve_channel_returns (T : transport) (fuel : nat) :
  ∀ (handle : pystr) (w w' : world) (r : result (option channel_info)),
    resolve_channel T fuel handle w = Some (w', r) →
    db w' = db w ∧ watching_channels w' = watching_channels w
    ∧ trace w `prefix_of` trace w'
    ∧ (calls w < calls w')%nat
    ∧ ∃ o, r = Ret o
         ∧ match o with
           | Some info =>
               ci_username info = lstrip_at handle
               ∧ get_entity T (pred (calls w')) (lstrip_at handle)
                 = Ret (EntChannel (ci_channel_id info) (ci_title info))
           | None =>
               ∀ id title, get_entity T (pred (calls w')) (lstrip_at handle)
                           ≠ Ret (EntChannel id title)
           end.
Proof.
  induction fuel as [|fuel IH]; intros handle w w' r Hres; [done|].
  cbn [resolve_channel] in Hres. unfold resolve_channel_try in Hres. revert Hres. run_M.
  destruct (get_entity T (calls w) (lstrip_at handle)) as [[id title|]|[]] eqn:E; simpl.
  - intros [= <- <-]. simpl. split_and!; [done..|by apply prefix_app_r|lia|].
    by exists (Some (mk_channel_info (lstrip_at handle) id title)).
  - intros [= <- <-]. simpl. split_and!; [done..| |lia|].
    + rewrite <- (assoc_L (++)). by apply prefix_app_r.
    + exists None. split; [done|]. intros id title. by rewrite E.
  - intros Hrec. apply IH in Hrec as (Hd & Hw & Ht & Hc & o & -> & Ho). simpl in *.
    rewrite lstrip_at_idemp in Ho.
    split_and!; [done..| |lia|by exists o].
    etrans; [|exact Ht]. rewrite <- !(assoc_L (++)). by apply prefix_app_r.
  - intros [= <- <-]. simpl. split_and!; [done..| |lia|].
    + rewrite <- (assoc_L (++)). by apply prefix_app_r.
    + exists None. split; [done|]. intros id title. by rewrite E.
  - intros [= <- <-]. simpl. split_and!; [done..| |lia|].
    + rewrite <- (assoc_L (++)). by apply prefix_app_r.
    + exists None. split; [done|]. intros id title. by rewrite E.
  - intros [= <- <-]. simpl. split_and!; [done..| |lia|].
    + rewrite <- (assoc_L (++)). by apply prefix_app_r.
    + exists None. split; [done|]. intros id title. by rewrite E.
Qed.

(** X11.  What [resolve_channel] promises when it returns.  It has not
    raised, it has made at least one call to Telegram, it has only appended
    to the trace, and it has touched neither the store nor the watch set.  A
    channel it returns carries the handle without its leading "@" and the
    id and the title that the last [get_entity] call answered for that
    handle; it returns [None] only when that last call did not answer with
    a channel. *)
Theorem resolve_channel_contract (T : transport) (fuel : nat) (handle : pystr)
    (w w' : world) (r : result (option channel_info)) :
  resolve_channel T fuel handle w = Some (w', r) →
  db w' = db w ∧ watching_channels w' = watching_channels w
  ∧ trace w `prefix_of` trace w'
  ∧ (calls w < calls w')%nat
  ∧ ∃ o, r = Ret o
       ∧ match o with
         | Some info =>
             ci_username info = lstrip_at handle
             ∧ get_entity T (pred (calls w')) (lstrip_at handle)
               = Ret (EntChannel (ci_channel_id info) (ci_title info))
         | None =>
             ∀ id title, get_entity T (pred (calls w')) (lstrip_at handle)
                         ≠ Ret (EntChannel id title)
         end.
Proof. apply resolve_channel_returns. Qed.

Lemma resolve_channel_contract_witness :
  let w := start_world one_subscriber_db [100] in
  let T := flooding_transport 2 1 in
  let w' := default w (fst <$> resolve_channel T 5 (str "@news") w) in
  let r := Ret (Some (mk_channel_info (str "news") 100 (str "News"))) in
  db w' = db w ∧ watching_channels w' = watching_channels w
  ∧ trace w `prefix_of` trace w'
  ∧ (calls w < calls w')%nat
  ∧ ∃ o, r = Ret o
       ∧ match o with
         | Some info =>
             ci_username info = lstrip_at (str "@news")
             ∧ get_entity T (pred (calls w')) (lstrip_at (str "@news"))
               = Ret (EntChannel (ci_channel_id info) (ci_title info))
         | None =>
             ∀ id title, get_entity T (pred (calls w')) (lstrip_at (str "@news"))
                         ≠ Ret (EntChannel id title)
         end.
Proof.
  apply (resolve_channel_contract (flooding_transport 2 1) 5 (str "@news")
           (start_world one_subscriber_db [100])).
  vm_compute. reflexivity.
Defined.

Lemma add_channel_lookup (d : database) (name : pystr) (id : Z) (title : pystr) :
  get_channel_by_username (add_channel d name id title).1 name
  = Some (mk_channel (add_channel d name id title).2 (lower name) id title).
Proof.
  unfold get_channel_by_username, add_channel.
  destruct (fetchone _ (channels d)) as [row|] eqn:E; simpl.
  - rewrite fetchone_fmap, E by (intros c; by case_bool_decide).
    simpl. rewrite bool_decide_eq_true_2 by done.
    apply fetchone_Some in E as [_ Hname]. by rewrite Hname.
  - by rewrite fetchone_snoc.
Qed.

(** Every way [add_channel_for_user] can return. *)
Lemma add_channel_for_user_returns (T : transport) (fuel : nat) (user_id : Z)
    (handle : pystr) (w w' : world) (r : result (bool * pystr)) :
  add_channel_for_user T fuel user_id handle w = Some (w', r) →
  let d0 := (get_or_create_user (db w) user_id None).1 in
  (already_added d0 user_id handle = true
   ∧ r = Ret (false, str "channel_already_added")
   ∧ db w' = d0 ∧ watching_channels w' = watching_channels w ∧ trace w' = trace w)
  ∨ (already_added d0 user_id handle = false
     ∧ ((r = Ret (false, str "channel_not_found")
         ∧ db w' = d0 ∧ watching_channels w' = watching_channels w)
        ∨ ∃ id title,
            let a := add_channel d0 (lstrip_at handle) id title in
            get_entity T (pred (calls w')) (lstrip_at handle) = Ret (EntChannel id title)
            ∧ (((user_id, a.2) ∈ user_channels d0
                ∧ r = Ret (false, str "channel_already_added")
                ∧ db w' = a.1 ∧ watching_channels w' = watching_channels w)
               ∨ (((user_id, a.2) ∉ user_channels d0)
                  ∧ r = Ret (true, title)
                  ∧ db w' = set_user_channels a.1 (user_channels d0 ++ [(user_id, a.2)])
                  ∧ watching_channels w' = {[id]} ∪ watching_channels w)))).
Proof.
  unfold add_channel_for_user, with_db.
  destruct (get_or_create_user (db w) user_id None) as [d0 row].
  cbn [fst snd db]. fold (already_added d0 user_id handle).
  destruct (already_added d0 user_id handle) eqn:Eearly.
  { intros [= <- <-]. by left. }
  intros H. right. split; [done|]. revert H.
  set (w0 := mk_world d0 _ _ _ _) in *.
  destruct (resolve_channel T fuel handle w0) as [[w1 r1]|] eqn:Er; [|done].
  apply resolve_channel_returns in Er as (Hd & Hw & _ & _ & o & -> & Ho).
  subst w0. simpl in Hd, Hw.
  destruct o as [[name id title]|]; [|intros [= <- <-]; by left].
  destruct Ho as [Hname Hent]. simpl in Hname, Hent. subst name.
  intros H. right. exists id, title. cbn zeta.
  destruct (add_channel_frame d0 (lstrip_at handle) id title) as (_ & Hucs & _).
  revert H. unfold bind, with_db, add_user_channel. simpl. rewrite Hd.
  destruct (add_channel d0 (lstrip_at handle) id title) as [d1 cid] eqn:Ea. simpl in *.
  rewrite Hucs. case_bool_decide as Hin; simpl.
  - intros [= <- <-]. split; [done|]. by left.
  - unfold _add_channel_handler. simpl. rewrite Hw.
    case_bool_decide as Hwatch; simpl; intros [= <- <-]; simpl;
      (split; [done|]); right; split_and!; try done.
    apply leibniz_equiv. symmetry. apply subseteq_union_1, singleton_subseteq_l. done.
Qed.

Lemma get_or_create_user_registers (d : database) (user_id : Z) (username : option pystr) :
  get_user (get_or_create_user d user_id username).1 user_id
  = Some (get_or_create_user d user_id username).2.
Proof.
  unfold get_user, get_or_create_user.
  destruct (fetchone _ (users d)) as [row|] eqn:E; [done|]. simpl.
  by rewrite fetchone_snoc.
Qed.

(** What holds after [add_channel_for_user], outcome by outcome. *)
Lemma add_channel_for_user_post (T : transport) (fuel : nat) (user_id : Z) (handle : pystr)
    (w w' : world) (r : result (bool * pystr)) :
  add_channel_for_user T fuel user_id handle w = Some (w', r) →
  ∃ ok key, r = Ret (ok, key)
    ∧ (∃ u, get_user (db w') user_id = Some u)
    ∧ posts (db w') = posts (db w)
    ∧ (store_ok (db w) → store_ok (db w'))
    ∧ if ok then
        ∃ c, get_channel_by_username (db w') (lstrip_at handle) = Some c
          ∧ key = ch_title c
          ∧ get_entity T (pred (calls w')) (lstrip_at handle)
            = Ret (EntChannel (ch_channel_id c) (ch_title c))
          ∧ user_has_channel (db w) user_id (ch_id c) = false
          ∧ user_channels (db w') = user_channels (db w) ++ [(user_id, ch_id c)]
          ∧ watching_channels w' = {[ch_channel_id c]} ∪ watching_channels w
      else
        (key = str "channel_already_added" ∨ key = str "channel_not_found")
        ∧ user_channels (db w') = user_channels (db w)
        ∧ watching_channels w' = watching_channels w
        ∧ (key = str "channel_already_added" →
           ∃ c, c ∈ channels (db w') ∧ user_has_channel (db w') user_id (ch_id c) = true).
Proof.
  intros H. apply add_channel_for_user_returns in H. cbn zeta in H.
  pose proof (get_or_create_user_registers (db w) user_id None) as Hreg.
  pose proof (get_or_create_user_keeps_store_ok (db w) user_id None) as Hok0.
  destruct (get_or_create_user_frame (db w) user_id None) as (_ & Hc0 & Hcs0 & Huc0 & Hp0).
  cbn zeta in Hc0, Hcs0, Huc0, Hp0.
  set (d0 := (get_or_create_user (db w) user_id None).1) in *.
  destruct H as [(Hearly & -> & Hd & Hw & _)|[Hearly [(-> & Hd & Hw)|(id & title & Hent & H)]]].
  - exists false, (str "channel_already_added"). rewrite Hd.
    split_and!; eauto. 
    intros _. unfold already_added, get_channel_by_username in Hearly.
    destruct (fetchone _ (channels d0)) as [c|] eqn:E; [|done].
    exists c. split; [|done]. by apply fetchone_Some in E as [? _].
  - exists false, (str "channel_not_found"). rewrite Hd.
    split_and!; eauto. intros Heq. by vm_compute in Heq.
  - cbn zeta in H.
    pose proof (add_channel_lookup d0 (lstrip_at handle) id title) as Hlook.
    pose proof (add_channel_keeps_store_ok d0 (lstrip_at handle) id title) as Hok1.
    destruct (add_channel_frame d0 (lstrip_at handle) id title) as (Hu1 & Huc1 & Hp1).
    cbn zeta in Hu1, Huc1, Hp1.
    destruct (add_channel d0 (lstrip_at handle) id title) as [d1 cid] eqn:Ea.
    cbn [fst snd] in *.
    destruct H as [(Hin & -> & Hd & Hw)|(Hnin & -> & Hd & Hw)].
    + exists false, (str "channel_already_added"). rewrite Hd.
      split_and!; eauto.
      * exists (get_or_create_user (db w) user_id None).2.
        unfold get_user in *. by rewrite Hu1.
      * congruence.
      * congruence.
      * intros _. exists (mk_channel cid (lower (lstrip_at handle)) id title). split.
        -- unfold get_channel_by_username in Hlook. by apply fetchone_Some in Hlook as [? _].
        -- unfold user_has_channel. cbn [ch_id]. rewrite Huc1. by apply bool_decide_eq_true_2.
    + exists true, title. rewrite Hd.
      split_and!.
      * done.
      * exists (get_or_create_user (db w) user_id None).2.
        unfold get_user in *. cbn [set_user_channels users]. by rewrite Hu1.
      * cbn [set_user_channels posts]. congruence.
      * intros Hok. 
        pose proof (add_user_channel_keeps_store_ok d1 user_id cid (Hok1 (Hok0 Hok))) as Hok2.
        unfold add_user_channel in Hok2. rewrite Huc1 in Hok2.
        rewrite bool_decide_eq_false_2 in Hok2 by done. cbn [fst] in Hok2. exact Hok2.
      * exists (mk_channel cid (lower (lstrip_at handle)) id title).
        cbn [ch_id ch_title ch_channel_id]. split_and!; try done.
        -- unfold user_has_channel. rewrite <- Huc0. by apply bool_decide_eq_false_2.
        -- cbn [set_user_channels user_channels]. by rewrite Huc0.
Qed.

(** X12.  The outcomes of [add_channel_for_user].  Whenever the call returns,
    it returns a pair and never raises; the user is registered, no post is
    touched and the schema constraints are kept.  On [(True, title)] the
    handle without its "@" is stored with the id and the title that the last
    [get_entity] call answered, [title] is that title, exactly one
    subscription row (this user, this channel) was appended, the user did
    not have it before, and the channel's external id is watched.  On
    [False] the key is "channel_already_added" or "channel_not_found", no
    subscription row is added and the watch set is unchanged; with
    "channel_already_added" the user does hold a subscription to a stored
    channel. *)
Theorem subscribe_outcomes (T : transport) (fuel : nat) (user_id : Z) (handle : pystr)
    (w w' : world) (r : result (bool * pystr)) :
  add_channel_for_user T fuel user_id handle w = Some (w', r) →
  ∃ ok key, r = Ret (ok, key)
    ∧ (∃ u, get_user (db w') user_id = Some u)
    ∧ posts (db w') = posts (db w)
    ∧ (store_ok (db w) → store_ok (db w'))
    ∧ if ok then
        ∃ c, get_channel_by_username (db w') (lstrip_at handle) = Some c
          ∧ key = ch_title c
          ∧ get_entity T (pred (calls w')) (lstrip_at handle)
            = Ret (EntChannel (ch_channel_id c) (ch_title c))
          ∧ user_has_channel (db w) user_id (ch_id c) = false
          ∧ user_channels (db w') = user_channels (db w) ++ [(user_id, ch_id c)]
          ∧ watching_channels w' = {[ch_channel_id c]} ∪ watching_channels w
      else
        (key = str "channel_already_added" ∨ key = str "channel_not_found")
        ∧ user_channels (db w') = user_channels (db w)
        ∧ watching_channels w' = watching_channels w
        ∧ (key = str "channel_already_added" →
           ∃ c, c ∈ channels (db w') ∧ user_has_channel (db w') user_id (ch_id c) = true).
Proof. apply add_channel_for_user_post. Qed.

Lemma subscribe_outcomes_witness :
  let w := start_world one_subscriber_db [] in
  let T := flooding_transport 1 3 in
  let handle := str "@News" in
  let w' := default w (fst <$> add_channel_for_user T 4 9 handle w) in
  let r : result (bool * pystr) := Ret (true, str "News") in
  ∃ ok key, r = Ret (ok, key)
    ∧ (∃ u, get_user (db w') 9 = Some u)
    ∧ posts (db w') = posts (db w)
    ∧ (store_ok (db w) → store_ok (db w'))
    ∧ if ok then
        ∃ c, get_channel_by_username (db w') (lstrip_at handle) = Some c
          ∧ key = ch_title c
          ∧ get_entity T (pred (calls w')) (lstrip_at handle)
            = Ret (EntChannel (ch_channel_id c) (ch_title c))
          ∧ user_has_channel (db w) 9 (ch_id c) = false
          ∧ user_channels (db w') = user_channels (db w) ++ [(9, ch_id c)]
          ∧ watching_channels w' = {[ch_channel_id c]} ∪ watching_channels w
      else
        (key = str "channel_already_added" ∨ key = str "channel_not_found")
        ∧ user_channels (db w') = user_channels (db w)
        ∧ watching_channels w' = watching_channels w
        ∧ (key = str "channel_already_added" →
           ∃ c, c ∈ channels (db w') ∧ user_has_channel (db w') 9 (ch_id c) = true).
Proof.
  apply (subscribe_outcomes (flooding_transport 1 3) 4 9 (str "@News")
           (start_world one_subscriber_db [])).
  vm_compute. reflexivity.
Defined.

Lemma remove_user_channel_miss (d : database) (user_id channel_id : Z) :
  (user_id, channel_id) ∉ user_channels d →
  remove_user_channel d user_id channel_id = (d, false).
Proof.
  intros Hnin. unfold remove_user_channel.
  rewrite (filter_all (λ uc, uc ≠ (user_id, channel_id))), set_user_channels_same.
  - rewrite (filter_none (λ uc, uc = (user_id, channel_id))); [done|].
    apply Forall_forall. intros uc Huc ->. done.
  - apply Forall_forall. intros uc Huc ->. done.
Qed.

Lemma remove_user_channel_hit (d : database) (user_id channel_id : Z) :
  (user_id, channel_id) ∈ user_channels d →
  (remove_user_channel d user_id channel_id).2 = true.
Proof.
  intros Hin. unfold remove_user_channel. cbn [snd]. apply bool_decide_eq_true_2.
  assert ((user_id, channel_id)
          ∈ filter (λ uc, uc = (user_id, channel_id)) (user_channels d)) as Hhit
    by by apply list_elem_of_filter.
  destruct (filter _ (user_channels d)); [by apply elem_of_nil in Hhit|simpl; lia].
Qed.

(** What holds after [remove_channel_for_user], outcome by outcome. *)
Lemma remove_channel_for_user_post (user_id : Z) (handle : pystr) (w : world) :
  let out := remove_channel_for_user user_id handle w in
  let w' := out.1 in
  ∃ ok key, out.2 = Ret (ok, key)
    ∧ users (db w') = users (db w) ∧ channels (db w') = channels (db w)
    ∧ posts (db w') = posts (db w)
    ∧ calls w' = calls w
    ∧ (store_ok (db w) → store_ok (db w'))
    ∧ if ok then
        ∃ c, get_channel_by_username (db w) (lstrip_at handle) = Some c
          ∧ key = ch_title c
          ∧ user_has_channel (db w) user_id (ch_id c) = true
          ∧ user_has_channel (db w') user_id (ch_id c) = false
          ∧ user_channels (db w')
            = filter (λ uc, uc ≠ (user_id, ch_id c)) (user_channels (db w))
          ∧ watching_channels w'
            = (if bool_decide (get_channel_users (db w') (ch_id c) = [])
               then watching_channels w ∖ {[ch_channel_id c]}
               else watching_channels w)
      else
        key = str "channel_not_in_list" ∧ w' = w
        ∧ ∀ c, get_channel_by_username (db w) (lstrip_at handle) = Some c →
               user_has_channel (db w) user_id (ch_id c) = false.
Proof.
  cbn zeta. unfold remove_channel_for_user, bind, read_db.
  destruct (get_channel_by_username (db w) (lstrip_at handle)) as [c|] eqn:Ec.
  2:{ exists false, (str "channel_not_in_list"). unfold ret. cbn [fst snd].
      split_and!; done. }
  unfold with_db.
  destruct (decide ((user_id, ch_id c) ∈ user_channels (db w))) as [Hin|Hnin].
  - pose proof (remove_user_channel_hit (db w) user_id (ch_id c) Hin) as Hhit.
    pose proof (remove_user_channel_keeps_store_ok (db w) user_id (ch_id c)) as Hok.
    destruct (remove_user_channel (db w) user_id (ch_id c)) as [d1 b] eqn:Er.
    cbn [fst snd] in Hhit, Hok. subst b.
    assert (d1 = set_user_channels (db w)
                   (filter (λ uc, uc ≠ (user_id, ch_id c)) (user_channels (db w)))) as Hd1.
    { unfold remove_user_channel in Er. by injection Er as <- _. }
    exists true, (ch_title c). cbn [db].
    assert (user_has_channel d1 user_id (ch_id c) = false) as Hgone.
    { unfold user_has_channel. apply bool_decide_eq_false_2. rewrite Hd1.
      cbn [set_user_channels user_channels]. intros Hx.
      by apply list_elem_of_filter in Hx as [? _]. }
    destruct (get_channel_users d1 (ch_id c)) as [|u rest] eqn:Eu;
      unfold _remove_channel_handler, ret, log, emit;
      cbn [fst snd db watching_channels calls];
      (split_and!; [done|by rewrite Hd1..|done|done|]);
      exists c; split_and!; try done;
      try (by apply bool_decide_eq_true_2); try (by rewrite Hd1); by rewrite Eu.
  - rewrite (remove_user_channel_miss _ _ _ Hnin).
    exists false, (str "channel_not_in_list"). unfold ret. cbn [fst snd].
    assert (mk_world (db w) (watching_channels w) (clock w) (calls w) (trace w) = w) as ->
      by by destruct w.
    split_and!; try done.
    intros c' [= <-]. by apply bool_decide_eq_false_2.
Qed.

(** X13.  The outcomes of [remove_channel_for_user].  The call never raises
    and never calls Telegram; it touches no user, channel or post row and
    keeps the schema constraints.  On [(True, title)] the handle without its
    "@" names a stored channel with that title, the user held a subscription
    to it, exactly the rows of this (user, channel) pair are gone, and the
    channel's external id leaves the watch set exactly when
    [get_channel_users] finds no subscriber left.  On [False] the key is
    "channel_not_in_list" and the whole state is as before: the handle is
    not stored, or the user holds no subscription to it. *)
Theorem unsubscribe_outcomes (user_id : Z) (handle : pystr) (w : world) :
  let out := remove_channel_for_user user_id handle w in
  let w' := out.1 in
  ∃ ok key, out.2 = Ret (ok, key)
    ∧ users (db w') = users (db w) ∧ channels (db w') = channels (db w)
    ∧ posts (db w') = posts (db w)
    ∧ calls w' = calls w
    ∧ (store_ok (db w) → store_ok (db w'))
    ∧ if ok then
        ∃ c, get_channel_by_username (db w) (lstrip_at handle) = Some c
          ∧ key = ch_title c
          ∧ user_has_channel (db w) user_id (ch_id c) = true
          ∧ user_has_channel (db w') user_id (ch_id c) = false
          ∧ user_channels (db w')
            = filter (λ uc, uc ≠ (user_id, ch_id c)) (user_channels (db w))
          ∧ watching_channels w'
            = (if bool_decide (get_channel_users (db w') (ch_id c) = [])
               then watching_channels w ∖ {[ch_channel_id c]}
               else watching_channels w)
      else
        key = str "channel_not_in_list" ∧ w' = w
        ∧ ∀ c, get_channel_by_username (db w) (lstrip_at handle) = Some c →
               user_has_channel (db w) user_id (ch_id c) = false.
Proof. apply remove_channel_for_user_post. Qed.

Lemma elem_of_get_all_channels (d : database) (c : channel_row) :
  c ∈ get_all_channels d
  ↔ c ∈ channels d ∧ ∃ uc, uc ∈ user_channels d ∧ uc.2 = ch_id c.
Proof.
  unfold get_all_channels. rewrite elem_of_remove_dups, list_elem_of_bind. split.
  - intros (c' & Hc & Hc'). apply list_elem_of_bind in Hc as (uc & Hc & Huc).
    apply list_elem_of_singleton in Hc as ->.
    apply list_elem_of_filter in Huc as [Heq Huc]. eauto.
  - intros (Hc & uc & Huc & Heq). exists c. split; [|done].
    apply list_elem_of_bind. exists uc. split; [by apply list_elem_of_singleton|].
    by apply list_elem_of_filter.
Qed.

Lemma union_shift (x : Z) (X Y : gset Z) : {[x]} ∪ X ∪ Y = X ∪ ({[x]} ∪ Y).
Proof.
  apply set_eq. intros y. rewrite !elem_of_union, elem_of_singleton. tauto.
Qed.

Lemma for_each_step {A} (body : A → M unit) (x : A) (l : list A) (w : world) :
  (body x w).2 = Ret tt → for_each (x :: l) body w = for_each l body (body x w).1.
Proof.
  intros Hx. cbn [for_each]. unfold bind. destruct (body x w) as [w1 r].
  cbn [fst snd] in *. by subst r.
Qed.

Lemma _add_channel_handler_effect (channel_id : Z) (w : world) :
  let out := _add_channel_handler channel_id w in
  out.2 = Ret tt ∧ db out.1 = db w ∧ calls out.1 = calls w ∧ clock out.1 = clock w
  ∧ watching_channels out.1 = {[channel_id]} ∪ watching_channels w
  ∧ ∃ logs, trace out.1 = trace w ++ logs ∧ Forall is_log logs.
Proof.
  cbn zeta. unfold _add_channel_handler. case_bool_decide as Hin.
  - cbn [fst snd]. split_and!; try done.
    + symmetry. by apply subseteq_union_1_L, singleton_subseteq_l.
    + exists []. split; [by rewrite app_nil_r|constructor].
  - unfold log. cbn [fst snd emit db calls clock watching_channels trace].
    split_and!; try done. exists [EvLog Debug]. split; [done|by repeat constructor].
Qed.

Lemma add_handlers_total {A} (f : A → Z) (l : list A) :
  ∀ w, let out := for_each l (λ x, _add_channel_handler (f x)) w in
       out.2 = Ret tt ∧ db out.1 = db w ∧ calls out.1 = calls w
       ∧ clock out.1 = clock w
       ∧ watching_channels out.1 = list_to_set (f <$> l) ∪ watching_channels w
       ∧ ∃ logs, trace out.1 = trace w ++ logs ∧ Forall is_log logs.
Proof.
  induction l as [|x l IH]; intros w; cbn zeta.
  - cbn [for_each]. unfold ret. cbn [fst snd].
    split_and!; try done.
    + rewrite fmap_nil, list_to_set_nil. by rewrite union_empty_l_L.
    + exists []. split; [by rewrite app_nil_r|constructor].
  - destruct (_add_channel_handler_effect (f x) w)
      as (Hr1 & Hd1 & Hc1 & Hcl1 & Hw1 & logs1 & Ht1 & Hlogs1).
    rewrite (for_each_step (λ x, _add_channel_handler (f x))) by done.
    destruct (IH (_add_channel_handler (f x) w).1)
      as (Hr & Hd & Hc & Hcl & Hw & logs & Ht & Hlogs).
    split_and!; try congruence.
    + rewrite Hw, Hw1, fmap_cons, list_to_set_cons. by rewrite union_shift.
    + exists (logs1 ++ logs). split; [|by apply Forall_app].
      by rewrite Ht, Ht1, <- app_assoc.
Qed.

(** X14.  [start].  It never raises, calls Telegram never, leaves the store
    and the clock alone, only logs, and afterwards the watch set holds what
    was watched before plus the external id of every stored channel that
    has a subscription row; a channel nobody subscribes to is not added. *)
Theorem start_watches_subscribed_channels (w : world) :
  let out := start w in
  out.2 = Ret tt ∧ db out.1 = db w ∧ calls out.1 = calls w ∧ clock out.1 = clock w
  ∧ (∃ logs, trace out.1 = trace w ++ logs ∧ Forall is_log logs)
  ∧ ∀ id, id ∈ watching_channels out.1
          ↔ id ∈ watching_channels w
            ∨ ∃ c uc, c ∈ channels (db w) ∧ uc ∈ user_channels (db w)
                      ∧ uc.2 = ch_id c ∧ ch_channel_id c = id.
Proof.
  cbn zeta. unfold start, bind at 1, read_db. unfold bind.
  destruct (add_handlers_total ch_channel_id (get_all_channels (db w)) w)
    as (Hr & Hd & Hc & Hcl & Hw & logs & Ht & Hlogs).
  destruct (for_each _ _ w) as [w1 r] eqn:E. cbn [fst snd] in *. subst r.
  unfold log. cbn [fst snd emit db calls clock watching_channels trace].
  split_and!; try done.
  - exists (logs ++ [EvLog Info]). split.
    + by rewrite Ht, <- app_assoc.
    + apply Forall_app. split; [done|]. by repeat constructor.
  - intros id. rewrite Hw, elem_of_union, elem_of_list_to_set, list_elem_of_fmap.
    split.
    + intros [(c & -> & Hc')|Hold]; [|by left]. right.
      apply elem_of_get_all_channels in Hc' as (Hc' & uc & Huc & Heq). eauto 10.
    + intros [Hold|(c & uc & Hc' & Huc & Heq & <-)]; [by right|]. left.
      exists c. split; [done|]. apply elem_of_get_all_channels. eauto.
Qed.

(** ** Ingest *)




Lemma sends_app (evs evs' : list event) : sends (evs ++ evs') = sends evs ++ sends evs'.
Proof. apply omap_app. Qed.







(** ** The listing of a user's channels *)

Lemma text_le_total (a b : pystr) : text_le a b = false → text_le b a = true.
Proof.
  revert b. induction a as [|x a IH]; intros [|y b]; simpl; try done.
  repeat case_bool_decide; try done; try lia. apply IH.
Qed.

Lemma text_le_trans (a b c : pystr) :
  text_le a b = true → text_le b c = true → text_le a c = true.
Proof.
  revert b c. induction a as [|x a IH]; intros [|y b] [|z c]; simpl; try done.
  repeat case_bool_decide; try done; try lia. apply IH.
Qed.

Lemma insert_by_title_Permutation (c : channel_row) (l : list channel_row) :
  insert_by_title c l ≡ₚ c :: l.
Proof.
  induction l as [|c' l IH]; simpl; [done|].
  destruct (text_le _ _); [done|]. rewrite IH. apply Permutation_swap.
Qed.

Lemma order_by_title_Permutation (l : list channel_row) : order_by_title l ≡ₚ l.
Proof.
  induction l as [|c l IH]; simpl; [done|].
  by rewrite insert_by_title_Permutation, IH.
Qed.

Lemma insert_by_title_sorted (c : channel_row) (l : list channel_row) :
  StronglySorted title_le l → StronglySorted title_le (insert_by_title c l).
Proof.
  induction 1 as [|c' l Hs IH Hc']; simpl.
  - repeat constructor.
  - destruct (text_le (ch_title c) (ch_title c')) eqn:Hle.
    + constructor; [by constructor|]. constructor; [done|].
      eapply Forall_impl; [exact Hc'|]. intros x Hx. unfold title_le in *.
      by eapply text_le_trans.
    + constructor; [done|]. rewrite insert_by_title_Permutation.
      constructor; [|done]. by apply text_le_total.
Qed.

Lemma order_by_title_sorted (l : list channel_row) :
  StronglySorted title_le (order_by_title l).
Proof.
  induction l as [|c l IH]; simpl; [constructor|]. by apply insert_by_title_sorted.
Qed.

(** X17.  [get_user_channels] lists exactly the stored channels the user has
    a subscription row for, in the order of their titles; on a store that
    meets the schema's constraints each of them once. *)
Theorem user_channels_listed_by_title (d : database) (user_id : Z) :
  let listed := get_user_channels d user_id in
  (∀ c, c ∈ listed ↔ c ∈ channels d ∧ (user_id, ch_id c) ∈ user_channels d)
  ∧ StronglySorted title_le listed
  ∧ (store_ok d → NoDup listed).
Proof.
  cbn zeta. unfold get_user_channels. split_and!.
  - intros c. rewrite order_by_title_Permutation, list_elem_of_bind. split.
    + intros (c' & Hc & Hc'). apply list_elem_of_bind in Hc as ([u k] & Hc & Huc).
      apply list_elem_of_singleton in Hc as ->.
      apply list_elem_of_filter in Huc as [[Hk Hu] Huc]. simpl in *. by subst.
    + intros [Hc Huc]. exists c. split; [|done].
      apply list_elem_of_bind. exists (user_id, ch_id c).
      split; [by apply list_elem_of_singleton|]. by apply list_elem_of_filter.
  - apply order_by_title_sorted.
  - intros (_ & Hcids & _ & _ & Hucs & _). rewrite order_by_title_Permutation.
    apply NoDup_bind.
    + intros c1 c2 c _ _ H1 H2.
      apply list_elem_of_bind in H1 as (uc1 & H1 & _).
      apply list_elem_of_bind in H2 as (uc2 & H2 & _).
      apply list_elem_of_singleton in H1, H2. congruence.
    + intros c _. apply NoDup_bind.
      * intros [u1 k1] [u2 k2] c' Hu1 Hu2 _ _.
        apply list_elem_of_filter in Hu1 as [[? ?] _].
        apply list_elem_of_filter in Hu2 as [[? ?] _]. simpl in *. congruence.
      * intros uc _. apply NoDup_singleton.
      * by apply NoDup_filter.
    + by eapply NoDup_fmap_1.
Qed.

(** ** Subscribing and unsubscribing, composed *)

(** X18.  Unsubscribing undoes a subscription.  After a successful
    [add_channel_for_user], [remove_channel_for_user] with the same handle
    (with or without its "@") succeeds with the same title and leaves the
    subscription table exactly as it was before the subscription.  The
    channel row and the user row stay stored, and the channel's external id
    stays watched exactly when [get_channel_users] still finds a
    subscriber. *)
Theorem subscribe_then_unsubscribe (T : transport) (fuel : nat) (user_id : Z)
    (handle title : pystr) (w w1 : world) :
  add_channel_for_user T fuel user_id handle w = Some (w1, Ret (true, title)) →
  let out := remove_channel_for_user user_id handle w1 in
  out.2 = Ret (true, title)
  ∧ user_channels (db out.1) = user_channels (db w)
  ∧ users (db out.1) = users (db w1) ∧ channels (db out.1) = channels (db w1)
  ∧ ∃ c, get_channel_by_username (db out.1) (lstrip_at handle) = Some c
       ∧ ch_title c = title
       ∧ (ch_channel_id c ∈ watching_channels out.1
          ↔ get_channel_users (db out.1) (ch_id c) ≠ []).
Proof.
  intros Hadd. cbn zeta.
  apply add_channel_for_user_post in Hadd
    as (ok & key & [= <- <-] & _ & _ & _ & c & Hlook & -> & _ & Hnot & Hucs & Hwatch).
  destruct (remove_channel_for_user_post user_id handle w1)
    as (ok & key & Hr & Hu & Hc & _ & _ & _ & Hcase).
  cbn zeta in Hr, Hu, Hc, Hcase.
  destruct ok.
  - destruct Hcase as (c' & Hlook' & -> & _ & _ & Hucs' & Hwatch').
    rewrite Hlook in Hlook'. injection Hlook' as <-.
    split_and!; try done.
    + rewrite Hucs', Hucs, filter_app, filter_cons, decide_False by (intros Hn; by apply Hn).
      rewrite filter_nil, app_nil_r. apply filter_all, Forall_forall.
      intros uc Huc ->. unfold user_has_channel in Hnot.
      by apply bool_decide_eq_false_1 in Hnot.
    + exists c. split_and!; try done.
      * unfold get_channel_by_username in *. by rewrite Hc.
      * rewrite Hwatch'. case_bool_decide as Hrem.
        -- split; [|done]. rewrite elem_of_difference, elem_of_singleton. tauto.
        -- split; [done|]. intros _. rewrite Hwatch, elem_of_union, elem_of_singleton.
           by left.
  - destruct Hcase as (_ & _ & Hno). specialize (Hno c Hlook).
    unfold user_has_channel in Hno. apply bool_decide_eq_false_1 in Hno.
    destruct Hno. rewrite Hucs, elem_of_app, list_elem_of_singleton. by right.
Qed.

Lemma subscribe_then_unsubscribe_witness :
  let w := start_world one_subscriber_db [100] in
  let w1 := default w (fst <$> add_channel_for_user ok_transport 1 9 (str "@news") w) in
  let out := remove_channel_for_user 9 (str "@news") w1 in
  out.2 = Ret (true, str "News")
  ∧ user_channels (db out.1) = user_channels (db w)
  ∧ users (db out.1) = users (db w1) ∧ channels (db out.1) = channels (db w1)
  ∧ ∃ c, get_channel_by_username (db out.1) (lstrip_at (str "@news")) = Some c
       ∧ ch_title c = str "News"
       ∧ (ch_channel_id c ∈ watching_channels out.1
          ↔ get_channel_users (db out.1) (ch_id c) ≠ []).
Proof.
  apply (subscribe_then_unsubscribe ok_transport 1 9 (str "@news") (str "News")
           (start_world one_subscriber_db [100])).
  vm_compute. reflexivity.
Defined.

(** ** The scheduler *)

Lemma send_digest_to_user_effect (T : transport) (user_id : Z) (lang : pystr) (w : world) :
  let w' := (send_digest_to_user T user_id lang w).1 in
  watching_channels w' = watching_channels w
  ∧ (∃ ids, db w' = mark_posts_sent (db w) ids)
  ∧ ∃ evs, trace w' = trace w ++ evs ∧ Forall (λ s, s.1 = user_id) (sends evs).
Proof.
  cbn zeta.
  destruct (get_unsent_posts_for_user (db w) (clock w) user_id) as [|r rs] eqn:E.
  { rewrite send_digest_to_user_empty by done. cbn [fst].
    split_and!; [done|by exists []|]. exists []. by rewrite app_nil_r. }
  assert (get_unsent_posts_for_user (db w) (clock w) user_id ≠ []) as Hne by by rewrite E.
  destruct (send_message T (calls w) user_id
              (build_digest lang (get_unsent_posts_for_user (db w) (clock w) user_id)))
    as [[]|e] eqn:Es.
  - rewrite (send_digest_to_user_delivered T user_id lang w Hne Es).
    unfold delivered. cbn [fst db watching_channels trace].
    split_and!; [done|by eexists|]. eexists. split; [done|]. by repeat constructor.
  - rewrite (send_digest_to_user_refused T user_id lang w e Hne Es).
    destruct e; cbn [fst db watching_channels trace];
      (split_and!; [done|by exists []|]); (eexists; split; [done|]);
      by repeat constructor.
Qed.

Lemma digests_effect (T : transport) (due : list user_row) :
  ∀ w,
    let w' := foldl (λ w0 user,
                       (send_digest_to_user T (u_user_id user) (u_language user) w0).1)
                w due in
    watching_channels w' = watching_channels w
    ∧ (∃ ids, db w' = mark_posts_sent (db w) ids)
    ∧ ∃ evs, trace w' = trace w ++ evs
             ∧ Forall (λ s, ∃ u, u ∈ due ∧ s.1 = u_user_id u) (sends evs).
Proof.
  induction due as [|u us IH]; intros w; cbn zeta.
  - cbn [foldl]. split_and!; [done|by exists []|]. exists []. by rewrite app_nil_r.
  - cbn [foldl].
    destruct (send_digest_to_user_effect T (u_user_id u) (u_language u) w)
      as (Hw1 & [ids1 Hd1] & evs1 & Ht1 & Hs1).
    cbn zeta in Hw1, Hd1, Ht1.
    set (w1 := (send_digest_to_user T (u_user_id u) (u_language u) w).1) in *.
    destruct (IH w1) as (Hw & [ids Hd] & evs & Ht & Hs).
    split_and!.
    + congruence.
    + exists (ids1 ++ ids). by rewrite Hd, Hd1, mark_posts_sent_app.
    + exists (evs1 ++ evs). split; [by rewrite Ht, Ht1, <- app_assoc|].
      rewrite sends_app. apply Forall_app. split.
      * eapply Forall_impl; [exact Hs1|]. intros s Hs'. exists u.
        split; [apply list_elem_of_here|done].
      * eapply Forall_impl; [exact Hs|]. intros s (v & Hv & Hs'). exists v.
        split; [by apply list_elem_of_further|done].
Qed.

Lemma midnight_and_sleep_effect (current_time : pystr) (w : world) :
  let out := (midnight_cleanup current_time ;; sleep (seconds_us 60)) w in
  out.2 = Ret tt
  ∧ watching_channels out.1 = watching_channels w
  ∧ db out.1 = (if bool_decide (current_time = str "00:00")
                then (cleanup_old_posts (db w) (clock w) 7).1 else db w)
  ∧ ∃ evs, trace out.1 = trace w ++ evs ∧ sends evs = [].
Proof.
  cbn zeta. unfold midnight_cleanup. case_bool_decide as Hmid.
  - run_M. case_bool_decide; simpl; (split_and!; [done..|]); eexists;
      rewrite <- ?(assoc_L (++)); split; done.
  - run_M. split_and!; [done..|]. eexists. split; done.
Qed.

(** X19.  One turn of the scheduler.  It never raises and leaves the watch
    set, the users, the channels and the subscriptions alone.  Every message
    it sends goes to a user who is in digest mode with the digest time equal
    to the clock's HH:MM at the start of the turn.  It never adds a post;
    unless that HH:MM is "00:00" it deletes none either: all it does to the
    store is to set [sent] flags.  The schema constraints are kept. *)
Theorem scheduler_turn_effect (T : transport) (w : world) :
  let out := scheduler_turn T w in
  let current_time := strftime_HM (clock w) in
  out.2 = Ret tt
  ∧ watching_channels out.1 = watching_channels w
  ∧ users (db out.1) = users (db w) ∧ channels (db out.1) = channels (db w)
  ∧ user_channels (db out.1) = user_channels (db w)
  ∧ Forall (λ s, ∃ u, u ∈ users (db w) ∧ u_mode u = str "digest"
                      ∧ u_digest_time u = current_time ∧ s.1 = u_user_id u)
      (sends (events_since w out.1))
  ∧ (p_id <$> posts (db out.1)) `sublist_of` (p_id <$> posts (db w))
  ∧ (current_time ≠ str "00:00" → ∃ ids, db out.1 = mark_posts_sent (db w) ids)
  ∧ (store_ok (db w) → store_ok (db out.1)).
Proof.
  cbn zeta. rewrite scheduler_turn_runs_all.
  destruct (digests_effect T (get_users_for_digest (db w) (strftime_HM (clock w))) w)
    as (Hw1 & [ids Hd1] & evs1 & Ht1 & Hs1).
  cbn zeta in Hw1, Hd1, Ht1.
  set (w1 := foldl _ w _) in *.
  destruct (midnight_and_sleep_effect (strftime_HM (clock w)) w1)
    as (Hr & Hw & Hd & evs & Ht & Hs).
  cbn zeta in Hr, Hw, Hd, Ht.
  set (out := (midnight_cleanup _ ;; sleep _) w1) in *.
  destruct (mark_posts_sent_others (db w) ids) as (Hmu & Hmc & Hmuc).
  destruct (mark_posts_sent_ids (db w) ids) as (Hmid & _).
  assert (users (db out.1) = users (db w1) ∧ channels (db out.1) = channels (db w1)
          ∧ user_channels (db out.1) = user_channels (db w1)
          ∧ (p_id <$> posts (db out.1)) `sublist_of` (p_id <$> posts (db w1))
          ∧ (store_ok (db w1) → store_ok (db out.1))) as (Hu & Hc & Huc & Hp & Hok).
  { rewrite Hd. case_bool_decide; [|done].
    cbn [cleanup_old_posts fst set_posts users channels user_channels posts].
    split_and!; [done..|apply fmap_sublist, sublist_filter|].
    apply cleanup_old_posts_keeps_store_ok. }
  split_and!.
  - done.
  - congruence.
  - by rewrite Hu, Hd1.
  - by rewrite Hc, Hd1.
  - by rewrite Huc, Hd1.
  - rewrite (events_since_app w out.1 (evs1 ++ evs))
      by (by rewrite Ht, Ht1, <- app_assoc).
    rewrite sends_app, Hs, app_nil_r.
    eapply Forall_impl; [exact Hs1|]. intros s (u & Hu' & Hsu). exists u.
    unfold get_users_for_digest in Hu'. apply list_elem_of_filter in Hu' as [[? ?] ?].
    done.
  - etrans; [exact Hp|]. by rewrite Hd1, Hmid.
  - intros Hnot. exists ids. rewrite Hd, bool_decide_eq_false_2 by done. done.
  - intros Hstore. apply Hok. rewrite Hd1. by apply mark_posts_sent_keeps_store_ok.
Qed.

(** ** Subscribing under a rate limit *)



(** ** The subscribers of a channel *)

Lemma filter_NoDup_at_most_one {A} `{EqDecision A} (P : A → Prop) `{∀ x, Decision (P x)}
    (l : list A) (a : A) :
  NoDup l → (∀ x, P x → x = a) → filter P l = [] ∨ filter P l = [a].
Proof.
  intros Hnd Hall.
  pose proof (NoDup_filter P l Hnd) as Hf.
  assert (∀ x, x ∈ filter P l → x = a) as Hin.
  { intros x Hx. apply list_elem_of_filter in Hx as [? _]. by apply Hall. }
  destruct (filter P l) as [|x [|y rest]]; [by left| |].
  - right. f_equal. apply Hin, list_elem_of_here.
  - apply NoDup_cons in Hf as [Hx _]. destruct Hx.
    rewrite (Hin x), <- (Hin y).
    + apply list_elem_of_here.
    + apply list_elem_of_further, list_elem_of_here.
    + apply list_elem_of_here.
Qed.

Lemma elem_of_get_channel_users (d : database) (channel_db_id : Z) (u : user_row) :
  u ∈ get_channel_users d channel_db_id
  ↔ u ∈ users d ∧ (u_user_id u, channel_db_id) ∈ user_channels d.
Proof.
  unfold get_channel_users. rewrite list_elem_of_bind. split.
  - intros (u' & Hu & Hu'). apply list_elem_of_bind in Hu as ([v k] & Hu & Huc).
    apply list_elem_of_singleton in Hu as ->.
    apply list_elem_of_filter in Huc as [[Hv Hk] Huc]. simpl in *. by subst.
  - intros [Hu Huc]. exists u. split; [|done].
    apply list_elem_of_bind. exists (u_user_id u, channel_db_id).
    split; [by apply list_elem_of_singleton|]. by apply list_elem_of_filter.
Qed.

(** X21.  [get_channel_users] returns exactly the stored users that have a
    subscription row for the channel; on a store that meets the schema's
    constraints each of them once, in the order of the users table (so the
    fan-out of a message reaches a subscriber once). *)
Theorem channel_subscribers_listed_once (d : database) (channel_db_id : Z) :
  let subscribers := get_channel_users d channel_db_id in
  (∀ u, u ∈ subscribers ↔ u ∈ users d ∧ (u_user_id u, channel_db_id) ∈ user_channels d)
  ∧ (store_ok d → subscribers `sublist_of` users d ∧ NoDup (u_user_id <$> subscribers)).
Proof.
  cbn zeta. split.
  - intros u. apply elem_of_get_channel_users.
  - unfold get_channel_users. intros (Hu & _ & _ & _ & Hucs & _).
    assert ((u ← users d;
             _ ← filter (λ uc, uc.1 = u_user_id u ∧ uc.2 = channel_db_id) (user_channels d);
             [u]) `sublist_of` users d) as Hsub.
    { clear Hu. induction (users d) as [|u us IH]; [done|]. rewrite bind_cons.
      destruct (filter_NoDup_at_most_one
                  (λ uc : Z * Z, uc.1 = u_user_id u ∧ uc.2 = channel_db_id)
                  (user_channels d) (u_user_id u, channel_db_id) Hucs) as [Hf|Hf].
      - intros [v k] [? ?]. simpl in *. by subst.
      - rewrite Hf. by apply sublist_cons.
      - rewrite Hf. by apply sublist_skip. }
    split; [done|]. eapply sublist_NoDup; [exact Hu|]. by apply fmap_sublist.
Qed.

(** ** From a new message to the digest *)


